(** * SherlockOS reconstruction service ([modal/sherlock_mirror.py])

    A shallow embedding of the locally written parts of the service: the
    Gaussian-splat PLY encoder, the colour derivation from spherical-harmonic
    coefficients, the request validation, the video frame sampler, the
    prediction adapter, the storage of the file and the response of
    [reconstruct], and [download_ply].

    Conventions of the embedding:
    - a [numpy] array of [float32] is a shape and the flat row-major list of
      its elements, each element being its IEEE-754 binary32 bit pattern;
    - arithmetic on [float32] goes through [SpecFloat] at precision 24, a
      [nan] operand being passed on with its sign and payload;
    - a Python exception is the [Raise] branch of [res];
    - the request body is a JSON object with values of any JSON type;
    - files are a map from path texts to contents, two texts standing for
      two files;
    - what the code calls and does not define is a parameter: the base64
      and image decoders, OpenCV, the model, the volume's [commit],
      [numpy]'s seeded generator and its reductions of a column. *)

From Stdlib Require Import ZArith Lia List Bool.
From Stdlib Require Import Floats.SpecFloat.
From Stdlib Require Import Strings.Byte Strings.Ascii Strings.String.
From Stdlib Require Import Numbers.DecimalString Numbers.DecimalNat.
From stdpp Require Import base option list gmap strings.

Local Open Scope Z_scope.

(* ===================================================================== *)
(** * Exceptions *)
(* ===================================================================== *)

(** The exceptions the modelled code can meet.  [HTTPException] is what
    [_error_response] raises; the others come from [numpy], [struct],
    [open] and the explicit [raise RuntimeError] of the video path.

    The [detail] of an [HTTPException] is the message handed to
    [_error_response]: a literal ([Text]), or an f-string that ends in the
    exception just caught ([Fmt head exc] for [f"<head>{exc}"]).  The text
    of an exception of a library is the library's own and is kept as the
    exception itself. *)
Inductive exn : Type :=
  | ValueError
  | IndexError
  | TypeError
  | AttributeError
  | OSError
  | StructError
  | OverflowError
  | RuntimeError (msg : string)
  | HTTPException (status_code : Z) (detail : message)
with message : Type :=
  | Text (s : string)
  | Fmt (head : string) (exc : exn).

Inductive res (A : Type) : Type :=
  | Ok (a : A)
  | Raise (e : exn).
Arguments Ok {A} a.
Arguments Raise {A} e.

#[global] Instance res_ret : MRet res := fun _ a => Ok a.
#[global] Instance res_bind : MBind res := fun _ _ f m =>
  match m with
  | Ok a => f a
  | Raise e => Raise e
  end.

(** [for i in range(..)] over a body that may raise. *)
Fixpoint for_each {A B : Type} (f : A -> res B) (l : list A) : res (list B) :=
  match l with
  | [] => Ok []
  | a :: l' =>
      match f a with
      | Raise e => Raise e
      | Ok b =>
          match for_each f l' with
          | Raise e => Raise e
          | Ok bs => Ok (b :: bs)
          end
      end
  end.

(* ===================================================================== *)
(** * [float32] values *)
(* ===================================================================== *)

(** A [float32] is kept as its 32-bit pattern, the way [numpy] stores it. *)
Definition f32 : Type := Z.

Definition f32_wf (b : f32) : Prop := 0 <= b < 2 ^ 32.

Definition sf_of_bits (b : f32) : spec_float :=
  let s := Z.testbit b 31 in
  let e := Z.land (Z.shiftr b 23) 255 in
  let m := Z.land b (2 ^ 23 - 1) in
  if e =? 0 then
    (if m =? 0 then S754_zero s else S754_finite s (Z.to_pos m) (-149))
  else if e =? 255 then
    (if m =? 0 then S754_infinity s else S754_nan)
  else S754_finite s (Z.to_pos (m + 2 ^ 23)) (e - 150).

Definition sign_bit (s : bool) : Z := if s then 2 ^ 31 else 0.

Definition bits_of_sf (x : spec_float) : f32 :=
  match x with
  | S754_zero s => sign_bit s
  | S754_infinity s => sign_bit s + 0x7F800000
  | S754_nan => 0x7FC00000
  | S754_finite s m e =>
      if Z.pos m <? 2 ^ 23 then sign_bit s + Z.pos m
      else sign_bit s + (e + 150) * 2 ^ 23 + (Z.pos m - 2 ^ 23)
  end.

Definition f32_mul (a b : f32) : f32 :=
  bits_of_sf (SFmul 24 128 (sf_of_bits a) (sf_of_bits b)).
Definition f32_add (a b : f32) : f32 :=
  bits_of_sf (SFadd 24 128 (sf_of_bits a) (sf_of_bits b)).
Definition f32_is_nan (a : f32) : bool :=
  match sf_of_bits a with S754_nan => true | _ => false end.
Definition f32_ltb (a b : f32) : bool := SFltb (sf_of_bits a) (sf_of_bits b).

(** A [nan] made quiet: bit 22 is set, sign and payload stay.  This is
    what the processor returns for an operation on a [nan], and for the
    conversion of one to another width. *)
Definition f32_quiet (x : f32) : f32 := Z.lor x 0x00400000.

(** The constants of the source, as [float32]. *)
Definition f32_zero : f32 := 0x00000000.
Definition f32_one : f32 := 0x3F800000.
Definition f32_half : f32 := 0x3F000000.
Definition f32_0_8 : f32 := 0x3F4CCCCD.        (* float32(0.8) *)
Definition f32_minus_5 : f32 := 0xC0A00000.    (* float32(-5.0) *)
Definition SH_C0 : f32 := 0x3E906EBB.          (* float32(0.28209479177387814) *)

(** [np.clip(x, lo, hi)] on one element: [min(max(x, lo), hi)], a [nan]
    operand being returned as it is. *)
Definition f32_max (a b : f32) : f32 :=
  if f32_is_nan a then a else if f32_ltb b a then a else b.
Definition f32_min (a b : f32) : f32 :=
  if f32_is_nan a then a else if f32_ltb a b then a else b.
Definition f32_clip (x lo hi : f32) : f32 := f32_min (f32_max x lo) hi.

(* ===================================================================== *)
(** * Bytes: [struct.pack("<f", x)] *)
(* ===================================================================== *)

Definition byte_of_Z (z : Z) : byte :=
  match Byte.of_N (Z.to_N (z mod 256)) with
  | Some b => b
  | None => x00
  end.
Definition Z_of_byte (b : byte) : Z := Z.of_N (Byte.to_N b).

(** Four bytes, least significant first. *)
Definition le_bytes (x : Z) : list byte :=
  [ byte_of_Z (Z.land x 255);
    byte_of_Z (Z.land (Z.shiftr x 8) 255);
    byte_of_Z (Z.land (Z.shiftr x 16) 255);
    byte_of_Z (Z.land (Z.shiftr x 24) 255) ].

(** [struct.pack] takes a [float32] through a Python float, a binary64,
    and back.  Every value survives the two conversions, except that a
    signalling [nan] comes back quiet. *)
Definition f32_via_float (x : f32) : f32 :=
  if f32_is_nan x then f32_quiet x else x.

(** [struct.pack("<f", x)]. *)
Definition pack_f32 (x : f32) : list byte := le_bytes (f32_via_float x).

(** [struct.pack(f"<{k}f", *row)]: [struct.error] unless exactly [k]
    values are given. *)
Definition struct_pack (k : nat) (row : list f32) : res (list byte) :=
  if (length row =? k)%nat then Ok (concat (map pack_f32 row))
  else Raise StructError.

(* ===================================================================== *)
(** * [numpy] arrays *)
(* ===================================================================== *)

Record ndarray : Type := NDArray { shape : list nat; data : list f32 }.

Definition ndim (a : ndarray) : nat := length (shape a).
Definition size (a : ndarray) : nat := length (data a).
Definition shape_at (a : ndarray) (k : nat) : nat := nth k (shape a) 0%nat.

(** An array whose buffer agrees with its shape. *)
Definition ndarray_wf (a : ndarray) : Prop :=
  length (data a) = fold_right Nat.mul 1%nat (shape a).

(** Row [i] of a buffer read as rows of [c] elements. *)
Definition row_at (c : nat) (d : list f32) (i : nat) : list f32 :=
  take c (drop (i * c) d).

(** [a.reshape(n, -1)]: [numpy] refuses when the known dimensions multiply
    to 0 or do not divide the size. *)
Definition reshape_rows (n : nat) (a : ndarray) : res ndarray :=
  if (n =? 0)%nat || negb (size a mod n =? 0)%nat then Raise ValueError
  else Ok (NDArray [n; (size a / n)%nat] (data a)).

(** [a.reshape(-1, c)]. *)
Definition reshape_cols (c : nat) (a : ndarray) : res ndarray :=
  if (c =? 0)%nat || negb (size a mod c =? 0)%nat then Raise ValueError
  else Ok (NDArray [(size a / c)%nat; c] (data a)).

(** [a.reshape(n, c)] and [a.reshape(n, 3, k)]: the size must match. *)
Definition reshape_to (shp : list nat) (a : ndarray) : res ndarray :=
  if (size a =? fold_right Nat.mul 1 shp)%nat then Ok (NDArray shp (data a))
  else Raise ValueError.

(** [a[:, :k]] of a two-dimensional array. *)
Definition slice_cols (k : nat) (a : ndarray) : ndarray :=
  let r := shape_at a 0 in
  let c := shape_at a 1 in
  NDArray [r; Nat.min k c]
          (concat (map (fun i => take k (row_at c (data a) i)) (seq 0 r))).

(** [np.tile(a, (1, 3))] of a two-dimensional array: every row three times
    in a row. *)
Definition tile3 (a : ndarray) : ndarray :=
  let r := shape_at a 0 in
  let c := shape_at a 1 in
  NDArray [r; (3 * c)%nat]
          (concat (map (fun i => let w := row_at c (data a) i in w ++ w ++ w)
                       (seq 0 r))).

(** [np.zeros(shp)] and [np.full(shp, v)]. *)
Definition full (shp : list nat) (v : f32) : ndarray :=
  NDArray shp (replicate (fold_right Nat.mul 1%nat shp) v).
Definition zeros (shp : list nat) : ndarray := full shp f32_zero.

(** [*a[i]], the values [struct.pack] is handed for row [i].  An index
    past the rows is an [IndexError], and a row that is a scalar cannot be
    unpacked.  Of an array of more than two dimensions the row holds
    sub-arrays; [struct.pack] takes each for the float it holds when it
    holds exactly one, and fails otherwise. *)
Definition unpack_row (a : ndarray) (i : nat) : res (list f32) :=
  match shape a with
  | [] => Raise IndexError
  | r :: trailing =>
      if (i <? r)%nat then
        match trailing with
        | [] => Raise TypeError
        | [c] => Ok (row_at c (data a) i)
        | c :: rest =>
            if (fold_right Nat.mul 1 rest =? 1)%nat
            then Ok (row_at c (data a) i)
            else Raise StructError
        end
      else Raise IndexError
  end.

(** [a[i, j]] of a two-dimensional array. *)
Definition index2 (a : ndarray) (i j : nat) : res f32 :=
  match shape a with
  | [r; c] =>
      if (i <? r)%nat && (j <? c)%nat
      then match data a !! (i * c + j)%nat with
           | Some x => Ok x
           | None => Raise IndexError
           end
      else Raise IndexError
  | _ => Raise IndexError
  end.

(** [a[:, :, 0]] of an array of shape [(n, 3, k)]. *)
Definition index_last0 (a : ndarray) : res ndarray :=
  match shape a with
  | [n; g; k] =>
      if (k =? 0)%nat then Raise IndexError
      else Ok (NDArray [n; g]
                 (concat (map (fun i => take 1 (row_at k (data a) i))
                              (seq 0 (n * g)))))
  | _ => Raise IndexError
  end.

(** [a[:, :, 1:].reshape(n, -1)] of an array of shape [(n, 3, k)], [k > 1]. *)
Definition slice_rest (a : ndarray) : res ndarray :=
  match shape a with
  | [n; g; k] =>
      reshape_rows n
        (NDArray [n; g; (k - 1)%nat]
           (concat (map (fun i => drop 1 (row_at k (data a) i))
                        (seq 0 (n * g)))))
  | _ => Raise IndexError
  end.

(** [a.tolist()] of a two-dimensional array. *)
Definition tolist (a : ndarray) : list (list f32) :=
  map (row_at (shape_at a 1) (data a)) (seq 0 (shape_at a 0)).

(* ===================================================================== *)
(** * The PLY encoder: [write_gaussian_ply] *)
(* ===================================================================== *)

(** [f"{n}"] for a non-negative integer. *)
Definition dec (n : nat) : string := NilZero.string_of_uint (Nat.to_uint n).

Definition newline : string := String "010"%char EmptyString.

(** The header lines for [n] vertices and [k] coefficients per channel.
    [rest_count = k - 1] is negative for [k = 0] in the source, where
    [range] is then empty, as it is here. *)
Definition header_lines (n k : nat) : list string :=
  [ "ply"; "format binary_little_endian 1.0";
    "element vertex " +:+ dec n;
    "property float x"; "property float y"; "property float z";
    "property float nx"; "property float ny"; "property float nz" ]
  ++ map (fun i => "property float f_dc_" +:+ dec i) (seq 0 3)
  ++ map (fun i => "property float f_rest_" +:+ dec i) (seq 0 ((k - 1) * 3))
  ++ [ "property float opacity" ]
  ++ map (fun i => "property float scale_" +:+ dec i) (seq 0 3)
  ++ map (fun i => "property float rot_" +:+ dec i) (seq 0 4)
  ++ [ "end_header" ].

(** ["\n".join(header_lines) + "\n"]. *)
Definition ply_header (n k : nat) : string :=
  String.concat newline (header_lines n k) +:+ newline.

(** The bytes written for point [i]. *)
Definition ply_record (means normals f_dc f_rest opacities scales quats : ndarray)
    (i : nat) : res (list byte) :=
  m ← unpack_row means i;
  b_xyz ← struct_pack 3 m;
  nrm ← unpack_row normals i;
  b_n ← struct_pack 3 nrm;
  dc ← unpack_row f_dc i;
  b_dc ← struct_pack 3 dc;
  b_rest ← (if (0 <? shape_at f_rest 1)%nat
            then r ← unpack_row f_rest i; struct_pack (shape_at f_rest 1) r
            else Ok []);
  o ← index2 opacities i 0;
  s ← unpack_row scales i;
  b_s ← struct_pack 3 s;
  q ← unpack_row quats i;
  b_q ← struct_pack 4 q;
  Ok (b_xyz ++ b_n ++ b_dc ++ b_rest ++ pack_f32 o ++ b_s ++ b_q).

(** The three-channel coefficient array and the group length [K]
    ([n_sh_per_channel]). *)
Definition sh_channels (n : nat) (sh : ndarray) : res (ndarray * nat) :=
  let sh_dim := if (ndim sh =? 2)%nat then shape_at sh 1 else 1%nat in
  if (sh_dim mod 3 =? 0)%nat then Ok (sh, (sh_dim / 3)%nat)
  else
    flat ← reshape_rows n sh;
    let tiled := tile3 flat in
    Ok (tiled, (shape_at tiled 1 / 3)%nat).

(** The contents of the file once [write_gaussian_ply] has returned, or
    the exception it raises (what a raising call leaves in the file is not
    kept).  [colors_rgb] is accepted and unused by the source. *)
Definition write_gaussian_ply (means opacities scales quats sh : ndarray)
    : res (list byte) :=
  let n := shape_at means 0 in
  opacities ← reshape_rows n opacities;
  let opacities :=
    if negb (shape_at opacities 1 =? 1)%nat then slice_cols 1 opacities
    else opacities in
  '(sh, n_sh_per_channel) ← sh_channels n sh;
  let header := ply_header n n_sh_per_channel in
  sh_flat ← reshape_to [n; 3%nat; n_sh_per_channel] sh;
  f_dc ← index_last0 sh_flat;
  f_rest ← (if (1 <? n_sh_per_channel)%nat then slice_rest sh_flat
            else Ok (zeros [n; 0%nat]));
  let normals := zeros [n; 3%nat] in
  body ← for_each
           (ply_record means normals f_dc f_rest opacities scales quats)
           (seq 0 n);
  Ok (list_byte_of_string header ++ concat body).

(* ===================================================================== *)
(** * Reading a PLY file back *)
(* ===================================================================== *)

(** A reader for the layout the encoder declares: the header lines up to
    [end_header], the vertex count and the [property float] names, then
    one record of [4 * #properties] bytes per vertex and nothing else. *)

(** Four bytes read as a little-endian 32-bit pattern. *)
Definition unpack_f32 (b0 b1 b2 b3 : byte) : f32 :=
  Z_of_byte b0 + 2 ^ 8 * Z_of_byte b1 + 2 ^ 16 * Z_of_byte b2
  + 2 ^ 24 * Z_of_byte b3.

Fixpoint unpack_floats (bs : list byte) : option (list f32) :=
  match bs with
  | [] => Some []
  | b0 :: b1 :: b2 :: b3 :: rest =>
      match unpack_floats rest with
      | Some xs => Some (unpack_f32 b0 b1 b2 b3 :: xs)
      | None => None
      end
  | _ => None
  end.

(** The lines before [end_header], and the bytes after it. *)
Fixpoint split_header (bs cur : list byte) (acc : list string)
    : option (list string * list byte) :=
  match bs with
  | [] => None
  | b :: bs' =>
      if Byte.eqb b x0a then
        let line := string_of_list_byte (rev cur) in
        if String.eqb line "end_header" then Some (rev acc, bs')
        else split_header bs' [] (line :: acc)
      else split_header bs' (b :: cur) acc
  end.

Fixpoint strip_prefix (p s : string) : option string :=
  match p with
  | EmptyString => Some s
  | String a p' =>
      match s with
      | String b s' => if Ascii.eqb a b then strip_prefix p' s' else None
      | EmptyString => None
      end
  end.

Definition parse_nat (s : string) : option nat :=
  match NilZero.uint_of_string s with
  | Some d => Some (Nat.of_uint d)
  | None => None
  end.

Fixpoint parse_properties (ls : list string) : option (list string) :=
  match ls with
  | [] => Some []
  | l :: ls' =>
      match strip_prefix "property float " l, parse_properties ls' with
      | Some name, Some names => Some (name :: names)
      | _, _ => None
      end
  end.

Definition parse_header (ls : list string) : option (nat * list string) :=
  match ls with
  | magic :: fmt :: vertex :: props =>
      if String.eqb magic "ply"
         && String.eqb fmt "format binary_little_endian 1.0"
      then
        match strip_prefix "element vertex " vertex with
        | Some digits =>
            match parse_nat digits, parse_properties props with
            | Some n, Some names => Some (n, names)
            | _, _ => None
            end
        | None => None
        end
      else None
  | _ => None
  end.

(** [n] records of [rec_bytes] bytes, the body being used up exactly. *)
Fixpoint read_records (n rec_bytes : nat) (bs : list byte)
    : option (list (list f32)) :=
  match n with
  | O => match bs with [] => Some [] | _ => None end
  | S n' =>
      if (length bs <? rec_bytes)%nat then None
      else
        match unpack_floats (take rec_bytes bs),
              read_records n' rec_bytes (drop rec_bytes bs) with
        | Some r, Some rs => Some (r :: rs)
        | _, _ => None
        end
  end.

Record ply_file : Type := PlyFile {
  ply_vertex_count : nat;
  ply_properties : list string;
  ply_records : list (list f32)
}.

Definition parse_ply (bs : list byte) : option ply_file :=
  match split_header bs [] [] with
  | Some (ls, body) =>
      match parse_header ls with
      | Some (n, names) =>
          match read_records n (4 * length names) body with
          | Some recs => Some (PlyFile n names recs)
          | None => None
          end
      | None => None
      end
  | None => None
  end.

(** A header line that cannot be mistaken for the end of a line or of the
    header. *)
Definition no_newline (s : string) : bool :=
  forallb (fun b => negb (Byte.eqb b x0a)) (list_byte_of_string s).
Definition line_ok (s : string) : bool :=
  no_newline s && negb (String.eqb s "end_header").

(** The property names of a record, for group length [k]. *)
Definition gaussian_properties (k : nat) : list string :=
  [ "x"; "y"; "z"; "nx"; "ny"; "nz"; "f_dc_0"; "f_dc_1"; "f_dc_2" ]
  ++ map (fun i => "f_rest_" +:+ dec i) (seq 0 (3 * (k - 1)))
  ++ [ "opacity"; "scale_0"; "scale_1"; "scale_2";
       "rot_0"; "rot_1"; "rot_2"; "rot_3" ].

(** The group length the encoder derives from a coefficient width [w]. *)
Definition group_length (w : nat) : nat :=
  if (w mod 3 =? 0)%nat then (w / 3)%nat else w.

(** The coefficients of one point as the encoder lays them out in three
    channel groups: the row itself, or the row three times over. *)
Definition channel_row (w : nat) (row : list f32) : list f32 :=
  if (w mod 3 =? 0)%nat then row else row ++ row ++ row.

(** The values of point [i] in header order, as the arrays hold them. *)
Definition record_values (means opacities scales quats sh : ndarray)
    (w i : nat) : list f32 :=
  let k := group_length w in
  let ch := channel_row w (row_at w (data sh) i) in
  row_at 3 (data means) i
  ++ [f32_zero; f32_zero; f32_zero]
  ++ concat (map (fun c => take 1 (row_at k ch c)) (seq 0 3))
  ++ concat (map (fun c => drop 1 (row_at k ch c)) (seq 0 3))
  ++ take 1 (drop i (data opacities))
  ++ row_at 3 (data scales) i
  ++ row_at 4 (data quats) i.

(** The fields of the record of point [i], in header order: its values as
    [struct.pack] stores them. *)
Definition record_fields (means opacities scales quats sh : ndarray)
    (w i : nat) : list f32 :=
  map f32_via_float (record_values means opacities scales quats sh w i).

(** A canonical Gaussian set of [n] points with coefficient width [w]. *)
Record canonical (n w : nat) (means opacities scales quats sh : ndarray)
    : Prop := Canonical {
  can_means : shape means = [n; 3%nat] /\ length (data means) = (n * 3)%nat;
  can_opacities : length (data opacities) = n;
  can_scales : shape scales = [n; 3%nat] /\ length (data scales) = (n * 3)%nat;
  can_quats : shape quats = [n; 4%nat] /\ length (data quats) = (n * 4)%nat;
  can_sh : shape sh = [n; w] /\ length (data sh) = (n * w)%nat;
  can_bits : Forall f32_wf (data means ++ data opacities ++ data scales
                            ++ data quats ++ data sh)
}.

(* ===================================================================== *)
(** * Colours from the spherical-harmonic DC term *)
(* ===================================================================== *)

(** One element of [sh_dc * SH_C0 + 0.5] clipped to [[0, 1]], in
    [float32].  A coefficient that is a [nan] goes through the three
    operations as itself, made quiet by the multiplication; for any other
    coefficient neither operation is invalid, [SH_C0] and 0.5 being finite
    and not zero. *)
Definition shade (x : f32) : f32 :=
  if f32_is_nan x then f32_quiet x
  else f32_clip (f32_add (f32_mul x SH_C0) f32_half) f32_zero f32_one.

Definition sh_dc_to_rgb (sh_dc : ndarray) : ndarray :=
  NDArray (shape sh_dc) (map shade (data sh_dc)).

(** The DC columns [reconstruct] takes for the response colours. *)
Definition response_sh_dc (sh_np : ndarray) : ndarray :=
  if (3 <=? shape_at sh_np 1)%nat then slice_cols 3 sh_np
  else tile3 (slice_cols 1 sh_np).

Definition response_colors (sh_np : ndarray) : ndarray :=
  sh_dc_to_rgb (response_sh_dc sh_np).

(** What the specification asks of the colours of one point whose
    coefficient row has width [3 * k]: the shaded entries [0], [k], [2k]. *)
Definition spec_rgb_row (k : nat) (row : list f32) : list f32 :=
  map (fun c => shade (nth (c * k) row f32_zero)) (seq 0 3).

(* ===================================================================== *)
(** * The frame sampler *)
(* ===================================================================== *)

(** Python floats are binary64. *)
Definition f64_div (x y : spec_float) : spec_float := SFdiv 53 1024 x y.
Definition f64_of_Z (z : Z) : spec_float := binary_normalize 53 1024 z 0 false.

(** [int(x)]: truncation towards zero; [nan] and the infinities raise. *)
Definition int_of_float (x : spec_float) : res Z :=
  match x with
  | S754_nan => Raise ValueError
  | S754_infinity _ => Raise OverflowError
  | S754_zero _ => Ok 0
  | S754_finite s m e =>
      let a := if 0 <=? e then Z.pos m * 2 ^ e else Z.pos m / 2 ^ (- e) in
      Ok (if s then - a else a)
  end.

(** Truth value of a float: only the zeros are false. *)
Definition float_truthy (x : spec_float) : bool :=
  match x with S754_zero _ => false | _ => true end.

(** What [cv2.VideoCapture] offers once opened. *)
Record capture (frame : Type) : Type := Capture {
  cap_fps : spec_float;           (* cap.get(cv2.CAP_PROP_FPS) *)
  cap_frame_count : spec_float;   (* cap.get(cv2.CAP_PROP_FRAME_COUNT) *)
  cap_frames : list frame         (* successive cap.read() results *)
}.
Arguments Capture {frame} _ _ _.
Arguments cap_fps {frame} _.
Arguments cap_frame_count {frame} _.
Arguments cap_frames {frame} _.

(** [src_fps = cap.get(cv2.CAP_PROP_FPS) or 30.0]. *)
Definition source_fps (reported : spec_float) : spec_float :=
  if float_truthy reported then reported else f64_of_Z 30.

(** [frame_interval = max(1, int(src_fps / 1))]. *)
Definition frame_interval (src_fps : spec_float) : res Z :=
  t ← int_of_float (f64_div src_fps (f64_of_Z 1));
  Ok (Z.max 1 t).

Definition max_frames : Z := 100.

(** The [while True] loop over [cap.read()]: it runs until the source is
    exhausted; a frame is kept when its index is a multiple of
    [frame_interval] and fewer than [max_frames] were kept so far. *)
Fixpoint read_loop {frame image : Type} (to_pil : frame -> image)
    (frame_interval : Z) (frames : list frame) (frame_idx extracted : Z)
    (pil_images : list image) : list image :=
  match frames with
  | [] => pil_images
  | fr :: rest =>
      if (frame_idx mod frame_interval =? 0) && (extracted <? max_frames)
      then read_loop to_pil frame_interval rest (frame_idx + 1)
             (extracted + 1) (pil_images ++ [to_pil fr])
      else read_loop to_pil frame_interval rest (frame_idx + 1)
             extracted pil_images
  end.

(** The frames of the opened capture that reach [pil_images]. *)
Definition sample_frames {frame image : Type} (to_pil : frame -> image)
    (cap : capture frame) : res (list image) :=
  let src_fps := source_fps (cap_fps cap) in
  total_frames ← int_of_float (cap_frame_count cap);
  frame_interval ← frame_interval src_fps;
  Ok (read_loop to_pil frame_interval (cap_frames cap) 0 0 []).

(** [round(x)] of Python: to the nearest integer, ties to the even one. *)
Definition py_round (x : spec_float) : res Z :=
  match x with
  | S754_nan => Raise ValueError
  | S754_infinity _ => Raise OverflowError
  | S754_zero _ => Ok 0
  | S754_finite s m e =>
      let a :=
        if 0 <=? e then Z.pos m * 2 ^ e
        else
          let d := 2 ^ (- e) in
          let q := Z.pos m / d in
          let r := Z.pos m mod d in
          if 2 * r <? d then q
          else if d <? 2 * r then q + 1
          else if Z.even q then q else q + 1 in
      Ok (if s then - a else a)
  end.

(** The stride as the specification words it, for a target of 1 frame per
    second: [max(1, round(source_fps / target_fps))]. *)
Definition spec_stride (src_fps : spec_float) : res Z :=
  t ← py_round (f64_div src_fps (f64_of_Z 1));
  Ok (Z.max 1 t).

(** The elements of [l] whose index, counted from [start] with the first
    element of [l] numbered [s], is a multiple of [k]. *)
Definition strided_from {A : Type} (k start : Z) (s : nat) (l : list A)
    : list A :=
  map snd
    (List.filter (fun p => (start + Z.of_nat (fst p)) mod k =? 0)
       (combine (seq s (length l)) l)).

(** The frames whose index, counted from [start], is a multiple of [k]. *)
Definition strided {A : Type} (k start : Z) (l : list A) : list A :=
  strided_from k start 0 l.

(* ===================================================================== *)
(** * The video path and its temporary file *)
(* ===================================================================== *)

(** The files of the container, by the text of their path.  Two texts
    are two files: that another text may lead to the same file ([x] and
    [./x]) is not represented. *)
Abbreviation filesystem := (gmap string (list byte)).

(** Code that reads and writes files and may raise: the files as they are
    when it stops come back with the outcome. *)
Definition io (A : Type) : Type := filesystem -> filesystem * res A.

#[global] Instance io_ret : MRet io := fun _ a fs => (fs, Ok a).
#[global] Instance io_bind : MBind io := fun _ _ f m fs =>
  match m fs with
  | (fs', Ok a) => f a fs'
  | (fs', Raise e) => (fs', Raise e)
  end.

Definition io_lift {A : Type} (r : res A) : io A := fun fs => (fs, r).
Definition io_raise {A : Type} (e : exn) : io A := fun fs => (fs, Raise e).

(** [with open(path, "wb") as f: f.write(bytes)].  Whether the file can
    be opened for writing is the container's business ([writable]: the
    directory of [path] exists and may be written to); when it cannot,
    [open] raises and no file appears. *)
Definition write_file (writable : string -> bool) (path : string)
    (bytes : list byte) : io unit :=
  fun fs =>
    if writable path then (<[path := bytes]> fs, Ok tt)
    else (fs, Raise OSError).

(** [try: os.remove(path) except OSError: pass]. *)
Definition remove_quietly (path : string) : io unit :=
  fun fs => (delete path fs, Ok tt).

(** [try: body except Exception as exc:
         return _error_response(f"<head>{exc}", status)]. *)
Definition or_error_response {A : Type} (status : Z) (head : string)
    (body : io A) : io A :=
  fun fs =>
    match body fs with
    | (fs', Ok a) => (fs', Ok a)
    | (fs', Raise exc) => (fs', Raise (HTTPException status (Fmt head exc)))
    end.

Section VideoPath.
Context {frame image : Type}.

(** [base64.b64decode]. *)
Variable b64decode : string -> res (list byte).
(** The paths [open(path, "wb")] accepts.  The code creates no directory
    under [/tmp], so this is the same throughout a request. *)
Variable writable : string -> bool.
(** OpenCV on the bytes of a file: [None] when [isOpened()] is false. *)
Variable decode_video : list byte -> option (capture frame).
(** BGR to RGB, [Image.fromarray] and the resize to 518 x 518. *)
Variable to_pil : frame -> image.

(** [cv2.VideoCapture(video_path)] followed by the [isOpened] test. *)
Definition open_capture (video_path : string) : io (capture frame) :=
  fun fs =>
    match fs !! video_path with
    | Some bytes =>
        match decode_video bytes with
        | Some cap => (fs, Ok cap)
        | None => (fs, Raise (RuntimeError
                                ("OpenCV could not open video: " +:+ video_path)))
        end
    | None => (fs, Raise (RuntimeError
                            ("OpenCV could not open video: " +:+ video_path)))
    end.

(** [f"/tmp/{case_id}_input.mp4"], [case_id] being the text the f-string
    puts for the case id of the body. *)
Definition video_path (case_id : string) : string :=
  "/tmp/" +:+ case_id +:+ "_input.mp4".

(** The body of the [try] of the video path. *)
Definition video_frames_body (case_id video_b64 : string)
    : io (list image) :=
  video_bytes ← io_lift (b64decode video_b64);
  let video_path := video_path case_id in
  _ ← write_file writable video_path video_bytes;
  cap ← open_capture video_path;
  pil_images ← io_lift (sample_frames to_pil cap);
  if (length pil_images =? 0)%nat
  then io_raise (RuntimeError "No frames could be extracted from video")
  else
    _ ← remove_quietly video_path;
    mret pil_images.

(** The video path of [reconstruct]: the frames, or the 400 response. *)
Definition video_frames (case_id video_b64 : string) : io (list image) :=
  or_error_response 400 "Failed to process video input: "
    (video_frames_body case_id video_b64).
End VideoPath.

(* ===================================================================== *)
(** * The prediction adapter *)
(* ===================================================================== *)

(** A value found in the model's output: [None], a tensor, or something
    that is neither (on which [.detach()] fails). *)
Inductive pyval : Type :=
  | PyNone
  | PyTensor (t : ndarray)
  | PyOther.

(** The model's output: a [dict], or an object with attributes. *)
Inductive predictions : Type :=
  | PredDict (items : gmap string pyval)
  | PredObject (attrs : gmap string pyval).

Fixpoint _extract_tensor (preds : predictions) (candidate_keys : list string)
    : pyval :=
  match preds with
  | PredDict items =>
      match candidate_keys with
      | [] => PyNone
      | k :: ks =>
          match items !! k with
          | Some v => v                       (* k in predictions *)
          | None => _extract_tensor preds ks
          end
      end
  | PredObject attrs =>
      match candidate_keys with
      | [] => PyNone
      | k :: ks =>
          match attrs !! k with
          | Some v => v                       (* hasattr(predictions, k) *)
          | None => _extract_tensor preds ks
          end
      end
  end.

(** Is the name a key of the mapping, or an attribute of the object? *)
Definition present (preds : predictions) (k : string) : option pyval :=
  match preds with
  | PredDict items => items !! k
  | PredObject attrs => attrs !! k
  end.

Definition position_aliases : list string :=
  ["pts3d"; "means3D"; "means"; "xyz"].
Definition opacity_aliases : list string :=
  ["conf"; "confidence"; "opacity"; "opacities"].
Definition scale_aliases : list string :=
  ["scales"; "scaling"; "log_scales"].
Definition rotation_aliases : list string :=
  ["quats"; "rotations"; "rotation"; "rots"].
Definition sh_aliases : list string :=
  ["sh"; "shs"; "features_dc"; "sh_coeffs"; "colors_precomp"].

(** [v.detach().cpu().numpy()]; the cast [.astype(np.float32)] keeps a
    [float32] buffer as it is.  A value without [detach] has no such
    attribute. *)
Definition to_numpy (v : pyval) : res ndarray :=
  match v with
  | PyTensor t => Ok t
  | _ => Raise AttributeError
  end.

Record gaussians : Type := Gaussians {
  pts3d_np : ndarray;
  n_points : nat;
  opacity_np : ndarray;
  scales_np : ndarray;
  quats_np : ndarray;
  sh_np : ndarray;
  colors_rgb : ndarray
}.

(** [np.tile(np.array([1, 0, 0, 0]), (n, 1))]. *)
Definition identity_quats (n : nat) : ndarray :=
  NDArray [n; 4%nat]
    (concat (replicate n [f32_one; f32_zero; f32_zero; f32_zero])).

(** [opacity_np]: the confidence when there is one, else 0.8 everywhere. *)
Definition opacity_array (n_points : nat) (conf : pyval) : res ndarray :=
  match conf with
  | PyNone =>
      Ok (NDArray [n_points; 1%nat]
            (map (fun x => f32_mul x f32_0_8)
                 (replicate (n_points * 1) f32_one)))
  | _ =>
      c ← to_numpy conf ≫= reshape_rows n_points;
      Ok (slice_cols 1 c)
  end.

(** [scales_np]: log-scale -5.0 by default. *)
Definition scales_array (n_points : nat) (scales : pyval) : res ndarray :=
  match scales with
  | PyNone => Ok (full [n_points; 3%nat] f32_minus_5)
  | _ => to_numpy scales ≫= reshape_to [n_points; 3%nat]
  end.

(** [quats_np]: the identity quaternion by default. *)
Definition quats_array (n_points : nat) (quats : pyval) : res ndarray :=
  match quats with
  | PyNone => Ok (identity_quats n_points)
  | _ => to_numpy quats ≫= reshape_to [n_points; 4%nat]
  end.

(** [sh_np]: a DC-only zero vector by default. *)
Definition sh_array (n_points : nat) (sh_coeffs : pyval) : res ndarray :=
  match sh_coeffs with
  | PyNone => Ok (zeros [n_points; 3%nat])
  | _ => to_numpy sh_coeffs ≫= reshape_rows n_points
  end.

(** The body of the [try] of step 4. *)
Definition extract_gaussians_body (preds : predictions) : res gaussians :=
  let pts3d := _extract_tensor preds position_aliases in
  let conf := _extract_tensor preds opacity_aliases in
  let scales := _extract_tensor preds scale_aliases in
  let quats := _extract_tensor preds rotation_aliases in
  let sh_coeffs := _extract_tensor preds sh_aliases in
  match pts3d with
  | PyNone =>
      Raise (HTTPException 500
               (Text "Model did not produce point positions (pts3d)"))
  | _ =>
      pts3d_np ← to_numpy pts3d ≫= reshape_cols 3;
      let n_points := shape_at pts3d_np 0 in
      opacity_np ← opacity_array n_points conf;
      scales_np ← scales_array n_points scales;
      quats_np ← quats_array n_points quats;
      sh_np ← sh_array n_points sh_coeffs;
      Ok (Gaussians pts3d_np n_points opacity_np scales_np quats_np sh_np
            (response_colors sh_np))
  end.

(** Step 4 of [reconstruct]: any exception of the body becomes the 500
    response. *)
Definition extract_gaussians (preds : predictions) : res gaussians :=
  match extract_gaussians_body preds with
  | Ok g => Ok g
  | Raise exc =>
      Raise (HTTPException 500
               (Fmt "Failed to extract Gaussian parameters: " exc))
  end.

(* ===================================================================== *)
(** * The point cloud of the response *)
(* ===================================================================== *)

Definition MAX_POINTS_IN_RESPONSE : nat := N.to_nat 50000.

Record point_cloud : Type := PointCloud {
  positions : list (list f32);
  colors : list (list f32);
  count : nat
}.

Record processing_stats : Type := ProcessingStats {
  input_images : nat;
  detected_objects : nat;
  point_count : nat;
  input_type : string
}.

(** [a[indices].tolist()] for a two-dimensional [a], which is what
    [reconstruct] applies it to: an index past the rows is an
    [IndexError]. *)
Definition take_rows (a : ndarray) (indices : list nat)
    : res (list (list f32)) :=
  for_each (unpack_row a) indices.

Section Response.
(** [numpy]'s generator: [np.random.default_rng(seed)] builds a fresh
    state, and [choice(n, k, replace=False)] draws [k] indices from it,
    leaving an advanced state behind. *)
Context {rng_state : Type}.
Variable default_rng : Z -> rng_state.
Variable choice : rng_state -> nat -> nat -> list nat * rng_state.

(** The indices kept when [n_points] exceeds the cap. *)
Definition downsample_indices (n_points : nat) : list nat :=
  fst (choice (default_rng 42) n_points MAX_POINTS_IN_RESPONSE).

(** What [numpy] promises of [choice(n, k, replace=False)] when
    [k <= n], whatever the generator: [k] distinct indices below [n]. *)
Definition choice_without_replacement : Prop :=
  forall (s : rng_state) (n k : nat),
    (k <= n)%nat ->
    let indices := fst (choice s n k) in
    length indices = k
    /\ NoDup indices
    /\ Forall (fun i => (i < n)%nat) indices.

(** The [point_cloud] entry of the response. *)
Definition response_point_cloud (n_points : nat)
    (pts3d_np colors_rgb : ndarray) : res point_cloud :=
  if (MAX_POINTS_IN_RESPONSE <? n_points)%nat then
    let indices := downsample_indices n_points in
    pc_positions ← take_rows pts3d_np indices;
    pc_colors ← take_rows colors_rgb indices;
    Ok (PointCloud pc_positions pc_colors MAX_POINTS_IN_RESPONSE)
  else
    Ok (PointCloud (tolist pts3d_np) (tolist colors_rgb) n_points).

(** The [processing_stats] entry, without the elapsed time. *)
Definition response_stats {image : Type} (pil_images : list image)
    (n_points : nat) (use_video : bool) : processing_stats :=
  ProcessingStats (length pil_images) 1 n_points
    (if use_video then "video" else "images").
End Response.

(** A field of the model's output as the adapter meets it: not there, or a
    tensor whose size the adapter's [reshape] accepts. *)
Definition absent_or (v : pyval) (P : ndarray -> Prop) : Prop :=
  v = PyNone \/ exists t, v = PyTensor t /\ P t.


(* ===================================================================== *)
(** * Sample inputs *)
(* ===================================================================== *)

Definition both_positions : predictions :=
  PredDict (<["means3D" := PyTensor (NDArray [1%nat; 3%nat] [4; 5; 6])]>
            (<["pts3d" := PyTensor (NDArray [1%nat; 3%nat] [1; 2; 3])]> ∅)).

(** Positions for two points and nothing else. *)
Definition only_positions : predictions :=
  PredObject (<["xyz" := PyTensor (NDArray [2%nat; 3%nat] [1; 2; 3; 4; 5; 6])]> ∅).

(** The DC entries [reconstruct] takes from one coefficient row of width
    [w] for the response colours. *)
Definition response_dc_row (w : nat) (row : list f32) : list f32 :=
  if (3 <=? w)%nat then take 3 row
  else take 1 row ++ take 1 row ++ take 1 row.

(** A generator that draws the first [k] indices, for running the model. *)
Definition first_indices (_ : unit) (n k : nat) : list nat * unit :=
  (seq 0 k, tt).

(** Scenario 4 of the specification: 60,000 points. *)
Definition sixty_thousand : nat := N.to_nat 60000.
Definition many_points : ndarray :=
  NDArray [sixty_thousand; 3%nat] (replicate (sixty_thousand * 3) f32_zero).

(** The point cloud the response holds for [many_points] when the
    generator is [first_indices]. *)
Definition first_rows (a : ndarray) : list (list f32) :=
  map (row_at (shape_at a 1) (data a)) (seq 0 MAX_POINTS_IN_RESPONSE).
Definition many_points_cloud : point_cloud :=
  PointCloud (first_rows many_points) (first_rows many_points)
    MAX_POINTS_IN_RESPONSE.

(** Two points with DC-only coefficients. *)
Definition two_points : ndarray :=
  NDArray [2%nat; 3%nat] [1; 2; 3; 4; 5; 6].

(** One point with two coefficients per channel, laid out as the encoder
    reads them: red [0.0, 10.0], green [-10.0, 0.0], blue [10.0, 0.0]. *)
Definition f32_10 : f32 := 0x41200000.           (* float32(10.0) *)
Definition f32_minus_10 : f32 := 0xC1200000.     (* float32(-10.0) *)
Definition degree_one_sh : ndarray :=
  NDArray [1%nat; 6%nat]
    [f32_zero; f32_10; f32_minus_10; f32_zero; f32_10; f32_zero].
Definition one_point : ndarray := NDArray [1%nat; 3%nat] [f32_one; f32_one; f32_one].
Definition one_opacity : ndarray := NDArray [1%nat; 1%nat] [f32_0_8].
Definition one_scale : ndarray :=
  NDArray [1%nat; 3%nat] [f32_minus_5; f32_minus_5; f32_minus_5].
Definition one_quat : ndarray :=
  NDArray [1%nat; 4%nat] [f32_one; f32_zero; f32_zero; f32_zero].

(** The NTSC rate 30000/1001 = 29.97..., and a two-second clip at that
    rate whose frames are their own indices. *)
Definition ntsc_fps : spec_float := f64_div (f64_of_Z 30000) (f64_of_Z 1001).
Definition ntsc_clip : capture nat :=
  Capture ntsc_fps (f64_of_Z 60) (seq 0 60).

(** A request whose video bytes OpenCV cannot open, and one whose video
    opens and holds no frame; every path can be opened for writing. *)
Definition b64_any (_ : string) : res (list byte) := Ok [x00; x01].
Definition tmp_writable (_ : string) : bool := true.
Definition opens_nothing (_ : list byte) : option (capture nat) := None.
Definition opens_empty (_ : list byte) : option (capture nat) :=
  Some (Capture (f64_of_Z 30) (f64_of_Z 0) []).
Definition opens_clip (_ : list byte) : option (capture nat) := Some ntsc_clip.

(** A Gaussian set without any point. *)
Definition no_means : ndarray := NDArray [0%nat; 3%nat] [].
Definition no_opacities : ndarray := NDArray [0%nat; 1%nat] [].
Definition no_scales : ndarray := NDArray [0%nat; 3%nat] [].
Definition no_quats : ndarray := NDArray [0%nat; 4%nat] [].
Definition no_sh : ndarray := NDArray [0%nat; 3%nat] [].

(** Two points with two coefficients each: a width that 3 does not divide. *)
Definition two_opacities : ndarray := NDArray [2%nat] [f32_0_8; f32_half].
Definition two_scales : ndarray :=
  NDArray [2%nat; 3%nat] [11; 12; 13; 14; 15; 16].
Definition two_quats : ndarray :=
  NDArray [2%nat; 4%nat] [21; 22; 23; 24; 25; 26; 27; 28].
Definition two_sh_pairs : ndarray := NDArray [2%nat; 2%nat] [31; 32; 41; 42].

(** Scenario 3 of the specification: positions for ten points, no other
    field. *)
Definition ten_positions : predictions :=
  PredDict (<["pts3d" := PyTensor (NDArray [10%nat; 3%nat]
                                     (replicate 30 f32_one))]> ∅).

(** Encoding an extracted set and reading the opacity column back. *)
Definition encoded_opacities (g : gaussians) : option (list (option f32)) :=
  match write_gaussian_ply (pts3d_np g) (opacity_np g) (scales_np g)
          (quats_np g) (sh_np g) with
  | Ok bytes =>
      match parse_ply bytes with
      | Some file => Some (map (fun r => r !! 9%nat) (ply_records file))
      | None => None
      end
  | Raise _ => None
  end.

(* ===================================================================== *)
(** * Further definitions: ranges, columns, inputs *)
(* ===================================================================== *)

(** A colour component that is a number lies between 0 and 1. *)
Definition unit_or_nan (r : f32) : Prop :=
  f32_is_nan r = true
  \/ r = f32_zero
  \/ r = f32_one
  \/ (f32_ltb f32_zero r = true /\ f32_ltb r f32_one = true).

(** Column 0 of a buffer of [n] rows of [m] elements. *)
Definition first_column (m : nat) (d : list f32) (n : nat) : list f32 :=
  concat (map (fun i => take 1 (row_at m d i)) (seq 0 n)).

(** The first [n] rows of a two-dimensional array. *)
Definition first_rows_of (n : nat) (a : ndarray) : ndarray :=
  NDArray [n; shape_at a 1] (take (n * shape_at a 1) (data a)).

(** The number of frames a clip of [len] frames yields at stride [k]:
    one per started group of [k] frames, up to the cap. *)
Definition frames_kept (k : Z) (len : nat) : nat :=
  Nat.min 100 (Z.to_nat ((Z.of_nat len + k - 1) / k)).

(** A base64 decoder that refuses everything. *)
Definition b64_none (_ : string) : res (list byte) := Raise ValueError.

(** Two unrelated files in [/tmp]. *)
Definition some_files : filesystem :=
  <["/tmp/other.bin" := [x07]]> (<["/tmp/case-2_input.mp4" := [x09]]> ∅).

(** What [write_gaussian_ply] has computed when it opens the file: the
    point count, the header and the arrays the loop reads besides [means],
    [scales] and [quats]. *)
Record ply_prepared : Type := PlyPrepared {
  pp_n : nat;
  pp_header : string;
  pp_normals : ndarray;
  pp_f_dc : ndarray;
  pp_f_rest : ndarray;
  pp_opacities : ndarray
}.

(** [write_gaussian_ply] up to the [with open(path, "wb")]. *)
Definition ply_prepare (means opacities sh : ndarray) : res ply_prepared :=
  let n := shape_at means 0 in
  opacities ← reshape_rows n opacities;
  let opacities :=
    if negb (shape_at opacities 1 =? 1)%nat then slice_cols 1 opacities
    else opacities in
  '(sh, n_sh_per_channel) ← sh_channels n sh;
  let header := ply_header n n_sh_per_channel in
  sh_flat ← reshape_to [n; 3%nat; n_sh_per_channel] sh;
  f_dc ← index_last0 sh_flat;
  f_rest ← (if (1 <? n_sh_per_channel)%nat then slice_rest sh_flat
            else Ok (zeros [n; 0%nat]));
  Ok (PlyPrepared n header (zeros [n; 3%nat]) f_dc f_rest opacities).

(** The shapes on which the encoder raises before writing anything. *)
Definition rejected_shapes (means opacities sh : ndarray) : Prop :=
  let n := shape_at means 0 in
  n = 0%nat
  \/ (size opacities mod n <> 0)%nat
  \/ shape sh = [n; 0%nat]
  \/ (exists r w, shape sh = [r; w] /\ (w mod 3 = 0)%nat
                  /\ size sh <> (n * w)%nat).

(** Two opacity values per point, and arrays with a third row. *)
Definition two_by_two_opacities : ndarray :=
  NDArray [2%nat; 2%nat] [f32_0_8; f32_zero; f32_half; f32_one].
Definition three_scales : ndarray :=
  NDArray [3%nat; 3%nat] [11; 12; 13; 14; 15; 16; 17; 18; 19].
Definition three_quats : ndarray :=
  NDArray [3%nat; 4%nat] [21; 22; 23; 24; 25; 26; 27; 28; 29; 30; 31; 32].

(* ===================================================================== *)
(** * The request and its decoding (steps 1 and 2 of [reconstruct]) *)
(* ===================================================================== *)

(** The request body as documented, with every value of the documented
    type; a key that is absent or [null] is [None].
    ([item.get("scan_asset_keys", [])] on an absent key is the empty list,
    which the validation treats as it treats [None].)  [reconstruct_input]
    is steps 1 and 2 on such a request; [parse_and_decode] further down is
    the same code on whatever body arrives. *)
Record request : Type := Request {
  req_case_id : option string;
  req_video_base64 : option string;
  req_scan_asset_keys : option (list string)
}.

(** Truth value of an optional string and of an optional list. *)
Definition str_truthy (s : option string) : bool :=
  match s with
  | Some (String _ _) => true
  | _ => false
  end.
Definition list_truthy {A : Type} (l : option (list A)) : bool :=
  match l with
  | Some (_ :: _) => true
  | _ => false
  end.

Section Input.
Context {frame image : Type}.
Variable b64decode : string -> res (list byte).
Variable writable : string -> bool.
Variable decode_video : list byte -> option (capture frame).
Variable to_pil : frame -> image.
(** [Image.open(io.BytesIO(raw)).convert("RGB")] and the resize. *)
Variable open_image : list byte -> res image.

(** One turn of the loop of the image path. *)
Definition decode_image (b64 : string) : res image :=
  raw ← b64decode b64;
  open_image raw.

(** The image path: every image in turn, or the 400 response. *)
Definition image_frames (b64_images : list string) : io (list image) :=
  or_error_response 400 "Failed to decode images: "
    (io_lift (for_each decode_image b64_images)).

(** Steps 1 and 2: the images handed to the model and [use_video]. *)
Definition reconstruct_input (item : request) : io (list image * bool) :=
  if negb (str_truthy (req_case_id item))
  then io_raise (HTTPException 400 (Text "case_id is required"))
  else
    let video_b64 := req_video_base64 item in
    let b64_images := req_scan_asset_keys item in
    if negb (str_truthy video_b64) && negb (list_truthy b64_images)
    then io_raise
           (HTTPException 400
              (Text "Either video_base64 or scan_asset_keys with at least one base64 image is required"))
    else
      match req_case_id item, video_b64 with
      | Some case_id, Some (String c v) =>           (* use_video *)
          pil_images ← video_frames b64decode writable decode_video to_pil
                         case_id (String c v);
          mret (pil_images, true)
      | _, _ =>
          pil_images ← image_frames (default [] b64_images);
          mret (pil_images, false)
      end.
End Input.

(** Sample requests and an image decoder that accepts non-empty data. *)
Definition open_nonempty (raw : list byte) : res nat :=
  match raw with
  | [] => Raise ValueError
  | _ => Ok (length raw)
  end.
Definition three_images : request :=
  Request (Some "case-1") None (Some ["QQ=="; "Qg=="; "Qw=="]).

(* ===================================================================== *)
(** * The request body as it arrives *)
(* ===================================================================== *)

(** [reconstruct(item: dict)] is handed the JSON object the client sent,
    and the values under the keys it reads need not have the documented
    types.  A string is kept as its UTF-8 bytes, a dict as its members in
    order, under distinct keys. *)
#[local] Unset Elimination Schemes.
Inductive json : Type :=
  | JNull
  | JBool (b : bool)
  | JInt (z : Z)
  | JFloat (x : spec_float)
  | JStr (s : string)
  | JList (items : list json)
  | JDict (members : list (string * json)).
#[local] Set Elimination Schemes.

Abbreviation body := (gmap string json).

(** Truth value: [None], [False], zero and the empty string, list and
    dict are false. *)
Definition py_truthy (v : json) : bool :=
  match v with
  | JNull => false
  | JBool b => b
  | JInt z => negb (z =? 0)
  | JFloat x => float_truthy x
  | JStr EmptyString => false
  | JStr (String _ _) => true
  | JList [] => false
  | JList (_ :: _) => true
  | JDict [] => false
  | JDict (_ :: _) => true
  end.

(** The characters of a string: a byte that is no continuation byte
    ([10xxxxxx]) starts a character. *)
Definition is_continuation (c : ascii) : bool :=
  match c with
  | Ascii _ _ _ _ _ _ b6 b7 => b7 && negb b6
  end.

(** The continuation bytes a string starts with, and the characters
    after them. *)
Fixpoint utf8_groups (s : string) : string * list string :=
  match s with
  | EmptyString => (EmptyString, [])
  | String c rest =>
      let '(cont, chars) := utf8_groups rest in
      if is_continuation c then (String c cont, chars)
      else (EmptyString, String c cont :: chars)
  end.

Definition utf8_chars (s : string) : list string :=
  match utf8_groups s with
  | (EmptyString, chars) => chars
  | (cont, chars) => cont :: chars
  end.

(** [len(v)]: numbers, booleans and [None] have none. *)
Definition py_len (v : json) : res nat :=
  match v with
  | JStr s => Ok (length (utf8_chars s))
  | JList items => Ok (length items)
  | JDict members => Ok (length members)
  | _ => Raise TypeError
  end.

(** [for x in v]: the characters of a string, the items of a list, the
    keys of a dict. *)
Definition py_iter (v : json) : res (list json) :=
  match v with
  | JStr s => Ok (JStr <$> utf8_chars s)
  | JList items => Ok items
  | JDict members => Ok ((fun kv => JStr (fst kv)) <$> members)
  | _ => Raise TypeError
  end.

(** [str(z)] of an integer. *)
Definition dec_int (z : Z) : string :=
  if z <? 0 then "-" +:+ dec (Z.to_nat (- z)) else dec (Z.to_nat z).

Section Body.
Context {frame image : Type}.
Variable b64decode : string -> res (list byte).
Variable writable : string -> bool.
Variable decode_video : list byte -> option (capture frame).
Variable to_pil : frame -> image.
Variable open_image : list byte -> res image.
(** [repr] of a float, a list or a dict. *)
Variable py_repr : json -> string.

(** [f"{v}"]: what the f-string of [video_path] puts for the case id. *)
Definition format_value (v : json) : string :=
  match v with
  | JStr s => s
  | JInt z => dec_int z
  | JBool true => "True"
  | JBool false => "False"
  | JNull => "None"
  | _ => py_repr v
  end.

(** One turn of the loop of the image path: [base64.b64decode] takes text
    or bytes and nothing else. *)
Definition decode_item (b64 : json) : res image :=
  match b64 with
  | JStr s => decode_image b64decode open_image s
  | _ => Raise TypeError
  end.

(** The image path: the [for] loop inside its [try]. *)
Definition image_path (b64_images : json) : io (list image) :=
  or_error_response 400 "Failed to decode images: "
    (io_lift (items ← py_iter b64_images; for_each decode_item items)).

(** The video path: [base64.b64decode(video_b64)] is the first thing the
    [try] does, before the file gets its name. *)
Definition video_mode (case_id video_b64 : json) : io (list image) :=
  match video_b64 with
  | JStr s =>
      video_frames b64decode writable decode_video to_pil
        (format_value case_id) s
  | _ =>
      or_error_response 400 "Failed to process video input: "
        (io_raise TypeError)
  end.

(** [not video_b64 and (not b64_images or len(b64_images) == 0)]. *)
Definition no_source (video_b64 b64_images : json) : res bool :=
  if py_truthy video_b64 then Ok false
  else if negb (py_truthy b64_images) then Ok true
  else n ← py_len b64_images; Ok (n =? 0)%nat.

(** [video_b64 is not None and len(video_b64) > 0]. *)
Definition use_video_of (video_b64 : json) : res bool :=
  match video_b64 with
  | JNull => Ok false
  | _ => n ← py_len video_b64; Ok (0 <? n)%nat
  end.

(** Steps 1 and 2 of [reconstruct] on the body as it arrives.  Nothing
    catches what the two tests and the log line between them raise. *)
Definition parse_and_decode (item : body) : io (list image * bool) :=
  let case_id := default JNull (item !! "case_id") in
  if negb (py_truthy case_id)
  then io_raise (HTTPException 400 (Text "case_id is required"))
  else
    let video_b64 := default JNull (item !! "video_base64") in
    let b64_images := default (JList []) (item !! "scan_asset_keys") in
    match no_source video_b64 b64_images with
    | Raise e => io_raise e
    | Ok true =>
        io_raise
          (HTTPException 400
             (Text "Either video_base64 or scan_asset_keys with at least one base64 image is required"))
    | Ok false =>
        match use_video_of video_b64 with
        | Raise e => io_raise e
        | Ok true =>
            pil_images ← video_mode case_id video_b64;
            mret (pil_images, true)
        | Ok false =>
            match py_len b64_images with             (* the log line *)
            | Raise e => io_raise e
            | Ok _ =>
                pil_images ← image_path b64_images;
                mret (pil_images, false)
            end
        end
    end.
End Body.

(** The body of a request of the documented shape. *)
Definition request_body (r : request) : body :=
  let put (k : string) (v : option json) (m : body) : body :=
    match v with Some x => <[k := x]> m | None => m end in
  put "case_id" (JStr <$> req_case_id r)
    (put "video_base64" (JStr <$> req_video_base64 r)
       (put "scan_asset_keys"
          ((fun keys => JList (JStr <$> keys)) <$> req_scan_asset_keys r) ∅)).


(** Sample bodies: a number where the video text belongs, and a video
    without a case id yet. *)
Definition numeric_video : body :=
  <["case_id" := JStr "case-1"]> (<["video_base64" := JInt 5]> ∅).
Definition video_only : body := <["video_base64" := JStr "AAE="]> ∅.
Definition repr_none (_ : json) : string := "".

(** The arrays of an extracted set, all with [n] rows and buffers that
    agree with their shapes. *)
Record extracted_shapes (g : gaussians) : Prop := ExtractedShapes {
  es_pts : shape (pts3d_np g) = [n_points g; 3%nat]
           /\ length (data (pts3d_np g)) = (n_points g * 3)%nat;
  es_opacity : exists c, (c <= 1)%nat
                 /\ shape (opacity_np g) = [n_points g; c]
                 /\ length (data (opacity_np g)) = (n_points g * c)%nat;
  es_scales : shape (scales_np g) = [n_points g; 3%nat]
              /\ length (data (scales_np g)) = (n_points g * 3)%nat;
  es_quats : shape (quats_np g) = [n_points g; 4%nat]
             /\ length (data (quats_np g)) = (n_points g * 4)%nat;
  es_sh : exists w, shape (sh_np g) = [n_points g; w]
            /\ length (data (sh_np g)) = (n_points g * w)%nat;
  es_colors : exists c, (c = 3%nat \/ c = 0%nat)
                /\ shape (colors_rgb g) = [n_points g; c]
                /\ length (data (colors_rgb g)) = (n_points g * c)%nat
}.

(** Every element of every array is a 32-bit pattern. *)
Definition gaussians_bits (g : gaussians) : Prop :=
  Forall f32_wf (data (pts3d_np g) ++ data (opacity_np g)
                 ++ data (scales_np g) ++ data (quats_np g)
                 ++ data (sh_np g)).

(** Positions, confidences with two values per point, and coefficients of
    width 2 for two points. *)
Definition two_point_prediction : predictions :=
  PredDict
    (<["means" := PyTensor two_points]>
     (<["confidence" := PyTensor two_by_two_opacities]>
      (<["shs" := PyTensor two_sh_pairs]> ∅))).

(* ===================================================================== *)
(** * Writing, storing and serving the PLY file (steps 5 to 7) *)
(* ===================================================================== *)

(** The results of the successive [f.write(struct.pack(..))] of point
    [i]: each is computed, and may raise, right before it is written. *)
Definition ply_record_chunks
    (means normals f_dc f_rest opacities scales quats : ndarray) (i : nat)
    : list (res (list byte)) :=
  [ unpack_row means i ≫= struct_pack 3;
    unpack_row normals i ≫= struct_pack 3;
    unpack_row f_dc i ≫= struct_pack 3;
    (if (0 <? shape_at f_rest 1)%nat
     then unpack_row f_rest i ≫= struct_pack (shape_at f_rest 1)
     else Ok []);
    (o ← index2 opacities i 0; Ok (pack_f32 o));
    unpack_row scales i ≫= struct_pack 3;
    unpack_row quats i ≫= struct_pack 4 ].

(** Writing in turn until something raises: what the file holds, and how
    the loop ended. *)
Fixpoint write_chunks (chunks : list (res (list byte))) (written : list byte)
    : list byte * res unit :=
  match chunks with
  | [] => (written, Ok tt)
  | Ok b :: rest => write_chunks rest (written ++ b)
  | Raise e :: _ => (written, Raise e)
  end.

(** [write_gaussian_ply(path, ...)] with its file: nothing is touched when
    the preparation raises; afterwards the file is created and holds what
    was written when the function returned or raised.  The file is taken
    to open: [reconstruct], the only caller, names it
    [/tmp/gaussians_<uuid4>.ply]. *)
Definition write_gaussian_ply_file (path : string)
    (means opacities scales quats sh : ndarray) : io unit :=
  fun fs =>
    match ply_prepare means opacities sh with
    | Raise e => (fs, Raise e)
    | Ok p =>
        let chunks :=
          Ok (list_byte_of_string (pp_header p))
          :: concat (map (ply_record_chunks means (pp_normals p) (pp_f_dc p)
                            (pp_f_rest p) (pp_opacities p) scales quats)
                         (seq 0 (pp_n p))) in
        let '(written, r) := write_chunks chunks [] in
        (<[path := written]> fs, r)
    end.

Definition PLY_VOLUME_PATH : string := "/ply-storage".

Definition local_ply_path (ply_id : string) : string :=
  "/tmp/gaussians_" +:+ ply_id +:+ ".ply".
Definition ply_filename (ply_id : string) : string :=
  "gaussians_" +:+ ply_id +:+ ".ply".
Definition volume_path (filename : string) : string :=
  PLY_VOLUME_PATH +:+ "/" +:+ filename.

(** The files of the container, and the committed state of the volume
    (by path under its mount point). *)
Record world : Type := World { local : filesystem; volume : filesystem }.

(** What [download_ply] answers. *)
Inductive download : Type :=
  | NotFound                                   (* 404, "PLY not found" *)
  | FileResponse (content : list byte) (filename : string).

(** [download_ply]: after [reload] the mount shows the committed state. *)
Definition download_ply (committed : filesystem) (filename : string)
    : download :=
  match committed !! volume_path filename with
  | None => NotFound
  | Some content => FileResponse content filename
  end.

Section Persist.
(** [model.save_ply], when the model has such a method: what it does to
    the files, and whether it raises, is the model's business. *)
Variable model_save_ply : option (string -> predictions -> io unit).
(** [ply_volume.commit()]: the new committed state, or an exception. *)
Variable commit : filesystem -> filesystem -> res filesystem.

(** What [commit] promises: the files under the mount point are in the
    committed state afterwards. *)
Definition commit_persists : Prop :=
  forall (files committed committed' : filesystem) (p : string)
         (content : list byte),
    commit files committed = Ok committed' ->
    String.prefix PLY_VOLUME_PATH p = true ->
    files !! p = Some content ->
    committed' !! p = Some content.

(** [hasattr(predictions, "save_ply") or (isinstance(predictions, dict)
    and "save_ply" in dir(model))]. *)
Definition tries_builtin_export (preds : predictions) : bool :=
  match preds with
  | PredObject attrs => bool_decide (is_Some (attrs !! "save_ply"))
  | PredDict _ => bool_decide (is_Some model_save_ply)
  end.

(** The inner [try] of step 5: the files afterwards, and [exported]. *)
Definition builtin_export (path : string) (preds : predictions)
    : filesystem -> filesystem * bool :=
  fun fs =>
    if tries_builtin_export preds then
      match model_save_ply with
      | None => (fs, false)                    (* AttributeError, passed *)
      | Some save =>
          match save path preds fs with
          | (fs', Ok _) => (fs', true)
          | (fs', Raise _) => (fs', false)
          end
      end
    else (fs, false).

(** Step 5. *)
Definition export_ply (ply_id : string) (preds : predictions) (g : gaussians)
    : io unit :=
  or_error_response 500 "Failed to write PLY: "
    (fun fs =>
       let '(fs1, exported) :=
         builtin_export (local_ply_path ply_id) preds fs in
       if exported then (fs1, Ok tt)
       else write_gaussian_ply_file (local_ply_path ply_id)
              (pts3d_np g) (opacity_np g) (scales_np g) (quats_np g)
              (sh_np g) fs1).

(** Step 6: [gaussian_asset_key], and the world after the copy and the
    commit.  A failure is logged and leaves the key [None]. *)
Definition save_to_volume (ply_id : string) (w : world)
    : world * option string :=
  match local w !! local_ply_path ply_id with
  | None => (w, None)                          (* shutil.copy2 raises *)
  | Some content =>
      let local' := <[volume_path (ply_filename ply_id) := content]> (local w) in
      match commit local' (volume w) with
      | Ok volume' => (World local' volume', Some (ply_filename ply_id))
      | Raise _ => (World local' (volume w), None)
      end
  end.

(** Steps 5 to 7: the asset key of the response, or the 500 response. *)
Definition persist_ply (ply_id : string) (preds : predictions) (g : gaussians)
    (w : world) : world * res (option string) :=
  match export_ply ply_id preds g (local w) with
  | (fs, Raise e) => (World fs (volume w), Raise e)
  | (fs, Ok _) =>
      let '(w1, gaussian_asset_key) :=
        save_to_volume ply_id (World fs (volume w)) in
      (World (delete (local_ply_path ply_id) (local w1)) (volume w1),
       Ok gaussian_asset_key)
  end.
End Persist.

(** A commit that adds the files under the mount point to the volume, and
    one that fails. *)
Definition commit_mount (local_files committed : filesystem)
    : res filesystem :=
  Ok (filter (fun kv => String.prefix PLY_VOLUME_PATH (fst kv) = true)
        local_files ∪ committed).
Definition commit_fails (_ _ : filesystem) : res filesystem :=
  Raise (RuntimeError "commit failed").

(** A set of two points, the same set with a [scales] array one row
    short, and an empty world. *)
Definition two_point_set : gaussians :=
  Gaussians two_points 2 two_opacities two_scales two_quats two_sh_pairs
    (response_colors two_sh_pairs).
Definition short_scales_set : gaussians :=
  Gaussians two_points 2 two_opacities (first_rows_of 1 two_scales) two_quats
    two_sh_pairs (response_colors two_sh_pairs).
Definition empty_world : world := World ∅ ∅.

(* ===================================================================== *)
(** * The whole request *)
(* ===================================================================== *)

(** Column [j] of a two-dimensional array. *)
Definition column (a : ndarray) (j : nat) : list f32 :=
  map (fun i => nth j (row_at (shape_at a 1) (data a) i) f32_zero)
      (seq 0 (shape_at a 0)).

(** [a.min(axis=0).tolist()] and [a.max(axis=0).tolist()], the reduction
    of one column being [f]: [numpy] refuses to reduce an array without
    rows. *)
Definition reduce_rows (f : list f32 -> f32) (a : ndarray) : res (list f32) :=
  if (shape_at a 0 =? 0)%nat then Raise ValueError
  else Ok (map (fun j => f (column a j)) (seq 0 (shape_at a 1))).

(** [a.mean(axis=0).tolist()], which warns and does not raise on an array
    without rows. *)
Definition mean_rows (f : list f32 -> f32) (a : ndarray) : list f32 :=
  map (fun j => f (column a j)) (seq 0 (shape_at a 1)).

(** What of the response depends on the request; the fresh ids, the
    elapsed time and the constant entries are left out. *)
Record response : Type := Response {
  pose_position : list f32;                  (* the centroid *)
  bbox_min : list f32;
  bbox_max : list f32;
  point_cloud_of : point_cloud;
  gaussian_asset_key : option string;
  processing_stats_of : processing_stats
}.

(** Code that works on the files of the container only. *)
Definition on_local {A : Type} (m : io A) (w : world) : world * res A :=
  let '(fs, r) := m (local w) in (World fs (volume w), r).

Section Request.
Context {frame image rng_state : Type}.
Variable b64decode : string -> res (list byte).
Variable writable : string -> bool.
Variable decode_video : list byte -> option (capture frame).
Variable to_pil : frame -> image.
Variable open_image : list byte -> res image.
Variable py_repr : json -> string.
(** Step 3: loading the model and running it on the images. *)
Variable run_model : list image -> res predictions.
Variable model_save_ply : option (string -> predictions -> io unit).
Variable commit : filesystem -> filesystem -> res filesystem.
Variable default_rng : Z -> rng_state.
Variable choice : rng_state -> nat -> nat -> list nat * rng_state.
(** [numpy]'s minimum, maximum and mean of a column of [float32]. *)
Variable column_min column_max column_mean : list f32 -> f32.

(** Step 8.  Nothing catches what it raises. *)
Definition build_response (g : gaussians) (key : option string)
    (pil_images : list image) (use_video : bool) : res response :=
  bbox_min ← reduce_rows column_min (pts3d_np g);
  bbox_max ← reduce_rows column_max (pts3d_np g);
  let centroid := mean_rows column_mean (pts3d_np g) in
  pc ← response_point_cloud default_rng choice (n_points g) (pts3d_np g)
         (colors_rgb g);
  Ok (Response centroid bbox_min bbox_max pc key
        (response_stats pil_images (n_points g) use_video)).

(** Steps 4 to 8, [ply_id] being the fresh [uuid4] of step 5. *)
Definition reconstruct_result (preds : predictions) (pil_images : list image)
    (use_video : bool) (ply_id : string) (w : world) : world * res response :=
  match extract_gaussians preds with
  | Raise e => (w, Raise e)
  | Ok g =>
      match persist_ply model_save_ply commit ply_id preds g w with
      | (w', Raise e) => (w', Raise e)
      | (w', Ok key) => (w', build_response g key pil_images use_video)
      end
  end.

(** [reconstruct]: the response, or the exception the endpoint ends in. *)
Definition reconstruct (item : body) (ply_id : string) (w : world)
    : world * res response :=
  match on_local (parse_and_decode b64decode writable decode_video to_pil
                    open_image py_repr item) w with
  | (w1, Raise e) => (w1, Raise e)
  | (w1, Ok (pil_images, use_video)) =>
      match run_model pil_images with
      | Raise exc =>
          (w1, Raise (HTTPException 500 (Fmt "Model inference failed: " exc)))
      | Ok preds => reconstruct_result preds pil_images use_video ply_id w1
      end
  end.
End Request.

(** Sample requests: three images for a model that returns positions for
    two points and nothing else, or positions for no point at all. *)
Definition three_images_body : body := request_body three_images.
Definition returns_two_points (_ : list nat) : res predictions :=
  Ok only_positions.
Definition no_positions : predictions :=
  PredDict (<["pts3d" := PyTensor (NDArray [0%nat; 3%nat] [])]> ∅).
Definition returns_no_points (_ : list nat) : res predictions :=
  Ok no_positions.
Definition first_of (l : list f32) : f32 := hd f32_zero l.
(* ===================================================================== *)
(** * Rows of a row-major buffer *)
(* ===================================================================== *)

Lemma row_at_concat (rows : list (list f32)) (c i : nat) (r : list f32) :
  Forall (fun r => length r = c) rows ->
  rows !! i = Some r ->
  row_at c (concat rows) i = r.
Proof.
  unfold row_at. revert i.
  induction rows as [|r0 rows IH]; intros i Hall Hi; [done|].
  inversion Hall as [|? ? Hr0 Hrest]; subst.
  destruct i as [|i]; simpl in Hi.
  - injection Hi as ->. rewrite drop_0. simpl. by rewrite take_app_length.
  - simpl concat.
    replace (S i * length r0)%nat with (length r0 + i * length r0)%nat by lia.
    rewrite <- drop_drop, drop_app_length. by apply IH.
Qed.

Lemma tolist_concat (n c : nat) (rows : list (list f32)) :
  length rows = n ->
  Forall (fun r => length r = c) rows ->
  tolist (NDArray [n; c] (concat rows)) = rows.
Proof.
  intros Hn Hall. unfold tolist, shape_at. simpl.
  apply list_eq. intros i. rewrite list_lookup_fmap.
  destruct (rows !! i) as [r|] eqn:Hi.
  - assert (i < n)%nat by (rewrite <- Hn; by eapply lookup_lt_Some).
    rewrite lookup_seq_lt by done. simpl. f_equal. by apply row_at_concat.
  - apply lookup_ge_None in Hi.
    rewrite lookup_seq_ge; [done | lia].
Qed.

Lemma replicate_rows {A : Type} (n c : nat) (x : A) :
  replicate (n * c) x = concat (replicate n (replicate c x)).
Proof.
  induction n as [|n IH]; [done|].
  simpl. by rewrite replicate_add, IH.
Qed.

Lemma tolist_full (n c : nat) (v : f32) :
  tolist (full [n; c] v) = replicate n (replicate c v).
Proof.
  unfold full. simpl. rewrite Nat.mul_1_r, replicate_rows.
  apply tolist_concat; [apply length_replicate|].
  apply Forall_replicate, length_replicate.
Qed.

Lemma length_tolist (a : ndarray) : length (tolist a) = shape_at a 0.
Proof. unfold tolist. by rewrite length_map, length_seq. Qed.

(* ===================================================================== *)
(** * The prediction adapter: alias order and defaults *)
(* ===================================================================== *)

Lemma extract_tensor_skip (preds : predictions) (k : string) (ks : list string) :
  present preds k = None ->
  _extract_tensor preds (k :: ks) = _extract_tensor preds ks.
Proof. destruct preds; simpl; intros ->; done. Qed.

Lemma extract_tensor_hit (preds : predictions) (k : string) (ks : list string)
    (v : pyval) :
  present preds k = Some v ->
  _extract_tensor preds (k :: ks) = v.
Proof. destruct preds; simpl; intros ->; done. Qed.

(** C6. The adapter returns the value of the first alias of the list that
    the result has, as a key of a mapping or as an attribute of an object,
    whatever later aliases are present too: with the aliases before [k]
    absent and [k] present, the value found under [k] is returned for every
    tail of the list.  With [before = []] and the position aliases this is
    the choice of [pts3d] over [means3D]. *)
Theorem extract_tensor_first_alias_wins
    (preds : predictions) (candidate_keys before after : list string)
    (k : string) (v : pyval) :
  candidate_keys = before ++ k :: after ->
  Forall (fun a => present preds a = None) before ->
  present preds k = Some v ->
  _extract_tensor preds candidate_keys = v.
Proof.
  intros -> Habsent Hk.
  induction Habsent as [|a before Ha _ IH].
  - by apply extract_tensor_hit.
  - simpl app. by rewrite extract_tensor_skip.
Qed.

Lemma extract_tensor_first_alias_wins_witness :
  _extract_tensor both_positions position_aliases
  = PyTensor (NDArray [1%nat; 3%nat] [1; 2; 3]).
Proof.
  apply (extract_tensor_first_alias_wins both_positions position_aliases
           [] ["means3D"; "means"; "xyz"] "pts3d").
  - reflexivity.
  - constructor.
  - vm_compute. reflexivity.
Defined.

Lemma default_opacity_value : f32_mul f32_one f32_0_8 = f32_0_8.
Proof. vm_compute. reflexivity. Qed.

Lemma reshape_rows_ok (n m : nat) (t : ndarray) :
  (0 < n)%nat -> size t = (n * m)%nat ->
  reshape_rows n t = Ok (NDArray [n; m] (data t)).
Proof.
  intros Hn Hsz. unfold reshape_rows. rewrite Hsz.
  replace (n * m)%nat with (m * n)%nat by lia.
  rewrite Nat.Div0.mod_mul, Nat.div_mul by lia.
  destruct n; [lia | done].
Qed.

Lemma reshape_cols_ok (n c : nat) (t : ndarray) :
  (0 < c)%nat -> size t = (n * c)%nat ->
  reshape_cols c t = Ok (NDArray [n; c] (data t)).
Proof.
  intros Hc Hsz. unfold reshape_cols. rewrite Hsz.
  rewrite Nat.Div0.mod_mul, Nat.div_mul by lia.
  destruct c; [lia | done].
Qed.

Lemma reshape_to_ok (shp : list nat) (t : ndarray) :
  size t = fold_right Nat.mul 1%nat shp ->
  reshape_to shp t = Ok (NDArray shp (data t)).
Proof. intros Hsz. unfold reshape_to. by rewrite Hsz, Nat.eqb_refl. Qed.

Lemma response_colors_rows (sh_np : ndarray) :
  shape_at (response_colors sh_np) 0 = shape_at sh_np 0.
Proof.
  unfold response_colors, sh_dc_to_rgb, response_sh_dc.
  destruct (3 <=? shape_at sh_np 1)%nat; reflexivity.
Qed.

Lemma opacity_array_ok (n : nat) (conf : pyval) :
  absent_or conf (fun t => (0 < n)%nat /\ exists m, size t = (n * m)%nat) ->
  exists o, opacity_array n conf = Ok o
    /\ shape_at o 0 = n
    /\ (conf = PyNone -> tolist o = replicate n [f32_0_8]).
Proof.
  intros [-> | (t & -> & Hn & m & Hm)]; simpl.
  - eexists. split; [done|]. split; [done|]. intros _.
    rewrite fmap_replicate, default_opacity_value.
    apply (tolist_full n 1).
  - unfold mbind, res_bind. rewrite (reshape_rows_ok n m) by done.
    eexists. split; [done|]. split; [done|]. intros [=].
Qed.

Lemma scales_array_ok (n : nat) (scales : pyval) :
  absent_or scales (fun t => size t = (n * 3)%nat) ->
  exists s, scales_array n scales = Ok s
    /\ shape_at s 0 = n
    /\ (scales = PyNone ->
        tolist s = replicate n [f32_minus_5; f32_minus_5; f32_minus_5]).
Proof.
  intros [-> | (t & -> & Ht)]; simpl.
  - eexists. split; [done|]. split; [done|]. intros _.
    apply (tolist_full n 3).
  - unfold mbind, res_bind. rewrite reshape_to_ok by (simpl; lia).
    eexists. split; [done|]. split; [done|]. intros [=].
Qed.

Lemma quats_array_ok (n : nat) (quats : pyval) :
  absent_or quats (fun t => size t = (n * 4)%nat) ->
  exists q, quats_array n quats = Ok q
    /\ shape_at q 0 = n
    /\ (quats = PyNone ->
        tolist q = replicate n [f32_one; f32_zero; f32_zero; f32_zero]).
Proof.
  intros [-> | (t & -> & Ht)]; simpl.
  - eexists. split; [done|]. split; [done|]. intros _.
    apply tolist_concat; [apply length_replicate|].
    by apply Forall_replicate.
  - unfold mbind, res_bind. rewrite reshape_to_ok by (simpl; lia).
    eexists. split; [done|]. split; [done|]. intros [=].
Qed.

Lemma sh_array_ok (n : nat) (sh_coeffs : pyval) :
  absent_or sh_coeffs (fun t => (0 < n)%nat /\ exists m, size t = (n * m)%nat) ->
  exists h, sh_array n sh_coeffs = Ok h
    /\ shape_at h 0 = n
    /\ (sh_coeffs = PyNone ->
        tolist h = replicate n [f32_zero; f32_zero; f32_zero]).
Proof.
  intros [-> | (t & -> & Hn & m & Hm)]; simpl.
  - eexists. split; [done|]. split; [done|]. intros _.
    apply (tolist_full n 3).
  - unfold mbind, res_bind. rewrite (reshape_rows_ok n m) by done.
    eexists. split; [done|]. split; [done|]. intros [=].
Qed.

(** Step 4 on a result with positions for [n] points, whatever optional
    fields it lacks (the present ones having a size the adapter's
    [reshape] accepts): no error response comes out of it, every array has
    [n] rows, and each missing field holds its default at every point:
    opacity 0.8, scale -5.0 on the three axes, rotation (1, 0, 0, 0), and a
    zero coefficient vector of length 3. *)
Lemma extract_gaussians_fills_defaults (preds : predictions) (pts : ndarray) (n : nat) :
  _extract_tensor preds position_aliases = PyTensor pts ->
  size pts = (n * 3)%nat ->
  absent_or (_extract_tensor preds opacity_aliases)
    (fun t => (0 < n)%nat /\ exists m, size t = (n * m)%nat) ->
  absent_or (_extract_tensor preds scale_aliases)
    (fun t => size t = (n * 3)%nat) ->
  absent_or (_extract_tensor preds rotation_aliases)
    (fun t => size t = (n * 4)%nat) ->
  absent_or (_extract_tensor preds sh_aliases)
    (fun t => (0 < n)%nat /\ exists m, size t = (n * m)%nat) ->
  exists g,
    extract_gaussians preds = Ok g
    /\ n_points g = n
    /\ pts3d_np g = NDArray [n; 3%nat] (data pts)
    /\ length (tolist (pts3d_np g)) = n
    /\ length (tolist (opacity_np g)) = n
    /\ length (tolist (scales_np g)) = n
    /\ length (tolist (quats_np g)) = n
    /\ length (tolist (sh_np g)) = n
    /\ length (tolist (colors_rgb g)) = n
    /\ (_extract_tensor preds opacity_aliases = PyNone ->
        tolist (opacity_np g) = replicate n [f32_0_8])
    /\ (_extract_tensor preds scale_aliases = PyNone ->
        tolist (scales_np g)
        = replicate n [f32_minus_5; f32_minus_5; f32_minus_5])
    /\ (_extract_tensor preds rotation_aliases = PyNone ->
        tolist (quats_np g)
        = replicate n [f32_one; f32_zero; f32_zero; f32_zero])
    /\ (_extract_tensor preds sh_aliases = PyNone ->
        tolist (sh_np g) = replicate n [f32_zero; f32_zero; f32_zero]).
Proof.
  intros Hpts Hsz Hconf Hscales Hquats Hsh.
  destruct (opacity_array_ok n _ Hconf) as (o & Eo & Ho & Hod).
  destruct (scales_array_ok n _ Hscales) as (s & Es & Hs & Hsd).
  destruct (quats_array_ok n _ Hquats) as (q & Eq & Hq & Hqd).
  destruct (sh_array_ok n _ Hsh) as (h & Eh & Hh & Hhd).
  unfold extract_gaussians, extract_gaussians_body.
  rewrite Hpts. simpl to_numpy. unfold mbind, res_bind.
  rewrite (reshape_cols_ok n 3) by (done || lia).
  change (shape_at (NDArray [n; 3%nat] (data pts)) 0) with n.
  rewrite Eo, Es, Eq, Eh.
  eexists. split; [reflexivity|]. simpl.
  rewrite !length_tolist, Ho, Hs, Hq, Hh.
  repeat (split; [done|]).
  split; [|done].
  by rewrite response_colors_rows.
Qed.

(* ===================================================================== *)
(** * The point cloud of the response *)
(* ===================================================================== *)

Lemma length_row_at (n c i : nat) (d : list f32) :
  length d = (n * c)%nat -> (i < n)%nat -> length (row_at c d i) = c.
Proof.
  intros Hd Hi. unfold row_at. rewrite length_take, length_drop, Hd. nia.
Qed.

Lemma row_at_chunks (f : nat -> list f32) (n c i : nat) :
  (forall j, (j < n)%nat -> length (f j) = c) ->
  (i < n)%nat ->
  row_at c (concat (map f (seq 0 n))) i = f i.
Proof.
  intros Hf Hi. apply row_at_concat.
  - apply Forall_forall. intros r Hr.
    apply list_elem_of_fmap in Hr as (j & -> & Hj).
    apply elem_of_seq in Hj. apply Hf. lia.
  - rewrite list_lookup_fmap, lookup_seq_lt by done. done.
Qed.

Lemma row_at_map (f : f32 -> f32) (c i : nat) (d : list f32) :
  row_at c (map f d) i = map f (row_at c d i).
Proof.
  unfold row_at.
  change (map f) with (fmap (M := list) f).
  by rewrite fmap_take, fmap_drop.
Qed.

(** Fancy indexing succeeds exactly on indices below the row count, and
    yields the rows in the order of the indices. *)
Lemma take_rows_ok (a : ndarray) (r c : nat) (indices : list nat) :
  shape a = [r; c] ->
  Forall (fun i => (i < r)%nat) indices ->
  take_rows a indices = Ok (map (row_at c (data a)) indices).
Proof.
  intros Ha Hall. unfold take_rows.
  induction Hall as [|i l Hi _ IH]; [done|].
  simpl. unfold unpack_row at 1. rewrite Ha.
  apply Nat.ltb_lt in Hi. rewrite Hi. by rewrite IH.
Qed.



Lemma slice_cols_eq (a : ndarray) (n w k : nat) :
  shape a = [n; w] ->
  slice_cols k a
  = NDArray [n; Nat.min k w]
      (concat (map (fun i => take k (row_at w (data a) i)) (seq 0 n))).
Proof. intros H. unfold slice_cols, shape_at. by rewrite H. Qed.

Lemma tile3_eq (a : ndarray) (n w : nat) :
  shape a = [n; w] ->
  tile3 a
  = NDArray [n; (3 * w)%nat]
      (concat (map (fun i => let r := row_at w (data a) i in r ++ r ++ r)
                   (seq 0 n))).
Proof. intros H. unfold tile3, shape_at. by rewrite H. Qed.

(** The colours of point [i]: the shaded DC entries of its row. *)
Lemma response_colors_row (sh_np : ndarray) (n w i : nat) :
  shape sh_np = [n; w] ->
  length (data sh_np) = (n * w)%nat ->
  (i < n)%nat ->
  row_at (shape_at (response_colors sh_np) 1)
         (data (response_colors sh_np)) i
  = map shade (response_dc_row w (row_at w (data sh_np) i)).
Proof.
  intros Hs Hd Hi.
  assert (Hlen : forall j, (j < n)%nat -> length (row_at w (data sh_np) j) = w)
    by (intros; by eapply length_row_at).
  unfold response_colors, sh_dc_to_rgb, response_sh_dc, response_dc_row.
  replace (shape_at sh_np 1) with w by (unfold shape_at; by rewrite Hs).
  destruct (3 <=? w)%nat eqn:Hw.
  - rewrite (slice_cols_eq sh_np n w) by done.
    unfold shape_at. cbn [shape data nth].
    rewrite row_at_map. f_equal.
    apply (row_at_chunks (fun i => take 3 (row_at w (data sh_np) i))); [|done].
    intros j Hj. rewrite length_take, Hlen by done. done.
  - rewrite (slice_cols_eq sh_np n w) by done.
    rewrite (tile3_eq _ n (Nat.min 1 w)) by done.
    unfold shape_at. cbn [shape data nth].
    rewrite row_at_map. f_equal.
    set (d1 := concat (map (fun i => take 1 (row_at w (data sh_np) i)) (seq 0 n))).
    assert (Hd1 : forall j, (j < n)%nat ->
              row_at (Nat.min 1 w) d1 j = take 1 (row_at w (data sh_np) j)).
    { intros j Hj. unfold d1.
      apply (row_at_chunks (fun i => take 1 (row_at w (data sh_np) i))); [|done].
      intros k Hk. rewrite length_take, Hlen by done. done. }
    rewrite (row_at_chunks
               (fun i => row_at (Nat.min 1 w) d1 i ++ row_at (Nat.min 1 w) d1 i
                         ++ row_at (Nat.min 1 w) d1 i)
               n (3 * Nat.min 1 w) i); [by rewrite Hd1| |done].
    intros j Hj. rewrite Hd1 by done.
    rewrite !length_app, length_take, Hlen by done. lia.
Qed.

Section ResponseFacts.
Context {rng_state : Type}.
Variable default_rng : Z -> rng_state.
Variable choice : rng_state -> nat -> nat -> list nat * rng_state.

(** Under the contract of [choice] the point cloud is always built. *)
Lemma response_point_cloud_ok (n c : nat) (pts cols : ndarray) :
  choice_without_replacement choice ->
  shape pts = [n; 3%nat] ->
  shape cols = [n; c] ->
  exists pc,
    response_point_cloud default_rng choice n pts cols = Ok pc
    /\ count pc = Nat.min n MAX_POINTS_IN_RESPONSE.
Proof.
  intros Hrng Hp Hc. unfold response_point_cloud.
  destruct (Nat.ltb_spec MAX_POINTS_IN_RESPONSE n) as [Hbig | Hsmall].
  - destruct (Hrng (default_rng 42) n MAX_POINTS_IN_RESPONSE)
      as (Hlen & Hnd & Hlt); [lia|].
    unfold downsample_indices.
    rewrite (take_rows_ok pts n 3), (take_rows_ok cols n c) by done.
    unfold mbind, res_bind.
    eexists. split; [reflexivity|]. cbn [count]. lia.
  - eexists. split; [reflexivity|]. cbn [count]. lia.
Qed.


(** C9. The indices kept by the downsampling step come from a generator
    created afresh with seed 42 at every invocation: two invocations on
    [n > 50000] points, whatever the positions and colours they are given,
    keep the rows of one and the same index list, the one that generator
    draws for [n] and the cap. *)
Theorem downsample_same_indices
    (n : nat) (pts1 cols1 pts2 cols2 : ndarray) (pc1 pc2 : point_cloud) :
  (MAX_POINTS_IN_RESPONSE < n)%nat ->
  response_point_cloud default_rng choice n pts1 cols1 = Ok pc1 ->
  response_point_cloud default_rng choice n pts2 cols2 = Ok pc2 ->
  exists indices,
    indices = fst (choice (default_rng 42) n MAX_POINTS_IN_RESPONSE)
    /\ take_rows pts1 indices = Ok (positions pc1)
    /\ take_rows cols1 indices = Ok (colors pc1)
    /\ take_rows pts2 indices = Ok (positions pc2)
    /\ take_rows cols2 indices = Ok (colors pc2).
Proof.
  intros Hbig H1 H2. unfold response_point_cloud in H1, H2.
  apply Nat.ltb_lt in Hbig. rewrite Hbig in H1, H2.
  unfold mbind, res_bind, downsample_indices in H1, H2.
  exists (fst (choice (default_rng 42) n MAX_POINTS_IN_RESPONSE)).
  split; [done|].
  destruct (take_rows pts1 _) as [p1|]; [|done].
  destruct (take_rows cols1 _) as [c1|]; [|done].
  destruct (take_rows pts2 _) as [p2|]; [|done].
  destruct (take_rows cols2 _) as [c2|]; [|done].
  injection H1 as <-. injection H2 as <-. done.
Qed.

End ResponseFacts.

Lemma cap_below_sixty_thousand :
  (MAX_POINTS_IN_RESPONSE < sixty_thousand)%nat.
Proof. apply Nat.ltb_lt. vm_compute. reflexivity. Qed.

Lemma first_indices_contract : choice_without_replacement first_indices.
Proof.
  intros s n k Hk. unfold first_indices. cbn [fst].
  split; [apply length_seq|]. split; [apply NoDup_seq|].
  apply Forall_seq. intros j Hj. lia.
Qed.


Lemma many_points_cloud_response :
  response_point_cloud (fun _ => tt) first_indices sixty_thousand
    many_points many_points = Ok many_points_cloud.
Proof.
  unfold response_point_cloud.
  rewrite (proj2 (Nat.ltb_lt _ _) cap_below_sixty_thousand).
  rewrite (take_rows_ok many_points sixty_thousand 3);
    [reflexivity | reflexivity |].
  apply (first_indices_contract tt).
  pose proof cap_below_sixty_thousand. lia.
Qed.

Lemma downsample_same_indices_witness :
  exists indices,
    indices = fst (first_indices tt sixty_thousand MAX_POINTS_IN_RESPONSE)
    /\ take_rows many_points indices = Ok (positions many_points_cloud)
    /\ take_rows many_points indices = Ok (colors many_points_cloud)
    /\ take_rows many_points indices = Ok (positions many_points_cloud)
    /\ take_rows many_points indices = Ok (colors many_points_cloud).
Proof.
  apply (downsample_same_indices (fun _ => tt) first_indices sixty_thousand
           many_points many_points many_points many_points
           many_points_cloud many_points_cloud).
  - exact cap_below_sixty_thousand.
  - exact many_points_cloud_response.
  - exact many_points_cloud_response.
Defined.


(* ===================================================================== *)
(** * The colours of the response and the DC term *)
(* ===================================================================== *)

(** With one coefficient per channel the colours of the response are the
    shaded DC terms. *)
Lemma response_colors_dc_only (sh_np : ndarray) (n i : nat) :
  shape sh_np = [n; 3%nat] ->
  length (data sh_np) = (n * 3)%nat ->
  (i < n)%nat ->
  row_at (shape_at (response_colors sh_np) 1) (data (response_colors sh_np)) i
  = spec_rgb_row 1 (row_at 3 (data sh_np) i).
Proof.
  intros Hs Hd Hi.
  rewrite (response_colors_row sh_np n 3) by done.
  pose proof (length_row_at n 3 i (data sh_np) Hd Hi) as Hlen.
  destruct (row_at 3 (data sh_np) i) as [|a [|b [|c [|? ?]]]]; try done.
Qed.

(** C2, at a coefficient array of width 6 (two coefficients per channel):
    the colours of the response shade columns 0, 1, 2 of the row, where the
    specification, and the encoder's [f_dc], take columns 0, 2, 4. *)
Theorem response_colors_first_three_columns :
  tolist (response_colors degree_one_sh) = [[f32_half; f32_one; f32_zero]]
  /\ spec_rgb_row 2 (row_at 6 (data degree_one_sh) 0)
     = [f32_half; f32_zero; f32_one]
  /\ (ply_records <$>
        (match write_gaussian_ply one_point one_opacity one_scale one_quat
                 degree_one_sh with
         | Ok bytes => parse_ply bytes
         | Raise _ => None
         end))
     = Some [[f32_one; f32_one; f32_one; f32_zero; f32_zero; f32_zero;
              f32_zero; f32_minus_10; f32_10;
              f32_10; f32_zero; f32_zero;
              f32_0_8; f32_minus_5; f32_minus_5; f32_minus_5;
              f32_one; f32_zero; f32_zero; f32_zero]].
Proof. vm_compute. done. Qed.

(* ===================================================================== *)
(** * The frame sampler *)
(* ===================================================================== *)

(** [int] drops the fractional part: for [x = +-m * 2^e] with [e < 0] the
    result [t] has [|t| <= |x| < |t| + 1] and the sign of [x]. *)
Lemma int_of_float_truncates (s : bool) (m : positive) (e t : Z) :
  int_of_float (S754_finite s m e) = Ok t ->
  e < 0 ->
  Z.abs t * 2 ^ (- e) <= Z.pos m < (Z.abs t + 1) * 2 ^ (- e)
  /\ (t <> 0 -> (t < 0 <-> s = true)).
Proof.
  unfold int_of_float. intros [= <-] He.
  destruct (Z.leb_spec 0 e) as [|_]; [lia|].
  assert (Hd : 0 < 2 ^ (- e)) by (apply Z.pow_pos_nonneg; lia).
  pose proof (Z.div_mod (Z.pos m) (2 ^ (- e))) as Hdm.
  pose proof (Z.mod_pos_bound (Z.pos m) (2 ^ (- e)) Hd) as Hr.
  assert (Hq : 0 <= Z.pos m / 2 ^ (- e)) by (apply Z.div_pos; lia).
  set (q := Z.pos m / 2 ^ (- e)) in *.
  set (d := 2 ^ (- e)) in *.
  destruct s.
  - rewrite Z.abs_opp, Z.abs_eq by done. split; [nia|].
    intros Hne. split; [done | lia].
  - rewrite Z.abs_eq by done. split; [nia|].
    intros Hne. split; [lia | done].
Qed.

Section Sampler.
Context {frame image : Type}.
Variable to_pil : frame -> image.

Lemma strided_from_shift (k start : Z) (s : nat) (l : list frame) :
  strided_from k start (S s) l = strided_from k (start + 1) s l.
Proof.
  unfold strided_from. revert s.
  induction l as [|x l IH]; intros s; [done|].
  cbn [length seq combine List.filter fst].
  replace (start + Z.of_nat (S s)) with (start + 1 + Z.of_nat s) by lia.
  destruct (_ =? 0); cbn [map snd]; by rewrite IH.
Qed.

Lemma strided_cons (k start : Z) (x : frame) (l : list frame) :
  strided k start (x :: l)
  = (if start mod k =? 0 then [x] else []) ++ strided k (start + 1) l.
Proof.
  unfold strided. rewrite <- strided_from_shift. unfold strided_from.
  cbn [length seq combine List.filter fst].
  replace (start + Z.of_nat 0) with start by lia.
  by destruct (_ =? 0).
Qed.

Lemma read_loop_strided (k : Z) (frames : list frame) (frame_idx : Z)
    (pil_images : list image) :
  read_loop to_pil k frames frame_idx (Z.of_nat (length pil_images)) pil_images
  = pil_images
    ++ take (100 - length pil_images) (map to_pil (strided k frame_idx frames)).
Proof.
  revert frame_idx pil_images.
  induction frames as [|fr rest IH]; intros idx acc.
  - simpl. by rewrite take_nil, app_nil_r.
  - cbn [read_loop]. rewrite strided_cons. unfold max_frames.
    destruct (idx mod k =? 0); cbn [andb].
    + destruct (Z.ltb_spec (Z.of_nat (length acc)) 100) as [Hlt | Hge].
      * replace (Z.of_nat (length acc) + 1)
          with (Z.of_nat (length (acc ++ [to_pil fr])))
          by (rewrite length_app; simpl; lia).
        rewrite IH, length_app. simpl length.
        rewrite <- app_assoc. f_equal.
        replace (100 - length acc)%nat with (S (100 - (length acc + 1)))
          by lia.
        done.
      * rewrite IH.
        replace (100 - length acc)%nat with 0%nat by lia. done.
    + by rewrite IH.
Qed.

(** C4, as the code has it.  The stride is [max(1, int(src_fps / 1))],
    [int] truncating, with [src_fps] the reported rate or 30 when that is
    zero; the loop reads the source to its end and keeps, in order, the
    frames whose index is a multiple of the stride, the first 100 of
    them at most. *)
Theorem sample_frames_every_stride (cap : capture frame) (total t : Z) :
  int_of_float (cap_frame_count cap) = Ok total ->
  int_of_float (f64_div (source_fps (cap_fps cap)) (f64_of_Z 1)) = Ok t ->
  frame_interval (source_fps (cap_fps cap)) = Ok (Z.max 1 t)
  /\ (float_truthy (cap_fps cap) = false ->
      source_fps (cap_fps cap) = f64_of_Z 30)
  /\ sample_frames to_pil cap
     = Ok (take 100
             (map to_pil (strided (Z.max 1 t) 0 (cap_frames cap)))).
Proof.
  intros Htotal Ht.
  assert (Hk : frame_interval (source_fps (cap_fps cap)) = Ok (Z.max 1 t))
    by (unfold frame_interval; by rewrite Ht).
  split; [done|]. split.
  { unfold source_fps. by intros ->. }
  unfold sample_frames. rewrite Htotal, Hk. unfold mbind, res_bind.
  f_equal. apply (read_loop_strided (Z.max 1 t) (cap_frames cap) 0 []).
Qed.
End Sampler.

(** C4 as stated fails at the NTSC rate: the code truncates 29.97 to a
    stride of 29 where rounding gives 30, and a two-second clip yields the
    frames 0, 29 and 58 rather than 0 and 30. *)
Lemma stride_truncates_ntsc :
  frame_interval (source_fps ntsc_fps) = Ok 29
  /\ spec_stride (source_fps ntsc_fps) = Ok 30
  /\ frame_interval (source_fps ntsc_fps) <> spec_stride (source_fps ntsc_fps)
  /\ sample_frames (fun i : nat => i) ntsc_clip = Ok [0; 29; 58]%nat
  /\ strided 30 0 (cap_frames ntsc_clip) = [0; 30]%nat.
Proof. vm_compute. repeat split; done. Qed.

Lemma sample_frames_every_stride_witness :
  frame_interval (source_fps (cap_fps ntsc_clip)) = Ok (Z.max 1 29)
  /\ (float_truthy (cap_fps ntsc_clip) = false ->
      source_fps (cap_fps ntsc_clip) = f64_of_Z 30)
  /\ sample_frames (fun i : nat => i) ntsc_clip
     = Ok (take 100
             (map (fun i : nat => i)
                  (strided (Z.max 1 29) 0 (cap_frames ntsc_clip)))).
Proof.
  apply (sample_frames_every_stride (fun i : nat => i) ntsc_clip 60 29).
  - vm_compute. reflexivity.
  - vm_compute. reflexivity.
Defined.

(** Usual rates, and a source that reports none. *)
Lemma frame_interval_examples :
  frame_interval (source_fps (f64_of_Z 30)) = Ok 30
  /\ frame_interval (source_fps (f64_of_Z 0)) = Ok 30
  /\ frame_interval (source_fps (f64_div (f64_of_Z 1) (f64_of_Z 2))) = Ok 1
  /\ frame_interval (source_fps (f64_div (f64_of_Z 119) (f64_of_Z 2))) = Ok 59
  /\ frame_interval (source_fps S754_nan) = Raise ValueError.
Proof. vm_compute. repeat split; done. Qed.

(* ===================================================================== *)
(** * The temporary video file *)
(* ===================================================================== *)

Section VideoFile.
Context {frame image : Type}.
Variable b64decode : string -> res (list byte).
Variable writable : string -> bool.
Variable decode_video : list byte -> option (capture frame).
Variable to_pil : frame -> image.

(** When the frames come back, the temporary file is gone. *)
Lemma video_frames_success_removes_file
    (case_id video_b64 : string) (fs fs' : filesystem)
    (pil_images : list image) :
  video_frames b64decode writable decode_video to_pil case_id video_b64 fs
    = (fs', Ok pil_images) ->
  fs' !! video_path case_id = None.
Proof.
  unfold video_frames, or_error_response, video_frames_body.
  unfold mbind, io_bind, io_lift, write_file, open_capture, remove_quietly,
    io_raise, mret, io_ret.
  destruct (b64decode video_b64) as [bytes|]; [|done].
  destruct (writable (video_path case_id)); [|done].
  rewrite lookup_insert_eq.
  destruct (decode_video bytes) as [cap|]; [|done].
  destruct (sample_frames to_pil cap) as [imgs|]; [|done].
  destruct (length imgs =? 0)%nat; [done|].
  intros [= <- _]. apply lookup_delete_eq.
Qed.

(** On every failure after the file was written, it is still there. *)
Lemma video_frames_failure_leaves_file
    (case_id video_b64 : string) (fs fs' : filesystem) (e : exn)
    (video_bytes : list byte) :
  b64decode video_b64 = Ok video_bytes ->
  writable (video_path case_id) = true ->
  video_frames b64decode writable decode_video to_pil case_id video_b64 fs
    = (fs', Raise e) ->
  fs' !! video_path case_id = Some video_bytes.
Proof.
  intros Hb Hw.
  unfold video_frames, or_error_response, video_frames_body.
  unfold mbind, io_bind, io_lift, write_file, open_capture, remove_quietly,
    io_raise, mret, io_ret.
  rewrite Hb, Hw, lookup_insert_eq.
  destruct (decode_video video_bytes) as [cap|].
  - destruct (sample_frames to_pil cap) as [imgs|].
    + destruct (length imgs =? 0)%nat; [|done].
      intros [= <- _]. apply lookup_insert_eq.
    + intros [= <- _]. apply lookup_insert_eq.
  - intros [= <- _]. apply lookup_insert_eq.
Qed.

(** When the file cannot be opened for writing, the request fails and the
    files are what they were. *)
Lemma video_frames_unwritable
    (case_id video_b64 : string) (fs : filesystem) :
  writable (video_path case_id) = false ->
  exists e,
    video_frames b64decode writable decode_video to_pil case_id video_b64 fs
    = (fs, Raise (HTTPException 400
                    (Fmt "Failed to process video input: " e))).
Proof.
  intros Hw.
  unfold video_frames, or_error_response, video_frames_body.
  unfold mbind, io_bind, io_lift, write_file.
  destruct (b64decode video_b64) as [bytes|e]; [|by eexists].
  rewrite Hw. by eexists.
Qed.
End VideoFile.

(** C5, at a video that OpenCV cannot open and at one that holds no frame:
    the request ends in the 400 response and the temporary file written
    for the decode is still on disk; only when frames were extracted has it
    been removed. *)
Theorem video_file_left_after_failure :
  let path := "/tmp/case-1_input.mp4" in
  let refused cause :=
    HTTPException 400 (Fmt "Failed to process video input: " cause) in
  (let r := video_frames b64_any tmp_writable opens_nothing (fun i : nat => i)
              "case-1" "AAE=" ∅ in
   snd r = Raise (refused (RuntimeError
                    "OpenCV could not open video: /tmp/case-1_input.mp4"))
   /\ fst r !! path = Some [x00; x01])
  /\ (let r := video_frames b64_any tmp_writable opens_empty (fun i : nat => i)
                 "case-1" "AAE=" ∅ in
      snd r = Raise (refused (RuntimeError
                       "No frames could be extracted from video"))
      /\ fst r !! path = Some [x00; x01])
  /\ (let r := video_frames b64_any tmp_writable opens_clip (fun i : nat => i)
                 "case-1" "AAE=" ∅ in
      snd r = Ok [0; 29; 58]%nat /\ fst r !! path = None).
Proof. vm_compute. repeat split; done. Qed.

(* ===================================================================== *)
(** * Bytes of a [float32] *)
(* ===================================================================== *)

Lemma Z_of_byte_of_Z (z : Z) : 0 <= z < 256 -> Z_of_byte (byte_of_Z z) = z.
Proof.
  intros Hz. unfold Z_of_byte, byte_of_Z.
  rewrite Z.mod_small by done.
  destruct (Byte.of_N (Z.to_N z)) as [b|] eqn:Hb.
  - apply Byte.to_of_N in Hb. rewrite Hb. lia.
  - apply Byte.of_N_None_iff in Hb. lia.
Qed.

Lemma unpack_le_bytes (x : Z) :
  f32_wf x ->
  match le_bytes x with
  | [b0; b1; b2; b3] => unpack_f32 b0 b1 b2 b3 = x
  | _ => False
  end.
Proof.
  unfold f32_wf, le_bytes, unpack_f32. intros Hx.
  change 255 with (Z.ones 8). rewrite !Z.land_ones by lia.
  rewrite !Z.shiftr_div_pow2 by lia.
  rewrite !Z_of_byte_of_Z by (apply Z.mod_pos_bound; lia).
  change (2 ^ 8) with 256. change (2 ^ 16) with 65536.
  change (2 ^ 24) with 16777216. change (2 ^ 32) with 4294967296 in Hx.
  Z.div_mod_to_equations. lia.
Qed.

(** The bits of a [nan]: exponent 255 and a mantissa that is not 0. *)
Lemma f32_is_nan_bits (x : f32) :
  f32_is_nan x = true
  <-> Z.land (Z.shiftr x 23) 255 = 255 /\ Z.land x (2 ^ 23 - 1) <> 0.
Proof.
  unfold f32_is_nan, sf_of_bits.
  destruct (Z.eqb_spec (Z.land (Z.shiftr x 23) 255) 0) as [He0|He0].
  - rewrite He0. split; [|lia].
    destruct (Z.land x (2 ^ 23 - 1) =? 0); discriminate.
  - destruct (Z.eqb_spec (Z.land (Z.shiftr x 23) 255) 255) as [He|He].
    + destruct (Z.eqb_spec (Z.land x (2 ^ 23 - 1)) 0) as [Hm|Hm].
      * split; [discriminate | intros [_ H]; done].
      * split; [done | done].
    + split; [discriminate | intros [H _]; done].
Qed.

Lemma f32_via_float_nan (x : f32) :
  f32_is_nan (f32_via_float x) = f32_is_nan x.
Proof.
  unfold f32_via_float, f32_quiet. destruct (f32_is_nan x) eqn:Hx; [|done].
  apply f32_is_nan_bits in Hx as [He Hm]. apply f32_is_nan_bits.
  rewrite Z.shiftr_lor, !Z.land_lor_distr_l. split.
  - rewrite He. reflexivity.
  - intros H. apply Z.lor_eq_0_iff in H as [H _]. done.
Qed.

Lemma f32_quiet_nan (x : f32) :
  f32_is_nan x = true -> f32_is_nan (f32_quiet x) = true.
Proof.
  intros Hx. pose proof (f32_via_float_nan x) as H.
  unfold f32_via_float in H. by rewrite Hx in H.
Qed.

Lemma f32_via_float_idem (x : f32) :
  f32_via_float (f32_via_float x) = f32_via_float x.
Proof.
  unfold f32_via_float at 1. rewrite f32_via_float_nan.
  unfold f32_via_float, f32_quiet. destruct (f32_is_nan x); [|done].
  rewrite <- Z.lor_assoc. by rewrite Z.lor_diag.
Qed.

Lemma f32_via_float_wf (x : f32) : f32_wf x -> f32_wf (f32_via_float x).
Proof.
  unfold f32_via_float, f32_quiet, f32_wf. intros Hx.
  destruct (f32_is_nan x); [|done]. split.
  - apply Z.lor_nonneg. lia.
  - destruct (Z.eq_dec (Z.lor x 4194304) 0) as [->|Hne]; [lia|].
    apply Z.log2_lt_pow2; [pose proof (Z.lor_nonneg x 4194304); lia|].
    rewrite Z.log2_lor by lia.
    apply Z.max_lub_lt; [|done].
    destruct (Z.eq_dec x 0) as [->|Hx0]; [done|].
    apply Z.log2_lt_pow2; lia.
Qed.

Lemma pack_f32_via_float (x : f32) : pack_f32 (f32_via_float x) = pack_f32 x.
Proof. unfold pack_f32. by rewrite f32_via_float_idem. Qed.

Lemma unpack_pack_f32 (x : f32) :
  f32_wf x ->
  match pack_f32 x with
  | [b0; b1; b2; b3] => unpack_f32 b0 b1 b2 b3 = f32_via_float x
  | _ => False
  end.
Proof.
  intros Hx. unfold pack_f32.
  apply unpack_le_bytes. by apply f32_via_float_wf.
Qed.

Lemma length_pack_floats (r : list f32) :
  length (concat (map pack_f32 r)) = (4 * length r)%nat.
Proof.
  induction r as [|x r IH]; [done|].
  cbn [map concat]. rewrite length_app, IH.
  unfold pack_f32, le_bytes. cbn [length]. lia.
Qed.

Lemma pack_floats_via_float (r : list f32) :
  concat (map pack_f32 (map f32_via_float r)) = concat (map pack_f32 r).
Proof.
  rewrite map_map. f_equal. apply map_ext. intros x.
  apply pack_f32_via_float.
Qed.

(** Packed values read back: each as [struct.pack] stored it. *)
Lemma unpack_pack_floats (r : list f32) :
  Forall f32_wf r ->
  unpack_floats (concat (map pack_f32 r)) = Some (map f32_via_float r).
Proof.
  induction 1 as [|x r Hx _ IH]; [done|].
  cbn [map concat].
  pose proof (unpack_pack_f32 x Hx) as Hu.
  unfold pack_f32, le_bytes in *. cbn [app unpack_floats].
  by rewrite IH, Hu.
Qed.

Lemma read_records_packed (p : nat) (recs : list (list f32)) :
  Forall (fun r => length r = p /\ Forall f32_wf r) recs ->
  read_records (length recs) (4 * p)
    (concat (map (fun r => concat (map pack_f32 r)) recs))
  = Some (map (map f32_via_float) recs).
Proof.
  induction 1 as [|r recs [Hlen Hwf] _ IH]; [done|].
  cbn [length map concat read_records].
  assert (Hr : length (concat (map pack_f32 r)) = (4 * p)%nat)
    by (by rewrite length_pack_floats, Hlen).
  rewrite length_app, Hr.
  destruct (Nat.ltb_spec (4 * p + length (concat (map (fun r0 => concat (map pack_f32 r0)) recs))) (4 * p)) as [Hlt|_]; [lia|].
  rewrite take_app_length', drop_app_length' by done.
  by rewrite unpack_pack_floats, IH.
Qed.

(* ===================================================================== *)
(** * The header, read back *)
(* ===================================================================== *)

Lemma string_app_nil_r (s : string) : s +:+ "" = s.
Proof.
  induction s as [|c s IH]; [done|].
  change (String c s +:+ "") with (String c (s +:+ "")). by rewrite IH.
Qed.

Lemma string_app_assoc (a b c : string) : (a +:+ b) +:+ c = a +:+ (b +:+ c).
Proof.
  induction a as [|x a IH]; [done|].
  change (String x a +:+ b) with (String x (a +:+ b)).
  change (String x (a +:+ b) +:+ c) with (String x ((a +:+ b) +:+ c)).
  by rewrite IH.
Qed.

Lemma list_byte_of_string_app (a b : string) :
  list_byte_of_string (a +:+ b) = list_byte_of_string a ++ list_byte_of_string b.
Proof.
  unfold list_byte_of_string.
  induction a as [|c a IH]; [done|].
  change (String c a +:+ b) with (String c (a +:+ b)).
  change (list_ascii_of_string (String c (a +:+ b)))
    with (c :: list_ascii_of_string (a +:+ b)).
  change (list_ascii_of_string (String c a)) with (c :: list_ascii_of_string a).
  rewrite !map_cons, IH. done.
Qed.

Lemma list_byte_of_string_cons (c : ascii) (s : string) :
  list_byte_of_string (String c s) = byte_of_ascii c :: list_byte_of_string s.
Proof. done. Qed.

Lemma string_of_list_byte_snoc (bs : list byte) (s : string) :
  string_of_list_byte (bs ++ list_byte_of_string s)
  = string_of_list_byte bs +:+ s.
Proof.
  induction bs as [|b bs IH].
  - apply string_of_list_byte_of_string.
  - unfold string_of_list_byte in *. cbn. by rewrite IH.
Qed.

(** Reading one line that holds no newline. *)
Lemma split_header_line (l : string) (rest cur : list byte) (acc : list string) :
  no_newline l = true ->
  split_header (list_byte_of_string l ++ x0a :: rest) cur acc
  = (let line := string_of_list_byte (rev cur) +:+ l in
     if String.eqb line "end_header" then Some (rev acc, rest)
     else split_header rest [] (line :: acc)).
Proof.
  unfold no_newline. revert cur.
  induction l as [|c l IH]; intros cur Hl.
  - cbn [list_byte_of_string list_ascii_of_string map app split_header].
    cbn [Byte.eqb]. change (Byte.eqb x0a x0a) with true. cbv zeta.
    by rewrite string_app_nil_r.
  - rewrite list_byte_of_string_cons in Hl |- *.
    cbn [forallb] in Hl. apply andb_prop in Hl as [Hc Hl].
    cbn [app split_header]. apply negb_true_iff in Hc. rewrite Hc.
    rewrite IH by done. cbv zeta. cbn [rev].
    change [byte_of_ascii c] with (list_byte_of_string (String c "")).
    by rewrite string_of_list_byte_snoc, string_app_assoc.
Qed.

Lemma split_header_lines (lines : list string) (body : list byte)
    (acc : list string) :
  Forall (fun l => line_ok l = true) lines ->
  split_header
    (concat (map (fun l => list_byte_of_string l ++ [x0a])
                 (lines ++ ["end_header"])) ++ body) [] acc
  = Some (rev acc ++ lines, body).
Proof.
  intros Hall. revert acc.
  induction Hall as [|l lines Hl _ IH]; intros acc.
  - cbn [app map concat]. rewrite app_nil_r, <- app_assoc. cbn [app].
    rewrite split_header_line by done. cbn. by rewrite app_nil_r.
  - cbn [app map concat]. rewrite <- !app_assoc. cbn [app].
    unfold line_ok in Hl. apply andb_prop in Hl as [Hnl Hne].
    rewrite split_header_line by done. cbn [rev string_of_list_byte map
      string_of_list_ascii]. cbv zeta.
    change ("" +:+ l) with l. apply negb_true_iff in Hne. rewrite Hne.
    rewrite IH. cbn [rev]. by rewrite <- app_assoc.
Qed.

Lemma parse_nat_dec (n : nat) : parse_nat (dec n) = Some n.
Proof.
  unfold parse_nat, dec.
  pose proof (DecimalNat.Unsigned.of_to n) as Hn.
  destruct (Nat.to_uint n) as [| | | | | | | | | |] eqn:Hd;
    try (rewrite NilZero.usu by done; by rewrite Hn).
  cbn in Hn |- *. by rewrite <- Hn.
Qed.

Lemma strip_prefix_app (p s : string) : strip_prefix p (p +:+ s) = Some s.
Proof.
  induction p as [|c p IH]; [done|].
  change (String c p +:+ s) with (String c (p +:+ s)).
  cbn [strip_prefix]. by rewrite Ascii.eqb_refl.
Qed.

Lemma parse_properties_names (names : list string) :
  parse_properties (map (String.append "property float ") names) = Some names.
Proof.
  induction names as [|x names IH]; [done|].
  cbn [map parse_properties]. by rewrite strip_prefix_app, IH.
Qed.

Lemma no_newline_app (a b : string) :
  no_newline (a +:+ b) = no_newline a && no_newline b.
Proof.
  unfold no_newline. by rewrite list_byte_of_string_app, forallb_app.
Qed.

Lemma no_newline_digits (d : Decimal.uint) :
  no_newline (NilEmpty.string_of_uint d) = true.
Proof.
  unfold no_newline.
  induction d as [|d IH|d IH|d IH|d IH|d IH|d IH|d IH|d IH|d IH|d IH];
    [done|..];
    cbn [NilEmpty.string_of_uint]; rewrite list_byte_of_string_cons;
    cbn [forallb]; rewrite IH; reflexivity.
Qed.

Lemma no_newline_dec (n : nat) : no_newline (dec n) = true.
Proof.
  unfold dec. generalize (Nat.to_uint n). intros d.
  destruct d; [reflexivity | ..]; exact (no_newline_digits _).
Qed.

Lemma line_ok_property (name : string) :
  no_newline name = true ->
  line_ok ("property float " +:+ name) = true.
Proof.
  intros Hn. unfold line_ok. rewrite no_newline_app, Hn. reflexivity.
Qed.

Lemma line_ok_vertex (n : nat) : line_ok ("element vertex " +:+ dec n) = true.
Proof.
  unfold line_ok. rewrite no_newline_app, no_newline_dec. reflexivity.
Qed.

Lemma no_newline_properties (k : nat) :
  Forall (fun name => no_newline name = true) (gaussian_properties k).
Proof.
  unfold gaussian_properties. rewrite !Forall_app. repeat split.
  - repeat constructor.
  - apply Forall_forall. intros name Hname.
    apply list_elem_of_fmap in Hname as (i & -> & _).
    by rewrite no_newline_app, no_newline_dec.
  - repeat constructor.
Qed.

(** The header lines: three fixed lines, one line per property, and the
    end marker. *)
Lemma header_lines_properties (n k : nat) :
  header_lines n k
  = [ "ply"; "format binary_little_endian 1.0"; "element vertex " +:+ dec n ]
    ++ map (String.append "property float ") (gaussian_properties k)
    ++ [ "end_header" ].
Proof.
  unfold header_lines, gaussian_properties.
  rewrite !map_app, map_map, (Nat.mul_comm (k - 1) 3), <- !app_assoc.
  reflexivity.
Qed.

Lemma length_gaussian_properties (k : nat) :
  length (gaussian_properties k) = (17 + 3 * (k - 1))%nat.
Proof.
  unfold gaussian_properties.
  rewrite !length_app, length_map, length_seq. simpl. lia.
Qed.

Lemma header_bytes_lines (ls : list string) :
  ls <> [] ->
  list_byte_of_string (String.concat newline ls +:+ newline)
  = concat (map (fun l => list_byte_of_string l ++ [x0a]) ls).
Proof.
  induction ls as [|x ls IH]; [done|]. intros _.
  destruct ls as [|y ys].
  - cbn [String.concat map concat].
    by rewrite list_byte_of_string_app, app_nil_r.
  - change (String.concat newline (x :: y :: ys))
      with (x +:+ newline +:+ String.concat newline (y :: ys)).
    rewrite !string_app_assoc, !list_byte_of_string_app.
    rewrite <- list_byte_of_string_app, IH by done.
    change (map ?f (x :: y :: ys)) with (f x :: map f (y :: ys)).
    change (concat (?a :: ?l)) with (a ++ concat l).
    cbv beta. by rewrite <- app_assoc.
Qed.

(** Reading back what the encoder writes for a header and any body. *)
Lemma split_parse_header (n k : nat) (body : list byte) :
  match split_header (list_byte_of_string (ply_header n k) ++ body) [] [] with
  | Some (ls, rest) =>
      rest = body /\ parse_header ls = Some (n, gaussian_properties k)
  | None => False
  end.
Proof.
  unfold ply_header.
  rewrite header_bytes_lines by (by rewrite header_lines_properties).
  rewrite header_lines_properties.
  rewrite (app_assoc _ _ ["end_header"]).
  rewrite split_header_lines.
  - split; [done|]. cbn [rev app parse_header].
    change (String.eqb "ply" "ply" &&
            String.eqb "format binary_little_endian 1.0"
                       "format binary_little_endian 1.0") with true.
    cbv iota. by rewrite strip_prefix_app, parse_nat_dec, parse_properties_names.
  - apply Forall_app. split.
    + repeat constructor. apply line_ok_vertex.
    + apply Forall_forall. intros l Hl.
      apply list_elem_of_fmap in Hl as (name & -> & Hname).
      apply line_ok_property.
      by eapply (proj1 (Forall_forall _ _) (no_newline_properties k)).
Qed.

(* ===================================================================== *)
(** * The encoder on a canonical Gaussian set *)
(* ===================================================================== *)

Lemma row_at_replicate (n c i : nat) (v : f32) :
  (i < n)%nat -> row_at c (replicate (n * c) v) i = replicate c v.
Proof.
  intros Hi. unfold row_at. rewrite drop_replicate, take_replicate.
  f_equal. nia.
Qed.

Lemma length_concat_chunks (f : nat -> list f32) (m c : nat) :
  (forall j, (j < m)%nat -> length (f j) = c) ->
  length (concat (map f (seq 0 m))) = (m * c)%nat.
Proof.
  induction m as [|m IH]; intros Hf; [done|].
  rewrite seq_S, map_app, concat_app, length_app, IH by (intros; apply Hf; lia).
  cbn [map concat Nat.add]. rewrite app_nil_r, Hf by lia. lia.
Qed.

Lemma row_at_nested (k g i c : nat) (d : list f32) :
  (c < g)%nat ->
  row_at k (row_at (g * k) d i) c = row_at k d (i * g + c).
Proof.
  intros Hc. unfold row_at.
  rewrite (take_drop_commute _ k (c * k)), take_take.
  replace (Nat.min (c * k + k) (g * k)) with (c * k + k)%nat by nia.
  rewrite <- take_drop_commute, drop_drop. f_equal. f_equal. nia.
Qed.

Lemma concat_groups (f : nat -> list f32) (n g : nat) :
  concat (map f (seq 0 (n * g)))
  = concat (map (fun i => concat (map f (seq (i * g) g))) (seq 0 n)).
Proof.
  induction n as [|n IH]; [done|].
  replace (S n * g)%nat with (n * g + g)%nat by lia.
  rewrite seq_app, seq_S, !map_app, !concat_app, IH.
  cbn [map concat Nat.add]. by rewrite app_nil_r.
Qed.

Lemma length_concat_seq (f : nat -> list f32) (g c s : nat) :
  (forall j, (s <= j < s + g)%nat -> length (f j) = c) ->
  length (concat (map f (seq s g))) = (g * c)%nat.
Proof.
  revert s. induction g as [|g IH]; intros s Hf; [done|].
  cbn [seq map concat]. rewrite length_app, Hf by lia.
  rewrite IH by (intros; apply Hf; lia). lia.
Qed.

Lemma row_at_groups (f : nat -> list f32) (n g c i : nat) :
  (forall j, (j < n * g)%nat -> length (f j) = c) ->
  (i < n)%nat ->
  row_at (g * c) (concat (map f (seq 0 (n * g)))) i
  = concat (map f (seq (i * g) g)).
Proof.
  intros Hf Hi. rewrite concat_groups.
  apply (row_at_chunks (fun i => concat (map f (seq (i * g) g)))); [|done].
  intros j Hj.
  apply length_concat_seq. intros k Hk. apply Hf. nia.
Qed.

Lemma for_each_ok {A B : Type} (f : A -> res B) (g : A -> B) (l : list A) :
  (forall a, a ∈ l -> f a = Ok (g a)) ->
  for_each f l = Ok (map g l).
Proof.
  induction l as [|a l IH]; intros Hf; [done|].
  cbn [for_each map]. rewrite Hf by left.
  rewrite IH by (intros; apply Hf; by right). done.
Qed.

Lemma group_length_pos (w : nat) : (0 < w)%nat -> (0 < group_length w)%nat.
Proof.
  intros Hw. unfold group_length.
  destruct (Nat.eqb_spec (w mod 3) 0) as [Hmod|]; [|done].
  pose proof (Nat.div_mod_eq w 3). lia.
Qed.

Lemma sh_channels_ok (n w : nat) (sh : ndarray) :
  shape sh = [n; w] ->
  length (data sh) = (n * w)%nat ->
  (0 < n)%nat ->
  exists sh',
    sh_channels n sh = Ok (sh', group_length w)
    /\ length (data sh') = (n * (3 * group_length w))%nat
    /\ forall i, (i < n)%nat ->
         row_at (3 * group_length w) (data sh') i
         = channel_row w (row_at w (data sh) i).
Proof.
  intros Hs Hd Hn. unfold sh_channels, group_length, channel_row, ndim.
  replace (shape_at sh 1) with w by (unfold shape_at; by rewrite Hs).
  rewrite Hs. cbn [length Nat.eqb].
  destruct (Nat.eqb_spec (w mod 3) 0) as [Hmod|Hmod].
  - exists sh. split; [done|].
    assert (3 * (w / 3) = w)%nat as -> by (pose proof (Nat.div_mod_eq w 3); lia).
    done.
  - rewrite (reshape_rows_ok n w) by done. unfold mbind, res_bind.
    rewrite (tile3_eq _ n w) by done.
    unfold shape_at. cbn [shape data nth].
    replace (3 * w / 3)%nat with w
      by (by rewrite (Nat.mul_comm 3 w), Nat.div_mul).
    eexists. split; [reflexivity|]. cbn [data].
    assert (Hrow : forall j, (j < n)%nat ->
              length (row_at w (data sh) j ++ row_at w (data sh) j
                      ++ row_at w (data sh) j) = (3 * w)%nat).
    { intros j Hj. rewrite !length_app, (length_row_at n w) by done. lia. }
    split.
    + by apply length_concat_chunks.
    + intros i Hi.
      by apply (row_at_chunks
                  (fun i => row_at w (data sh) i ++ row_at w (data sh) i
                            ++ row_at w (data sh) i)).
Qed.

Lemma unpack_row_ok (a : ndarray) (n c i : nat) :
  shape a = [n; c] -> (i < n)%nat ->
  unpack_row a i = Ok (row_at c (data a) i).
Proof.
  intros Ha Hi. unfold unpack_row. rewrite Ha.
  apply Nat.ltb_lt in Hi. by rewrite Hi.
Qed.

Lemma struct_pack_ok (k : nat) (row : list f32) :
  length row = k -> struct_pack k row = Ok (concat (map pack_f32 row)).
Proof. intros H. unfold struct_pack. by rewrite H, Nat.eqb_refl. Qed.

Lemma ply_record_ok (n r i : nat)
    (means normals f_dc f_rest opacities scales quats : ndarray)
    (dc rest : list f32) :
  (i < n)%nat ->
  shape means = [n; 3%nat] -> length (data means) = (n * 3)%nat ->
  normals = zeros [n; 3%nat] ->
  shape f_dc = [n; 3%nat] -> row_at 3 (data f_dc) i = dc -> length dc = 3%nat ->
  shape f_rest = [n; r] -> row_at r (data f_rest) i = rest -> length rest = r ->
  shape opacities = [n; 1%nat] -> length (data opacities) = n ->
  shape scales = [n; 3%nat] -> length (data scales) = (n * 3)%nat ->
  shape quats = [n; 4%nat] -> length (data quats) = (n * 4)%nat ->
  ply_record means normals f_dc f_rest opacities scales quats i
  = Ok (concat (map pack_f32
          (row_at 3 (data means) i
           ++ [f32_zero; f32_zero; f32_zero]
           ++ dc ++ rest
           ++ take 1 (drop i (data opacities))
           ++ row_at 3 (data scales) i
           ++ row_at 4 (data quats) i))).
Proof.
  intros Hi Hms Hmd -> Hds Hdc Hdcl Hrs Hrest Hrl Hos Hod Hss Hsd Hqs Hqd.
  unfold ply_record.
  rewrite (unpack_row_ok means n 3), (unpack_row_ok (zeros _) n 3),
    (unpack_row_ok f_dc n 3), (unpack_row_ok scales n 3),
    (unpack_row_ok quats n 4) by done.
  unfold mbind, res_bind.
  rewrite (struct_pack_ok 3 (row_at 3 (data means) i))
    by (by apply (length_row_at n)).
  assert (row_at 3 (data (zeros [n; 3%nat])) i
          = [f32_zero; f32_zero; f32_zero]) as ->.
  { unfold zeros, full. cbn [data fold_right]. rewrite Nat.mul_1_r.
    by rewrite row_at_replicate. }
  rewrite (struct_pack_ok 3 [f32_zero; f32_zero; f32_zero]) by done.
  rewrite Hdc, (struct_pack_ok 3 dc) by done.
  rewrite (struct_pack_ok 3 (row_at 3 (data scales) i))
    by (by apply (length_row_at n)).
  rewrite (struct_pack_ok 4 (row_at 4 (data quats) i))
    by (by apply (length_row_at n)).
  assert (Hop : exists o, index2 opacities i 0 = Ok o
                          /\ take 1 (drop i (data opacities)) = [o]).
  { unfold index2. rewrite Hos. apply Nat.ltb_lt in Hi as Hi'.
    rewrite Hi'. cbn [andb Nat.ltb Nat.leb].
    replace (i * 1 + 0)%nat with i by lia.
    destruct (data opacities !! i) as [o|] eqn:Ho.
    - exists o. split; [done|]. by rewrite (drop_S _ _ _ Ho).
    - apply lookup_ge_None in Ho. lia. }
  destruct Hop as (o & -> & ->).
  assert (Hb : (if (0 <? shape_at f_rest 1)%nat
                then match unpack_row f_rest i with
                     | Ok r0 => struct_pack (shape_at f_rest 1) r0
                     | Raise e => Raise e
                     end
                else Ok []) = Ok (concat (map pack_f32 rest))).
  { replace (shape_at f_rest 1) with r by (unfold shape_at; by rewrite Hrs).
    destruct (Nat.ltb_spec 0 r) as [Hpos|Hzero].
    - rewrite (unpack_row_ok f_rest n r), Hrest by done.
      by apply struct_pack_ok.
    - destruct rest; [done | simpl in Hrl; lia]. }
  rewrite Hb. rewrite !map_app, !concat_app. cbn [map concat].
  by rewrite !app_nil_r, <- !app_assoc.
Qed.

Lemma map_seq_shift {B : Type} (f : nat -> B) (s k g : nat) :
  map f (seq (s + k) g) = map (fun c => f (s + c)%nat) (seq k g).
Proof.
  revert k. induction g as [|g IH]; intros k; [done|].
  cbn [seq map]. f_equal. rewrite <- IH. f_equal. f_equal. lia.
Qed.

(** The rows [i*g .. i*g + g - 1] of a buffer of rows of [k] elements are
    the [g] sub-rows of row [i] of the same buffer read [g * k] at a time. *)
Lemma group_rows (h : list f32 -> list f32) (k g i : nat) (d : list f32) :
  concat (map (fun j => h (row_at k d j)) (seq (i * g) g))
  = concat (map (fun c => h (row_at k (row_at (g * k) d i) c)) (seq 0 g)).
Proof.
  replace (i * g)%nat with (i * g + 0)%nat at 1 by lia.
  rewrite map_seq_shift. f_equal.
  apply map_ext_in. intros c Hc. apply in_seq in Hc.
  by rewrite row_at_nested by lia.
Qed.

(** What the encoder writes for a canonical set of [n >= 1] points with
    coefficient rows of width [w >= 1]: the header, then the packed fields
    of point 0, point 1, ... and nothing in between. *)
Lemma write_gaussian_ply_shaped (n w : nat)
    (means opacities scales quats sh : ndarray) :
  shape means = [n; 3%nat] -> length (data means) = (n * 3)%nat ->
  length (data opacities) = n ->
  shape scales = [n; 3%nat] -> length (data scales) = (n * 3)%nat ->
  shape quats = [n; 4%nat] -> length (data quats) = (n * 4)%nat ->
  shape sh = [n; w] -> length (data sh) = (n * w)%nat ->
  (0 < n)%nat -> (0 < w)%nat ->
  write_gaussian_ply means opacities scales quats sh
  = Ok (list_byte_of_string (ply_header n (group_length w))
        ++ concat (map (fun i => concat (map pack_f32
                      (record_fields means opacities scales quats sh w i)))
                   (seq 0 n))).
Proof.
  intros Hms Hmd Hod Hss Hsd Hqs Hqd Hhs Hhd Hn Hw.
  destruct (sh_channels_ok n w sh Hhs Hhd Hn) as (sh' & Esh & Hlen' & Hrows').
  pose proof (group_length_pos w Hw) as HK.
  unfold write_gaussian_ply.
  replace (shape_at means 0) with n by (unfold shape_at; by rewrite Hms).
  rewrite (reshape_rows_ok n 1 opacities) by (done || (unfold size; lia)).
  unfold mbind, res_bind. rewrite Esh.
  unfold shape_at at 1. cbn [shape nth Nat.eqb negb].
  rewrite (reshape_to_ok [n; 3%nat; group_length w] sh')
    by (unfold size; cbn [fold_right]; lia).
  unfold index_last0, slice_rest. cbn [shape data].
  destruct (Nat.eqb_spec (group_length w) 0) as [HK0|_]; [lia|].
  set (K := group_length w) in *.
  assert (HrowK : forall j, (j < n * 3)%nat ->
            length (row_at K (data sh') j) = K)
    by (intros j Hj; apply (length_row_at (n * 3)); [lia | done]).
  set (f_dc := NDArray [n; 3%nat]
                 (concat (map (fun i => take 1 (row_at K (data sh') i))
                              (seq 0 (n * 3))))).
  assert (Hrest : exists f_rest r,
            (if (1 <? K)%nat
             then reshape_rows n
                    (NDArray [n; 3%nat; (K - 1)%nat]
                       (concat (map (fun i => drop 1 (row_at K (data sh') i))
                                    (seq 0 (n * 3)))))
             else Ok (zeros [n; 0%nat])) = Ok f_rest
            /\ shape f_rest = [n; r]
            /\ forall i, (i < n)%nat ->
                 row_at r (data f_rest) i
                 = concat (map (fun c => drop 1
                              (row_at K (row_at (3 * K) (data sh') i) c))
                            (seq 0 3))
                 /\ length (row_at r (data f_rest) i) = r).
  { assert (Hdrop : forall j, (j < n * 3)%nat ->
              length (drop 1 (row_at K (data sh') j)) = (K - 1)%nat)
      by (intros j Hj; by rewrite length_drop, HrowK).
    destruct (Nat.ltb_spec 1 K) as [Hbig|Hone].
    - rewrite (reshape_rows_ok n (3 * (K - 1)));
        [| done | unfold size; cbn [data];
                  rewrite (length_concat_chunks _ (n * 3) (K - 1)) by done; lia].
      eexists _, _. split; [reflexivity|]. split; [reflexivity|].
      cbn [data]. intros i Hi.
      rewrite (row_at_groups _ n 3 (K - 1) i) by done.
      split.
      + apply (group_rows (drop 1)).
      + apply length_concat_seq. intros j Hj. apply Hdrop. lia.
    - exists (zeros [n; 0%nat]), 0%nat.
      split; [done|]. split; [done|]. intros i Hi. split; [|done].
      assert (K = 1)%nat as -> by lia.
      cbn [seq map concat]. unfold row_at at 1. rewrite take_0.
      rewrite !(drop_ge _ 1); [done | ..];
        unfold row_at; rewrite length_take; lia. }
  destruct Hrest as (f_rest & r & -> & Hrs & Hrrows).
  rewrite (for_each_ok _
    (fun i => concat (map pack_f32
       (record_fields means opacities scales quats sh w i)))); [done|].
  intros i Hi. apply elem_of_seq in Hi.
  destruct (Hrrows i) as [Hri Hrl]; [lia|].
  unfold record_fields. rewrite pack_floats_via_float.
  unfold record_values. fold K.
  rewrite <- Hrows' by lia. rewrite <- Hri.
  apply (ply_record_ok n r i means _ f_dc f_rest
           (NDArray [n; 1%nat] (data opacities)) scales quats);
    try done; try lia.
  - unfold f_dc. cbn [data].
    rewrite (row_at_groups _ n 3 1 i);
      [| intros j Hj; rewrite length_take, HrowK by done; lia | lia].
    apply (group_rows (take 1)).
  - apply (length_concat_seq _ 3 1 0). intros c Hc.
    rewrite length_take.
    rewrite (length_row_at 3 K c); [lia | | lia].
    rewrite (length_row_at n (3 * K) i); [lia | lia | lia].
Qed.

Lemma write_gaussian_ply_canonical (n w : nat)
    (means opacities scales quats sh : ndarray) :
  canonical n w means opacities scales quats sh ->
  (0 < n)%nat -> (0 < w)%nat ->
  write_gaussian_ply means opacities scales quats sh
  = Ok (list_byte_of_string (ply_header n (group_length w))
        ++ concat (map (fun i => concat (map pack_f32
                      (record_fields means opacities scales quats sh w i)))
                   (seq 0 n))).
Proof.
  intros [[Hms Hmd] Hod [Hss Hsd] [Hqs Hqd] [Hhs Hhd] _].
  by apply write_gaussian_ply_shaped.
Qed.

Lemma Forall_row_at (P : f32 -> Prop) (c i : nat) (d : list f32) :
  Forall P d -> Forall P (row_at c d i).
Proof. intros H. unfold row_at. by apply Forall_take, Forall_drop. Qed.

Lemma Forall_concat_map {A : Type} (P : f32 -> Prop) (f : A -> list f32)
    (l : list A) :
  (forall a, Forall P (f a)) -> Forall P (concat (map f l)).
Proof.
  intros Hf. induction l as [|a l IH]; [done|].
  cbn [map concat]. apply Forall_app. split; [apply Hf | done].
Qed.

Lemma length_channel_row (n w i : nat) (sh : ndarray) :
  length (data sh) = (n * w)%nat -> (i < n)%nat ->
  length (channel_row w (row_at w (data sh) i)) = (3 * group_length w)%nat.
Proof.
  intros Hd Hi. unfold channel_row, group_length.
  destruct (Nat.eqb_spec (w mod 3) 0) as [Hmod|Hmod].
  - rewrite (length_row_at n) by done.
    pose proof (Nat.div_mod_eq w 3). lia.
  - rewrite !length_app, (length_row_at n) by done. lia.
Qed.

Lemma record_fields_ok (n w i : nat)
    (means opacities scales quats sh : ndarray) :
  canonical n w means opacities scales quats sh ->
  (0 < w)%nat -> (i < n)%nat ->
  length (record_fields means opacities scales quats sh w i)
  = (17 + 3 * (group_length w - 1))%nat
  /\ Forall f32_wf (record_fields means opacities scales quats sh w i).
Proof.
  intros [[Hms Hmd] Hod [Hss Hsd] [Hqs Hqd] [Hhs Hhd] Hbits] Hw Hi.
  pose proof (group_length_pos w Hw) as HK.
  pose proof (length_channel_row n w i sh Hhd Hi) as Hch.
  rewrite !Forall_app in Hbits.
  destruct Hbits as (Bm & Bo & Bs & Bq & Bh).
  unfold record_fields. rewrite length_map.
  enough (Hraw :
    length (record_values means opacities scales quats sh w i)
    = (17 + 3 * (group_length w - 1))%nat
    /\ Forall f32_wf (record_values means opacities scales quats sh w i)).
  { destruct Hraw as [Hl Hb]. split; [done|].
    apply Forall_fmap. eapply Forall_impl; [exact Hb|].
    intros x Hx. by apply f32_via_float_wf. }
  unfold record_values.
  set (K := group_length w) in *.
  set (ch := channel_row w (row_at w (data sh) i)) in *.
  assert (Bch : Forall f32_wf ch).
  { unfold ch, channel_row. destruct (w mod 3 =? 0)%nat;
      rewrite ?Forall_app; repeat split; by apply Forall_row_at. }
  assert (HchK : forall c, (0 <= c < 0 + 3)%nat -> length (row_at K ch c) = K)
    by (intros c Hc; apply (length_row_at 3); lia).
  split.
  - rewrite !length_app.
    rewrite (length_row_at n 3 i (data means)) by done.
    rewrite (length_row_at n 3 i (data scales)) by done.
    rewrite (length_row_at n 4 i (data quats)) by done.
    rewrite (length_concat_seq _ 3 1 0)
      by (intros c Hc; rewrite length_take, HchK by done; lia).
    rewrite (length_concat_seq _ 3 (K - 1) 0)
      by (intros c Hc; rewrite length_drop, HchK by done; lia).
    rewrite length_take, length_drop. simpl length. lia.
  - rewrite !Forall_app. repeat split.
    + by apply Forall_row_at.
    + repeat constructor; unfold f32_wf, f32_zero; lia.
    + apply Forall_concat_map. intros c. by apply Forall_take, Forall_row_at.
    + apply Forall_concat_map. intros c. by apply Forall_drop, Forall_row_at.
    + by apply Forall_take, Forall_drop.
    + by apply Forall_row_at.
    + by apply Forall_row_at.
Qed.

(** Encoding a canonical set and reading the file back. *)
Lemma write_then_parse (n w : nat) (means opacities scales quats sh : ndarray) :
  canonical n w means opacities scales quats sh ->
  (0 < n)%nat -> (0 < w)%nat ->
  exists bytes,
    write_gaussian_ply means opacities scales quats sh = Ok bytes
    /\ bytes
       = list_byte_of_string (ply_header n (group_length w))
         ++ concat (map (fun i => concat (map pack_f32
                       (record_fields means opacities scales quats sh w i)))
                    (seq 0 n))
    /\ parse_ply bytes
       = Some (PlyFile n (gaussian_properties (group_length w))
                 (map (record_fields means opacities scales quats sh w)
                      (seq 0 n))).
Proof.
  intros Hcan Hn Hw.
  eexists. split; [by apply (write_gaussian_ply_canonical n w)|].
  split; [reflexivity|].
  unfold parse_ply.
  pose proof (split_parse_header n (group_length w)
    (concat (map (fun i => concat (map pack_f32
                (record_fields means opacities scales quats sh w i)))
             (seq 0 n)))) as Hhead.
  destruct (split_header _ [] []) as [[ls rest]|]; [|done].
  destruct Hhead as [-> ->].
  rewrite length_gaussian_properties.
  pose proof (read_records_packed (17 + 3 * (group_length w - 1))
    (map (record_fields means opacities scales quats sh w) (seq 0 n))) as Hrec.
  rewrite length_map, length_seq, map_map in Hrec.
  rewrite Hrec.
  - do 2 f_equal. rewrite map_map. apply map_ext. intros i.
    unfold record_fields. rewrite map_map. apply map_ext. intros x.
    apply f32_via_float_idem.
  - apply Forall_forall. intros r Hr.
    apply list_elem_of_fmap in Hr as (i & -> & Hi). apply elem_of_seq in Hi.
    apply (record_fields_ok n w i); [done | done | lia].
Qed.

(** C1, for at least one point.  The file written for a canonical set of
    [n >= 1] points whose coefficient rows have width [w >= 1] is the
    declared ASCII header followed by [n] records of [17 + 3 * (K - 1)]
    little-endian [float32] each and nothing else, [K] being the group
    length; read back, it yields the [n] records, each with as many fields
    as the header declares properties, the fields being those of the
    points in header order, as [struct.pack] stores them. *)
Theorem write_gaussian_ply_roundtrip (n w : nat)
    (means opacities scales quats sh : ndarray) :
  canonical n w means opacities scales quats sh ->
  (0 < n)%nat -> (0 < w)%nat ->
  let K := group_length w in
  let records :=
    map (record_fields means opacities scales quats sh w) (seq 0 n) in
  exists bytes,
    write_gaussian_ply means opacities scales quats sh = Ok bytes
    /\ bytes = list_byte_of_string (ply_header n K)
               ++ concat (map (fun r => concat (map pack_f32 r)) records)
    /\ length records = n
    /\ Forall (fun r => length (concat (map pack_f32 r))
                        = (4 * (17 + 3 * (K - 1)))%nat) records
    /\ parse_ply bytes = Some (PlyFile n (gaussian_properties K) records)
    /\ length (gaussian_properties K) = (17 + 3 * (K - 1))%nat
    /\ Forall (fun r => length r = length (gaussian_properties K)) records.
Proof.
  intros Hcan Hn Hw K records.
  destruct (write_then_parse n w _ _ _ _ _ Hcan Hn Hw)
    as (bytes & Hwrite & Hbytes & Hparse).
  assert (Hlen : Forall (fun r => length r = (17 + 3 * (K - 1))%nat) records).
  { apply Forall_forall. intros r Hr.
    apply list_elem_of_fmap in Hr as (i & -> & Hi). apply elem_of_seq in Hi.
    apply (record_fields_ok n w i); [done | done | lia]. }
  exists bytes. split; [done|]. split.
  { rewrite Hbytes. unfold records. by rewrite map_map. }
  split; [unfold records; by rewrite length_map, length_seq|].
  split.
  { eapply Forall_impl; [exact Hlen|]. intros r Hr. cbv beta.
    by rewrite length_pack_floats, Hr. }
  split; [done|]. split; [apply length_gaussian_properties|].
  by rewrite length_gaussian_properties.
Qed.

(** C1 as stated, for every [n], fails at [n = 0]: the set without points
    is canonical, and [opacities.reshape(0, -1)] raises before any byte is
    written. *)
Lemma write_gaussian_ply_empty_set :
  canonical 0 3 no_means no_opacities no_scales no_quats no_sh
  /\ write_gaussian_ply no_means no_opacities no_scales no_quats no_sh
     = Raise ValueError.
Proof. split; [by repeat constructor | reflexivity]. Qed.

Lemma two_points_canonical :
  canonical 2 2 two_points two_opacities two_scales two_quats two_sh_pairs.
Proof.
  split; try done. simpl.
  repeat (apply List.Forall_cons;
          [unfold f32_wf, f32_0_8, f32_half; lia|]).
  apply List.Forall_nil.
Qed.

Lemma write_gaussian_ply_roundtrip_witness :
  let records :=
    map (record_fields two_points two_opacities two_scales two_quats
           two_sh_pairs 2) (seq 0 2) in
  exists bytes,
    write_gaussian_ply two_points two_opacities two_scales two_quats
      two_sh_pairs = Ok bytes
    /\ bytes = list_byte_of_string (ply_header 2 2)
               ++ concat (map (fun r => concat (map pack_f32 r)) records)
    /\ length records = 2%nat
    /\ Forall (fun r => length (concat (map pack_f32 r)) = 80%nat) records
    /\ parse_ply bytes = Some (PlyFile 2 (gaussian_properties 2) records)
    /\ length (gaussian_properties 2) = 20%nat
    /\ Forall (fun r => length r = length (gaussian_properties 2)) records.
Proof.
  apply (write_gaussian_ply_roundtrip 2 2 two_points two_opacities
           two_scales two_quats two_sh_pairs).
  - exact two_points_canonical.
  - lia.
  - lia.
Defined.

Lemma row_at_triple (row : list f32) (w c : nat) :
  length row = w -> (c < 3)%nat -> row_at w (row ++ row ++ row) c = row.
Proof.
  intros Hw Hc.
  replace (row ++ row ++ row) with (concat [row; row; row])
    by (cbn [concat]; by rewrite app_nil_r).
  apply row_at_concat; [by repeat constructor|].
  destruct c as [|[|[|c]]]; [done | done | done | lia].
Qed.

(** C3. When 3 does not divide the width of the coefficient rows, the
    encoder gives each of the three channels the whole row of the point:
    in the file the three [f_dc] values of a point are all the first
    coefficient [s] of its row, and the [f_rest] values are the remaining
    coefficients, once per channel (every value as [struct.pack] stores
    it). *)
Theorem write_gaussian_ply_shared_value (n w : nat)
    (means opacities scales quats sh : ndarray) :
  canonical n w means opacities scales quats sh ->
  (0 < n)%nat ->
  (w mod 3 <> 0)%nat ->
  exists bytes file,
    write_gaussian_ply means opacities scales quats sh = Ok bytes
    /\ parse_ply bytes = Some file
    /\ forall i, (i < n)%nat ->
         exists s tl,
           row_at w (data sh) i = s :: tl
           /\ ply_records file !! i
              = Some (map f32_via_float
                        (row_at 3 (data means) i
                         ++ [f32_zero; f32_zero; f32_zero]
                         ++ [s; s; s]
                         ++ (tl ++ tl ++ tl)
                         ++ take 1 (drop i (data opacities))
                         ++ row_at 3 (data scales) i
                         ++ row_at 4 (data quats) i)).
Proof.
  intros Hcan Hn Hmod.
  assert (Hw : (0 < w)%nat) by (destruct w; [done | lia]).
  destruct (write_then_parse n w _ _ _ _ _ Hcan Hn Hw)
    as (bytes & Hwrite & _ & Hparse).
  exists bytes. eexists. split; [done|]. split; [exact Hparse|].
  intros i Hi. cbn [ply_records].
  destruct Hcan as [_ _ _ _ [_ Hhd] _].
  pose proof (length_row_at n w i (data sh) Hhd Hi) as Hrow.
  destruct (row_at w (data sh) i) as [|s tl] eqn:Erow;
    [simpl in Hrow; lia|].
  exists s, tl. split; [done|].
  rewrite list_lookup_fmap, lookup_seq_lt by done. cbn [fmap option_fmap option_map Nat.add].
  f_equal. unfold record_fields. f_equal.
  unfold record_values, group_length, channel_row.
  apply Nat.eqb_neq in Hmod. rewrite Hmod, Erow.
  cbn [seq map concat].
  rewrite !(row_at_triple (s :: tl) w) by (done || lia).
  cbn [take drop app]. by rewrite !app_nil_r.
Qed.

Lemma write_gaussian_ply_shared_value_witness :
  exists bytes file,
    write_gaussian_ply two_points two_opacities two_scales two_quats
      two_sh_pairs = Ok bytes
    /\ parse_ply bytes = Some file
    /\ forall i, (i < 2)%nat ->
         exists s tl,
           row_at 2 (data two_sh_pairs) i = s :: tl
           /\ ply_records file !! i
              = Some (map f32_via_float
                        (row_at 3 (data two_points) i
                         ++ [f32_zero; f32_zero; f32_zero]
                         ++ [s; s; s]
                         ++ (tl ++ tl ++ tl)
                         ++ take 1 (drop i (data two_opacities))
                         ++ row_at 3 (data two_scales) i
                         ++ row_at 4 (data two_quats) i)).
Proof.
  apply (write_gaussian_ply_shared_value 2 2 two_points two_opacities
           two_scales two_quats two_sh_pairs).
  - exact two_points_canonical.
  - lia.
  - vm_compute. congruence.
Defined.

(** The same file, evaluated: [f_dc] is 31, 31, 31 and 41, 41, 41. *)
Lemma shared_value_example :
  (ply_records <$>
     (match write_gaussian_ply two_points two_opacities two_scales two_quats
              two_sh_pairs with
      | Ok bytes => parse_ply bytes
      | Raise _ => None
      end))
  = Some [[1; 2; 3; 0; 0; 0; 31; 31; 31; 32; 32; 32; f32_0_8;
           11; 12; 13; 21; 22; 23; 24];
          [4; 5; 6; 0; 0; 0; 41; 41; 41; 42; 42; 42; f32_half;
           14; 15; 16; 25; 26; 27; 28]].
Proof. vm_compute. reflexivity. Qed.

(** Scenario 3: ten points and no optional field give a file of ten
    records of 17 fields whose opacity is 0.8 throughout. *)
Lemma ten_positions_encoded :
  exists g,
    extract_gaussians ten_positions = Ok g
    /\ n_points g = 10%nat
    /\ encoded_opacities g = Some (replicate 10 (Some f32_0_8)).
Proof. eexists. split; [vm_compute; reflexivity|]. split; vm_compute; reflexivity. Qed.

(* ===================================================================== *)
(** * Colours stay in range *)
(* ===================================================================== *)

Lemma shade_unit_or_nan (x : f32) : unit_or_nan (shade x).
Proof.
  unfold unit_or_nan, shade.
  destruct (f32_is_nan x) eqn:Hx; [left; by apply f32_quiet_nan|].
  unfold f32_clip, f32_min, f32_max.
  set (y := f32_add (f32_mul x SH_C0) f32_half).
  destruct (f32_is_nan y) eqn:Hnan.
  - rewrite Hnan. by left.
  - destruct (f32_ltb f32_zero y) eqn:Hlo.
    + rewrite Hnan. destruct (f32_ltb y f32_one) eqn:Hhi.
      * right. right. right. done.
      * right. right. left. done.
    + right. left. reflexivity.
Qed.

(** X1. Whatever the coefficients, every component [sh_dc_to_rgb] returns
    is [nan] or lies in [[0, 1]], and the array keeps its shape and its
    number of elements. *)
Theorem sh_dc_to_rgb_in_range (sh_dc : ndarray) :
  Forall unit_or_nan (data (sh_dc_to_rgb sh_dc))
  /\ shape (sh_dc_to_rgb sh_dc) = shape sh_dc
  /\ length (data (sh_dc_to_rgb sh_dc)) = length (data sh_dc).
Proof.
  unfold sh_dc_to_rgb. cbn [data shape]. split; [|by rewrite length_map].
  apply Forall_forall. intros r Hr.
  apply list_elem_of_fmap in Hr as (x & -> & _). apply shade_unit_or_nan.
Qed.

(* ===================================================================== *)
(** * What a successful extraction looks like *)
(* ===================================================================== *)

Lemma extract_gaussians_inv (preds : predictions) (g : gaussians) :
  extract_gaussians preds = Ok g ->
  exists pts,
    _extract_tensor preds position_aliases = PyTensor pts
    /\ reshape_cols 3 pts = Ok (pts3d_np g)
    /\ n_points g = shape_at (pts3d_np g) 0
    /\ opacity_array (n_points g) (_extract_tensor preds opacity_aliases)
       = Ok (opacity_np g)
    /\ scales_array (n_points g) (_extract_tensor preds scale_aliases)
       = Ok (scales_np g)
    /\ quats_array (n_points g) (_extract_tensor preds rotation_aliases)
       = Ok (quats_np g)
    /\ sh_array (n_points g) (_extract_tensor preds sh_aliases) = Ok (sh_np g)
    /\ colors_rgb g = response_colors (sh_np g).
Proof.
  unfold extract_gaussians.
  destruct (extract_gaussians_body preds) as [g'|] eqn:Hbody; [|done].
  intros [= ->]. unfold extract_gaussians_body in Hbody.
  destruct (_extract_tensor preds position_aliases) as [|pts|] eqn:Hpts;
    [done | | done].
  exists pts. split; [done|].
  cbn [to_numpy] in Hbody. unfold mbind, res_bind in Hbody.
  destruct (reshape_cols 3 pts) as [p|]; [|done].
  destruct (opacity_array _ _) as [o|] eqn:Ho; [|done].
  destruct (scales_array _ _) as [s|] eqn:Hs; [|done].
  destruct (quats_array _ _) as [q|] eqn:Hq; [|done].
  destruct (sh_array _ _) as [h|] eqn:Hh; [|done].
  injection Hbody as <-. cbn. done.
Qed.

Lemma reshape_cols_inv (c : nat) (t a : ndarray) :
  reshape_cols c t = Ok a ->
  exists n, a = NDArray [n; c] (data t) /\ size t = (n * c)%nat /\ (0 < c)%nat.
Proof.
  unfold reshape_cols.
  destruct (Nat.eqb_spec c 0) as [|Hc]; [done|].
  destruct (Nat.eqb_spec (size t mod c) 0) as [Hmod|]; [|done].
  cbn. intros [= <-]. exists (size t / c)%nat. split; [done|].
  pose proof (Nat.div_mod_eq (size t) c). split; lia.
Qed.

Lemma reshape_rows_inv (n : nat) (t a : ndarray) :
  reshape_rows n t = Ok a ->
  exists m, a = NDArray [n; m] (data t) /\ size t = (n * m)%nat /\ (0 < n)%nat.
Proof.
  unfold reshape_rows.
  destruct (Nat.eqb_spec n 0) as [|Hn]; [done|].
  destruct (Nat.eqb_spec (size t mod n) 0) as [Hmod|]; [|done].
  cbn. intros [= <-]. exists (size t / n)%nat. split; [done|].
  pose proof (Nat.div_mod_eq (size t) n). split; lia.
Qed.

Lemma reshape_to_inv (shp : list nat) (t a : ndarray) :
  reshape_to shp t = Ok a ->
  a = NDArray shp (data t) /\ size t = fold_right Nat.mul 1%nat shp.
Proof.
  unfold reshape_to.
  destruct (Nat.eqb_spec (size t) (fold_right Nat.mul 1%nat shp)); [|done].
  by intros [= <-].
Qed.

Lemma map_seq_const {A : Type} (f : nat -> A) (x : A) (s n : nat) :
  (forall i, (s <= i < s + n)%nat -> f i = x) ->
  map f (seq s n) = replicate n x.
Proof.
  revert s. induction n as [|n IH]; intros s Hf; [done|].
  cbn [seq map replicate]. rewrite Hf by lia. f_equal.
  apply IH. intros i Hi. apply Hf. lia.
Qed.

Lemma shade_zero : shade f32_zero = f32_half.
Proof. vm_compute. reflexivity. Qed.

(** X2. A result without coefficients under any alias gets the neutral
    grey (0.5, 0.5, 0.5) as the colour of every point. *)
Theorem missing_sh_gives_neutral_grey (preds : predictions) (g : gaussians) :
  extract_gaussians preds = Ok g ->
  _extract_tensor preds sh_aliases = PyNone ->
  tolist (colors_rgb g)
  = replicate (n_points g) [f32_half; f32_half; f32_half].
Proof.
  intros Hg Hsh.
  destruct (extract_gaussians_inv preds g Hg)
    as (pts & _ & _ & _ & _ & _ & _ & Hh & ->).
  rewrite Hsh in Hh. cbn [sh_array] in Hh. injection Hh as <-.
  set (n := n_points g).
  unfold tolist. rewrite response_colors_rows.
  change (shape_at (zeros [n; 3%nat]) 0) with n.
  apply map_seq_const. intros i Hi.
  rewrite (response_colors_row (zeros [n; 3%nat]) n 3 i);
    [| done | unfold zeros, full; cbn [data fold_right];
              rewrite length_replicate; lia | lia].
  unfold zeros, full. cbn [data fold_right]. rewrite Nat.mul_1_r.
  rewrite row_at_replicate by lia.
  cbn. by rewrite shade_zero.
Qed.

Lemma missing_sh_gives_neutral_grey_witness :
  exists g,
    extract_gaussians only_positions = Ok g
    /\ tolist (colors_rgb g)
       = replicate (n_points g) [f32_half; f32_half; f32_half].
Proof.
  eexists. split; [vm_compute; reflexivity|].
  apply (missing_sh_gives_neutral_grey only_positions).
  - vm_compute. reflexivity.
  - vm_compute. reflexivity.
Defined.

(** X3. Positions are mandatory and come in triples: when no position
    alias holds a tensor, or the tensor's size is not a multiple of 3,
    step 4 ends in the 500 response, whatever else the result holds.  The
    response names the exception caught; for a result without positions
    that is the 500 response raised inside the [try], wrapped once more. *)
Theorem extract_gaussians_needs_positions (preds : predictions) :
  (forall t, _extract_tensor preds position_aliases = PyTensor t ->
             (size t mod 3 <> 0)%nat) ->
  exists cause,
    extract_gaussians preds
    = Raise (HTTPException 500
               (Fmt "Failed to extract Gaussian parameters: " cause))
    /\ (_extract_tensor preds position_aliases = PyNone ->
        cause = HTTPException 500
                  (Text "Model did not produce point positions (pts3d)"))
    /\ (forall t, _extract_tensor preds position_aliases = PyTensor t ->
        cause = ValueError).
Proof.
  intros Hpos. unfold extract_gaussians, extract_gaussians_body.
  destruct (_extract_tensor preds position_aliases) as [|t|].
  - eexists. split; [reflexivity|]. split; [done|]. intros t [=].
  - cbn [to_numpy]. unfold mbind, res_bind, reshape_cols.
    specialize (Hpos t eq_refl). apply Nat.eqb_neq in Hpos. rewrite Hpos.
    eexists. split; [reflexivity|]. split; [intros [=] | done].
  - eexists. split; [reflexivity|]. split; [intros [=] | intros t [=]].
Qed.

Lemma extract_gaussians_needs_positions_witness :
  exists cause,
    extract_gaussians
      (PredDict (<["conf" := PyTensor (NDArray [2%nat] [1; 2])]> ∅))
    = Raise (HTTPException 500
               (Fmt "Failed to extract Gaussian parameters: " cause))
    /\ cause = HTTPException 500
                 (Text "Model did not produce point positions (pts3d)").
Proof.
  destruct (extract_gaussians_needs_positions
              (PredDict (<["conf" := PyTensor (NDArray [2%nat] [1; 2])]> ∅)))
    as (cause & Hr & Hnone & _).
  - intros t Ht. vm_compute in Ht. discriminate Ht.
  - exists cause. split; [exact Hr|]. apply Hnone. vm_compute. reflexivity.
Defined.

(* ===================================================================== *)
(** * The frame sampler: first frame and frame count *)
(* ===================================================================== *)

Lemma sample_frames_inv {frame image : Type} (to_pil : frame -> image)
    (cap : capture frame) (imgs : list image) :
  sample_frames to_pil cap = Ok imgs ->
  exists k, frame_interval (source_fps (cap_fps cap)) = Ok k
    /\ 1 <= k
    /\ imgs = take 100 (map to_pil (strided k 0 (cap_frames cap))).
Proof.
  unfold sample_frames, mbind, res_bind.
  destruct (int_of_float (cap_frame_count cap)); [|done].
  destruct (frame_interval _) as [k|] eqn:Hk; [|done].
  intros [= <-]. exists k. split; [done|]. split.
  - unfold frame_interval, mbind, res_bind in Hk.
    destruct (int_of_float _); [|done]. injection Hk as <-. lia.
  - apply (read_loop_strided to_pil k (cap_frames cap) 0 []).
Qed.

Lemma length_strided {A : Type} (k s : Z) (l : list A) :
  1 <= k -> 0 <= s ->
  Z.of_nat (length (strided k s l))
  = (s + Z.of_nat (length l) + k - 1) / k - (s + k - 1) / k.
Proof.
  intros Hk. revert s. induction l as [|x l IH]; intros s Hs.
  - change (strided k s []) with (@nil A). cbn [length].
    replace (s + Z.of_nat 0 + k - 1) with (s + k - 1) by lia. lia.
  - rewrite strided_cons, length_app, Nat2Z.inj_add, IH by lia.
    cbn [length]. rewrite Nat2Z.inj_succ.
    replace (s + 1 + Z.of_nat (length l) + k - 1)
      with (s + Z.succ (Z.of_nat (length l)) + k - 1) by lia.
    assert (Z.of_nat (length (if s mod k =? 0 then [x] else []))
            = (s + 1 + k - 1) / k - (s + k - 1) / k) as ->; [|lia].
    replace (s + 1 + k - 1) with (s + k) by lia.
    pose proof (Z.div_mod s k ltac:(lia)) as Hdm.
    pose proof (Z.mod_pos_bound s k ltac:(lia)) as Hr.
    set (q := s / k) in *. set (r := s mod k) in *.
    assert ((s + k) / k = q + 1) as ->
      by (symmetry; apply (Z.div_unique_pos _ _ _ r); lia).
    destruct (Z.eqb_spec r 0) as [Hmod|Hmod]; cbn [length].
    + assert ((s + k - 1) / k = q) as ->
        by (symmetry; apply (Z.div_unique_pos _ _ _ (k - 1)); lia).
      lia.
    + assert ((s + k - 1) / k = q + 1) as ->
        by (symmetry; apply (Z.div_unique_pos _ _ _ (r - 1)); lia).
      lia.
Qed.

(** X4. A video that opens with at least one frame always yields its first
    frame first, so the "no frames" failure is met exactly by a capture
    without frames; and a clip of [len] frames yields one frame per started
    group of [stride] frames, 100 at most. *)
Theorem sample_frames_first_and_count {frame image : Type}
    (to_pil : frame -> image) (cap : capture frame) (imgs : list image) :
  sample_frames to_pil cap = Ok imgs ->
  (imgs = [] <-> cap_frames cap = [])
  /\ (forall fr rest, cap_frames cap = fr :: rest ->
        exists tl, imgs = to_pil fr :: tl)
  /\ exists k, frame_interval (source_fps (cap_fps cap)) = Ok k
       /\ length imgs = frames_kept k (length (cap_frames cap)).
Proof.
  intros Himgs.
  destruct (sample_frames_inv to_pil cap imgs Himgs) as (k & Hk & Hk1 & ->).
  assert (Hfirst : forall fr rest, cap_frames cap = fr :: rest ->
            exists tl, take 100 (map to_pil (strided k 0 (cap_frames cap)))
                       = to_pil fr :: tl).
  { intros fr rest ->. rewrite strided_cons.
    rewrite Z.mod_0_l by lia. cbn. by eexists. }
  split; [|split; [done|]].
  - split.
    + intros Hnil. destruct (cap_frames cap) as [|fr rest] eqn:Hf; [done|].
      destruct (Hfirst fr rest eq_refl) as [tl Htl]. congruence.
    + intros ->. reflexivity.
  - exists k. split; [done|].
    rewrite length_take, length_map. unfold frames_kept.
    pose proof (length_strided k 0 (cap_frames cap) Hk1 (Z.le_refl 0)) as Hlen.
    replace ((0 + k - 1) / k) with 0 in Hlen
      by (symmetry; apply Z.div_small; lia).
    rewrite Z.add_0_l, Z.sub_0_r in Hlen. rewrite <- Hlen, Nat2Z.id. done.
Qed.

Lemma sample_frames_first_and_count_witness :
  ([0; 29; 58]%nat = [] <-> cap_frames ntsc_clip = [])
  /\ (forall fr rest, cap_frames ntsc_clip = fr :: rest ->
        exists tl, [0; 29; 58]%nat = (fun i : nat => i) fr :: tl)
  /\ exists k, frame_interval (source_fps (cap_fps ntsc_clip)) = Ok k
       /\ length [0; 29; 58]%nat = frames_kept k (length (cap_frames ntsc_clip)).
Proof.
  apply (sample_frames_first_and_count (fun i : nat => i) ntsc_clip).
  vm_compute. reflexivity.
Defined.

(* ===================================================================== *)
(** * The video path: outcome and footprint *)
(* ===================================================================== *)

Section VideoOutcome.
Context {frame image : Type}.
Variable b64decode : string -> res (list byte).
Variable writable : string -> bool.
Variable decode_video : list byte -> option (capture frame).
Variable to_pil : frame -> image.

(** X5. The video path writes and removes its own temporary file only:
    every other path holds afterwards what it held before, on success and
    on failure; and when the base64 text does not decode, or the file
    cannot be opened for writing, no file is touched at all. *)
Theorem video_frames_footprint (case_id video_b64 : string) (fs : filesystem)
    (p : string) :
  p <> video_path case_id ->
  fst (video_frames b64decode writable decode_video to_pil
         case_id video_b64 fs) !! p
  = fs !! p
  /\ (forall e, b64decode video_b64 = Raise e ->
        fst (video_frames b64decode writable decode_video to_pil
               case_id video_b64 fs)
        = fs)
  /\ (writable (video_path case_id) = false ->
        fst (video_frames b64decode writable decode_video to_pil
               case_id video_b64 fs)
        = fs).
Proof.
  intros Hp.
  unfold video_frames, or_error_response, video_frames_body.
  unfold mbind, io_bind, io_lift, write_file, open_capture, remove_quietly,
    io_raise, mret, io_ret.
  destruct (b64decode video_b64) as [bytes|]; [|done].
  destruct (writable (video_path case_id)); [|done].
  split; [|done].
  rewrite lookup_insert_eq.
  destruct (decode_video bytes) as [cap|];
    [|cbn; by rewrite lookup_insert_ne].
  destruct (sample_frames to_pil cap) as [imgs|];
    [|cbn; by rewrite lookup_insert_ne].
  destruct (length imgs =? 0)%nat; cbn.
  - by rewrite lookup_insert_ne.
  - by rewrite lookup_delete_ne, lookup_insert_ne.
Qed.
End VideoOutcome.

Lemma video_frames_footprint_witness :
  fst (video_frames b64_any tmp_writable opens_clip (fun i : nat => i)
         "case-1" "AAE=" some_files) !! "/tmp/other.bin"
  = some_files !! "/tmp/other.bin"
  /\ (forall e, b64_any "AAE=" = Raise e ->
        fst (video_frames b64_any tmp_writable opens_clip (fun i : nat => i)
               "case-1" "AAE=" some_files)
        = some_files)
  /\ (tmp_writable (video_path "case-1") = false ->
        fst (video_frames b64_any tmp_writable opens_clip (fun i : nat => i)
               "case-1" "AAE=" some_files)
        = some_files).
Proof.
  apply (video_frames_footprint b64_any tmp_writable opens_clip
           (fun i : nat => i) "case-1" "AAE=" some_files "/tmp/other.bin").
  vm_compute. congruence.
Defined.

(* ===================================================================== *)
(** * The encoder: what it reads of its arguments, and when it raises *)
(* ===================================================================== *)

Lemma write_gaussian_ply_prepare (means opacities scales quats sh : ndarray) :
  write_gaussian_ply means opacities scales quats sh
  = (p ← ply_prepare means opacities sh;
     body ← for_each
              (ply_record means (pp_normals p) (pp_f_dc p) (pp_f_rest p)
                 (pp_opacities p) scales quats)
              (seq 0 (pp_n p));
     Ok (list_byte_of_string (pp_header p) ++ concat body)).
Proof.
  unfold write_gaussian_ply, ply_prepare, mbind, res_bind.
  destruct (reshape_rows _ opacities) as [o|]; [|done].
  destruct (sh_channels _ sh) as [[sh' k]|]; [|done].
  destruct (reshape_to _ sh') as [flat|]; [|done].
  destruct (index_last0 flat) as [dc|]; [|done].
  destruct (if (1 <? k)%nat then slice_rest flat else Ok (zeros _))
    as [rest|]; done.
Qed.

Lemma ply_prepare_n (means opacities sh : ndarray) (p : ply_prepared) :
  ply_prepare means opacities sh = Ok p -> pp_n p = shape_at means 0.
Proof.
  unfold ply_prepare, mbind, res_bind.
  destruct (reshape_rows _ opacities) as [o|]; [|done].
  destruct (sh_channels _ sh) as [[sh' k]|]; [|done].
  destruct (reshape_to _ sh') as [flat|]; [|done].
  destruct (index_last0 flat) as [dc|]; [|done].
  destruct (if (1 <? k)%nat then slice_rest flat else Ok (zeros _))
    as [rest|]; [|done].
  by intros [= <-].
Qed.

Lemma for_each_ext {A B : Type} (f g : A -> res B) (l : list A) :
  (forall a, a ∈ l -> f a = g a) -> for_each f l = for_each g l.
Proof.
  induction l as [|a l IH]; intros Hfg; [done|].
  cbn [for_each]. rewrite Hfg by left.
  rewrite IH by (intros; apply Hfg; by right). done.
Qed.

Lemma for_each_inv {A B : Type} (f : A -> res B) (l : list A) (bs : list B) :
  for_each f l = Ok bs -> forall a, a ∈ l -> exists b, f a = Ok b.
Proof.
  revert bs. induction l as [|x l IH]; intros bs H a Ha.
  - by apply elem_of_nil in Ha.
  - cbn [for_each] in H. destruct (f x) as [b|] eqn:Hx; [|done].
    destruct (for_each f l) as [bs'|] eqn:Hl; [|done].
    apply elem_of_cons in Ha as [->|Ha]; [by eexists|].
    by apply (IH bs').
Qed.

Lemma for_each_first_raise {A B : Type} (f : A -> res B)
    (before after : list A) (a : A) (e : exn) :
  (forall x, x ∈ before -> exists b, f x = Ok b) ->
  f a = Raise e ->
  for_each f (before ++ a :: after) = Raise e.
Proof.
  intros Hok Ha. induction before as [|x before IH].
  - cbn. by rewrite Ha.
  - cbn [app for_each].
    destruct (Hok x) as [b ->]; [left|].
    rewrite IH by (intros; apply Hok; by right). done.
Qed.

Lemma concat_rows (c n : nat) (d : list f32) :
  concat (map (row_at c d) (seq 0 n)) = take (n * c) d.
Proof.
  induction n as [|n IH]; [by rewrite take_0|].
  rewrite seq_S, map_app, concat_app, IH. cbn [map concat Nat.add].
  rewrite app_nil_r. unfold row_at.
  rewrite take_take_drop. f_equal. lia.
Qed.

Lemma lookup_first_column (m n i : nat) (d : list f32) :
  length d = (n * m)%nat -> (0 < m)%nat -> (i < n)%nat ->
  first_column m d n !! i = d !! (i * m)%nat.
Proof.
  intros Hd Hm Hi.
  assert (Hrow : row_at 1 (first_column m d n) i = take 1 (row_at m d i)).
  { apply (row_at_chunks (fun i => take 1 (row_at m d i))); [|done].
    intros j Hj. rewrite length_take, (length_row_at n) by done. lia. }
  apply (f_equal (fun l => l !! 0%nat)) in Hrow.
  unfold row_at in Hrow.
  rewrite !lookup_take_lt, !lookup_drop in Hrow by lia.
  by rewrite !Nat.add_0_r, Nat.mul_1_r in Hrow.
Qed.

(** X7. Of an opacity array with several values per point the encoder
    writes the first one only: the file is the one written for the array
    reduced to its first column. *)
Theorem write_gaussian_ply_first_opacity_column
    (means opacities scales quats sh : ndarray) (n m : nat) :
  shape_at means 0 = n ->
  (0 < n)%nat -> (0 < m)%nat ->
  size opacities = (n * m)%nat ->
  write_gaussian_ply means opacities scales quats sh
  = write_gaussian_ply means
      (NDArray [n; 1%nat] (first_column m (data opacities) n)) scales quats sh
  /\ forall i, (i < n)%nat ->
       first_column m (data opacities) n !! i
       = data opacities !! (i * m)%nat.
Proof.
  intros Hmeans Hn Hm Hsize.
  split; [|intros i Hi; by apply lookup_first_column].
  assert (Hcol : length (first_column m (data opacities) n) = (n * 1)%nat).
  { apply length_concat_chunks. intros j Hj.
    rewrite length_take, (length_row_at n) by done. lia. }
  assert (Hnorm :
    (if negb (shape_at (NDArray [n; m] (data opacities)) 1 =? 1)%nat
     then slice_cols 1 (NDArray [n; m] (data opacities))
     else NDArray [n; m] (data opacities))
    = NDArray [n; 1%nat] (first_column m (data opacities) n)).
  { unfold shape_at. cbn [shape nth].
    destruct (Nat.eqb_spec m 1) as [->|Hm1]; cbn [negb].
    - f_equal. unfold first_column.
      rewrite (map_ext_in _ (row_at 1 (data opacities)));
        [| intros j _; unfold row_at; by rewrite take_take].
      rewrite concat_rows, take_ge; [done | unfold size in Hsize; lia].
    - rewrite (slice_cols_eq (NDArray [n; m] (data opacities)) n m 1) by done.
      replace (Nat.min 1 m) with 1%nat by lia. reflexivity. }
  unfold write_gaussian_ply. rewrite Hmeans.
  rewrite (reshape_rows_ok n m opacities) by done.
  rewrite (reshape_rows_ok n 1 (NDArray _ _)) by done.
  cbv beta iota delta [mbind res_bind]. cbn [data].
  rewrite Hnorm. reflexivity.
Qed.

Lemma write_gaussian_ply_first_opacity_column_witness :
  write_gaussian_ply two_points two_by_two_opacities two_scales two_quats
    two_sh_pairs
  = write_gaussian_ply two_points
      (NDArray [2%nat; 1%nat]
         (first_column 2 (data two_by_two_opacities) 2))
      two_scales two_quats two_sh_pairs
  /\ forall i, (i < 2)%nat ->
       first_column 2 (data two_by_two_opacities) 2 !! i
       = data two_by_two_opacities !! (i * 2)%nat.
Proof.
  apply (write_gaussian_ply_first_opacity_column two_points
           two_by_two_opacities two_scales two_quats two_sh_pairs 2 2).
  - reflexivity.
  - lia.
  - lia.
  - reflexivity.
Defined.

Lemma ply_record_ext
    (means normals f_dc f_rest opacities scales scales' quats quats' : ndarray)
    (i : nat) :
  unpack_row scales i = unpack_row scales' i ->
  unpack_row quats i = unpack_row quats' i ->
  ply_record means normals f_dc f_rest opacities scales quats i
  = ply_record means normals f_dc f_rest opacities scales' quats' i.
Proof. intros Hs Hq. unfold ply_record. by rewrite Hs, Hq. Qed.

Lemma unpack_row_first_rows (n m c i : nat) (a : ndarray) :
  shape a = [m; c] -> (n <= m)%nat -> (i < n)%nat ->
  unpack_row (first_rows_of n a) i = unpack_row a i.
Proof.
  intros Ha Hnm Hi. unfold first_rows_of, shape_at. rewrite Ha. cbn [nth].
  unfold unpack_row. rewrite Ha. cbn [shape data].
  apply Nat.ltb_lt in Hi as Hi'. rewrite Hi'.
  assert ((i <? m)%nat = true) as -> by (apply Nat.ltb_lt; lia).
  f_equal. unfold row_at.
  replace (n * c)%nat with (i * c + (n * c - i * c))%nat by nia.
  rewrite <- take_drop_commute, take_take. f_equal. nia.
Qed.

(** X8. The encoder reads rows [0 .. n-1] of [scales] and [quats] and no
    other: arrays with more rows than there are points are accepted, and
    the file is the one written for their first [n] rows. *)
Theorem write_gaussian_ply_ignores_surplus_rows
    (means opacities scales quats sh : ndarray) (n ms mq : nat) :
  shape_at means 0 = n ->
  shape scales = [ms; 3%nat] -> (n <= ms)%nat ->
  shape quats = [mq; 4%nat] -> (n <= mq)%nat ->
  write_gaussian_ply means opacities scales quats sh
  = write_gaussian_ply means opacities
      (first_rows_of n scales) (first_rows_of n quats) sh.
Proof.
  intros Hn Hs Hms Hq Hmq.
  rewrite !write_gaussian_ply_prepare.
  destruct (ply_prepare means opacities sh) as [p|] eqn:Hp; [|done].
  unfold mbind, res_bind.
  rewrite (for_each_ext _
    (ply_record means (pp_normals p) (pp_f_dc p) (pp_f_rest p)
       (pp_opacities p) (first_rows_of n scales) (first_rows_of n quats)));
    [done|].
  intros i Hi. apply elem_of_seq in Hi.
  rewrite (ply_prepare_n _ _ _ _ Hp), Hn in Hi.
  apply ply_record_ext; symmetry.
  - by apply (unpack_row_first_rows n ms 3); [| |lia].
  - by apply (unpack_row_first_rows n mq 4); [| |lia].
Qed.

Lemma write_gaussian_ply_ignores_surplus_rows_witness :
  write_gaussian_ply two_points two_opacities three_scales three_quats
    two_sh_pairs
  = write_gaussian_ply two_points two_opacities
      (first_rows_of 2 three_scales) (first_rows_of 2 three_quats)
      two_sh_pairs.
Proof.
  apply (write_gaussian_ply_ignores_surplus_rows two_points two_opacities
           three_scales three_quats two_sh_pairs 2 3 3).
  - reflexivity.
  - reflexivity.
  - lia.
  - reflexivity.
  - lia.
Defined.

Lemma ply_record_raises_at_scales
    (means normals f_dc f_rest opacities scales scales' quats : ndarray)
    (i : nat) (b : list byte) (e : exn) :
  ply_record means normals f_dc f_rest opacities scales' quats i = Ok b ->
  unpack_row scales i = Raise e ->
  ply_record means normals f_dc f_rest opacities scales quats i = Raise e.
Proof.
  unfold ply_record, mbind, res_bind. intros Hok Hs. rewrite Hs.
  destruct (unpack_row means i) as [m|]; [|done].
  destruct (struct_pack 3 m); [|done].
  destruct (unpack_row normals i) as [nrm|]; [|done].
  destruct (struct_pack 3 nrm); [|done].
  destruct (unpack_row f_dc i) as [dc|]; [|done].
  destruct (struct_pack 3 dc); [|done].
  destruct (if (0 <? shape_at f_rest 1)%nat then _ else _); [|done].
  destruct (index2 opacities i 0); [|done].
  done.
Qed.

Lemma ply_record_raises_at_quats
    (means normals f_dc f_rest opacities scales quats quats' : ndarray)
    (i : nat) (b : list byte) (e : exn) :
  ply_record means normals f_dc f_rest opacities scales quats' i = Ok b ->
  unpack_row quats i = Raise e ->
  ply_record means normals f_dc f_rest opacities scales quats i = Raise e.
Proof.
  unfold ply_record, mbind, res_bind. intros Hok Hq. rewrite Hq.
  destruct (unpack_row means i) as [m|]; [|done].
  destruct (struct_pack 3 m); [|done].
  destruct (unpack_row normals i) as [nrm|]; [|done].
  destruct (struct_pack 3 nrm); [|done].
  destruct (unpack_row f_dc i) as [dc|]; [|done].
  destruct (struct_pack 3 dc); [|done].
  destruct (if (0 <? shape_at f_rest 1)%nat then _ else _); [|done].
  destruct (index2 opacities i 0); [|done].
  destruct (unpack_row scales i) as [s|]; [|done].
  destruct (struct_pack 3 s); [|done].
  done.
Qed.

Lemma unpack_row_past_rows (m c : nat) (a : ndarray) :
  shape a = [m; c] -> unpack_row a m = Raise IndexError.
Proof.
  intros Ha. unfold unpack_row. rewrite Ha.
  by rewrite Nat.ltb_irrefl.
Qed.

(** X9. A set whose [scales] or [quats] stop short of the points makes
    the encoder raise [IndexError] instead of returning a file: taking
    rows away from either array of a canonical set is never accepted. *)
Theorem write_gaussian_ply_short_rows_raise (n w m : nat)
    (means opacities scales quats sh : ndarray) :
  canonical n w means opacities scales quats sh ->
  (0 < w)%nat -> (m < n)%nat ->
  write_gaussian_ply means opacities (first_rows_of m scales) quats sh
  = Raise IndexError
  /\ write_gaussian_ply means opacities scales (first_rows_of m quats) sh
     = Raise IndexError.
Proof.
  intros Hcan Hw Hm.
  assert (Hn : (0 < n)%nat) by lia.
  pose proof (write_gaussian_ply_canonical n w _ _ _ _ _ Hcan Hn Hw) as Hfull.
  destruct Hcan as [[Hms _] _ [Hss _] [Hqs _] _ _].
  rewrite write_gaussian_ply_prepare in Hfull.
  rewrite !write_gaussian_ply_prepare.
  destruct (ply_prepare means opacities sh) as [p|] eqn:Hp; [|done].
  unfold mbind, res_bind in Hfull |- *.
  assert (Hpn : pp_n p = n).
  { rewrite (ply_prepare_n _ _ _ _ Hp). unfold shape_at. by rewrite Hms. }
  rewrite Hpn in Hfull |- *.
  destruct (for_each _ (seq 0 n)) as [body|] eqn:Hbody; [|done].
  pose proof (for_each_inv _ _ _ Hbody) as Hall.
  assert (Hseq : seq 0 n = seq 0 m ++ m :: seq (S m) (n - m - 1)).
  { replace n with (m + S (n - m - 1))%nat at 1 by lia.
    by rewrite seq_app. }
  rewrite Hseq.
  assert (Hrows : forall (a : ndarray) (c i : nat),
            shape a = [n; c] -> (i < m)%nat ->
            unpack_row (first_rows_of m a) i = unpack_row a i)
    by (intros a c i Ha Hi; apply (unpack_row_first_rows m n c); [done|lia|done]).
  split.
  - rewrite (for_each_first_raise _ _ _ _ IndexError); [done| |].
    + intros i Hi. apply elem_of_seq in Hi.
      destruct (Hall i) as [b Hb]; [apply elem_of_seq; lia|].
      exists b. rewrite <- Hb. apply ply_record_ext; [|done].
      apply (Hrows scales 3%nat); [done | lia].
    + destruct (Hall m) as [b Hb]; [apply elem_of_seq; lia|].
      eapply ply_record_raises_at_scales; [exact Hb|].
      apply (unpack_row_past_rows m 3).
      unfold first_rows_of, shape_at. by rewrite Hss.
  - rewrite (for_each_first_raise _ _ _ _ IndexError); [done| |].
    + intros i Hi. apply elem_of_seq in Hi.
      destruct (Hall i) as [b Hb]; [apply elem_of_seq; lia|].
      exists b. rewrite <- Hb. apply ply_record_ext; [done|].
      apply (Hrows quats 4%nat); [done | lia].
    + destruct (Hall m) as [b Hb]; [apply elem_of_seq; lia|].
      eapply ply_record_raises_at_quats; [exact Hb|].
      apply (unpack_row_past_rows m 4).
      unfold first_rows_of, shape_at. by rewrite Hqs.
Qed.

Lemma write_gaussian_ply_short_rows_raise_witness :
  write_gaussian_ply two_points two_opacities (first_rows_of 1 two_scales)
    two_quats two_sh_pairs = Raise IndexError
  /\ write_gaussian_ply two_points two_opacities two_scales
       (first_rows_of 1 two_quats) two_sh_pairs = Raise IndexError.
Proof.
  apply (write_gaussian_ply_short_rows_raise 2 2 1).
  - exact two_points_canonical.
  - lia.
  - lia.
Defined.

(** X10. The encoder raises, and returns no file, for a point set without
    points, for an opacity array whose size is no multiple of the point
    count, for coefficient rows without entries, and for a coefficient
    array of a width divisible by 3 that does not hold [n] rows. *)
Theorem write_gaussian_ply_rejects (means opacities scales quats sh : ndarray) :
  rejected_shapes means opacities sh ->
  exists e, write_gaussian_ply means opacities scales quats sh = Raise e
            /\ (e = ValueError \/ e = IndexError).
Proof.
  unfold rejected_shapes. cbv zeta. set (n := shape_at means 0).
  intros Hbad. rewrite write_gaussian_ply_prepare.
  assert (Hprep : exists e, ply_prepare means opacities sh = Raise e
                            /\ (e = ValueError \/ e = IndexError)).
  { unfold ply_prepare. fold n. unfold mbind, res_bind.
    destruct (reshape_rows n opacities) as [o|] eqn:Ho.
    2: { unfold reshape_rows in Ho.
         destruct (_ || _); [|done]. injection Ho as <-. eauto. }
    apply reshape_rows_inv in Ho as (m & -> & Hsize & Hn).
    destruct Hbad as [Hz | [Hmod | [Hsh | (r & w & Hsh & Hw & Hsz)]]].
    - lia.
    - rewrite Hsize, Nat.mul_comm, Nat.Div0.mod_mul in Hmod. done.
    - assert (sh_channels n sh = Ok (sh, 0%nat)) as ->
        by (unfold sh_channels, ndim, shape_at; rewrite Hsh; reflexivity).
      cbv beta iota.
      destruct (reshape_to _ sh) as [flat|] eqn:Hflat.
      + apply reshape_to_inv in Hflat as [-> _]. cbn. eauto.
      + unfold reshape_to in Hflat. destruct (_ =? _)%nat; [done|].
        injection Hflat as <-. eauto.
    - assert (sh_channels n sh = Ok (sh, (w / 3)%nat)) as ->.
      { unfold sh_channels, ndim, shape_at. rewrite Hsh.
        cbn [length Nat.eqb nth]. by rewrite Hw. }
      cbv beta iota.
      unfold reshape_to. cbn [fold_right].
      assert (n * (3 * (w / 3 * 1)) = n * w)%nat as ->.
      { pose proof (Nat.div_mod_eq w 3). nia. }
      apply Nat.eqb_neq in Hsz. rewrite Hsz. eauto. }
  destruct Hprep as (e & -> & He). by exists e.
Qed.

Lemma write_gaussian_ply_rejects_witness :
  exists e,
    write_gaussian_ply two_points two_opacities two_scales two_quats
      (NDArray [2%nat; 0%nat] []) = Raise e
    /\ (e = ValueError \/ e = IndexError).
Proof.
  apply write_gaussian_ply_rejects.
  right. right. left. reflexivity.
Defined.

(* ===================================================================== *)
(** * The request: validation and decoding *)
(* ===================================================================== *)


Lemma for_each_Forall2 {A B : Type} (f : A -> res B) (l : list A) (bs : list B) :
  for_each f l = Ok bs -> Forall2 (fun a b => f a = Ok b) l bs.
Proof.
  revert bs. induction l as [|a l IH]; intros bs; cbn [for_each].
  - intros [= <-]. constructor.
  - destruct (f a) as [b|] eqn:Ha; [|done].
    destruct (for_each f l) as [bs'|]; [|done].
    intros [= <-]. constructor; [done | by apply IH].
Qed.

Section InputFacts.
Context {frame image : Type}.
Variable b64decode : string -> res (list byte).
Variable writable : string -> bool.
Variable decode_video : list byte -> option (capture frame).
Variable to_pil : frame -> image.
Variable open_image : list byte -> res image.


(** X12. In image mode the images reach the model one per submitted key
    and in the order of the keys, each being the decoded key, and no file
    is written; image mode is entered exactly when [video_base64] is
    absent or empty. *)
Theorem reconstruct_input_image_mode (item : request) (fs fs' : filesystem)
    (pil_images : list image) :
  reconstruct_input b64decode writable decode_video to_pil open_image item fs
    = (fs', Ok (pil_images, false)) ->
  fs' = fs
  /\ str_truthy (req_video_base64 item) = false
  /\ exists keys,
       req_scan_asset_keys item = Some keys
       /\ Forall2 (fun key img =>
                     exists raw, b64decode key = Ok raw
                                 /\ open_image raw = Ok img)
            keys pil_images.
Proof.
  unfold reconstruct_input.
  destruct item as [cid vid keys]. cbn [req_case_id req_video_base64
    req_scan_asset_keys].
  destruct cid as [[|c0 cid]|]; cbn [str_truthy negb]; try done.
  assert (Himage : forall ks : option (list string),
    list_truthy ks = true ->
    (pil ← image_frames b64decode open_image (default [] ks);
     mret (M := io) (pil, false)) fs = (fs', Ok (pil_images, false)) ->
    fs' = fs /\ exists keys0, ks = Some keys0
      /\ Forall2 (fun key img => exists raw, b64decode key = Ok raw
                                   /\ open_image raw = Ok img)
           keys0 pil_images).
  { intros ks Hks.
    destruct ks as [[|k ks]|]; [done | | done]. cbn [default from_option id].
    unfold image_frames, or_error_response, io_lift, mbind, io_bind, mret,
      io_ret.
    destruct (for_each (decode_image b64decode open_image) (k :: ks))
      as [imgs|] eqn:Himgs; [|done].
    intros [= <- <-]. split; [done|]. eexists. split; [done|].
    apply for_each_Forall2 in Himgs.
    eapply Forall2_impl; [exact Himgs|].
    intros key img Hdec. unfold decode_image, mbind, res_bind in Hdec.
    destruct (b64decode key) as [raw|]; [|done]. by exists raw. }
  destruct vid as [[|c v]|]; cbn [str_truthy negb andb].
  - destruct (list_truthy keys) eqn:Hk; cbn [negb]; [|done].
    intros H. destruct (Himage keys Hk H) as [-> Hrest]. done.
  - unfold mbind, io_bind, mret, io_ret.
    destruct (video_frames _ _ _ _ _ _ fs) as [fs1 [imgs|e]]; done.
  - destruct (list_truthy keys) eqn:Hk; cbn [negb]; [|done].
    intros H. destruct (Himage keys Hk H) as [-> Hrest]. done.
Qed.
End InputFacts.

Lemma reconstruct_input_image_mode_witness :
  (∅ : filesystem) = ∅
  /\ str_truthy (req_video_base64 three_images) = false
  /\ exists keys,
       req_scan_asset_keys three_images = Some keys
       /\ Forall2 (fun key img =>
                     exists raw, b64_any key = Ok raw
                                 /\ open_nonempty raw = Ok img)
            keys [2; 2; 2]%nat.
Proof.
  apply (reconstruct_input_image_mode b64_any tmp_writable opens_nothing
           (fun i : nat => i) open_nonempty three_images ∅ ∅ [2; 2; 2]%nat).
  vm_compute. reflexivity.
Defined.

(* ===================================================================== *)
(** * From the adapter to the encoder *)
(* ===================================================================== *)

Lemma slice_cols_shape (k n m : nat) (d : list f32) :
  length d = (n * m)%nat ->
  slice_cols k (NDArray [n; m] d)
  = NDArray [n; Nat.min k m]
      (concat (map (fun i => take k (row_at m d i)) (seq 0 n)))
  /\ length (concat (map (fun i => take k (row_at m d i)) (seq 0 n)))
     = (n * Nat.min k m)%nat.
Proof.
  intros Hd. split; [by apply slice_cols_eq|].
  apply length_concat_chunks. intros j Hj.
  by rewrite length_take, (length_row_at n).
Qed.

Lemma opacity_array_shape (n : nat) (conf : pyval) (o : ndarray) :
  opacity_array n conf = Ok o ->
  exists c, (c <= 1)%nat /\ shape o = [n; c]
            /\ length (data o) = (n * c)%nat.
Proof.
  unfold opacity_array.
  destruct conf as [|t|]; cbn [to_numpy]; unfold mbind, res_bind; [| |done].
  - intros [= <-]. exists 1%nat. cbn [shape data].
    by rewrite length_map, length_replicate.
  - destruct (reshape_rows n t) as [r|] eqn:Hr; [|done].
    apply reshape_rows_inv in Hr as (m & -> & Hsz & _).
    intros [= <-].
    destruct (slice_cols_shape 1 n m (data t) Hsz) as [-> Hlen].
    exists (Nat.min 1 m). cbn [shape data]. split; [lia | done].
Qed.

Lemma scales_array_shape (n : nat) (scales : pyval) (s : ndarray) :
  scales_array n scales = Ok s ->
  shape s = [n; 3%nat] /\ length (data s) = (n * 3)%nat.
Proof.
  unfold scales_array.
  destruct scales as [|t|]; cbn [to_numpy]; unfold mbind, res_bind; [| |done].
  - intros [= <-]. unfold full. cbn [shape data fold_right].
    rewrite length_replicate. split; [done | lia].
  - intros H. apply reshape_to_inv in H as [-> Hsz].
    cbn [fold_right] in Hsz. unfold size in Hsz. cbn [shape data].
    split; [done | lia].
Qed.

Lemma quats_array_shape (n : nat) (quats : pyval) (q : ndarray) :
  quats_array n quats = Ok q ->
  shape q = [n; 4%nat] /\ length (data q) = (n * 4)%nat.
Proof.
  unfold quats_array.
  destruct quats as [|t|]; cbn [to_numpy]; unfold mbind, res_bind; [| |done].
  - intros [= <-]. unfold identity_quats. cbn [shape data]. split; [done|].
    induction n as [|n IH]; [done|]. cbn [replicate concat].
    rewrite length_app, IH. cbn [length]. lia.
  - intros H. apply reshape_to_inv in H as [-> Hsz].
    cbn [fold_right] in Hsz. unfold size in Hsz. cbn [shape data].
    split; [done | lia].
Qed.

Lemma sh_array_shape (n : nat) (sh_coeffs : pyval) (h : ndarray) :
  sh_array n sh_coeffs = Ok h ->
  exists w, shape h = [n; w] /\ length (data h) = (n * w)%nat.
Proof.
  unfold sh_array.
  destruct sh_coeffs as [|t|]; cbn [to_numpy]; unfold mbind, res_bind;
    [| |done].
  - intros [= <-]. exists 3%nat. unfold zeros, full. cbn [shape data fold_right].
    rewrite length_replicate. split; [done | lia].
  - intros H. apply reshape_rows_inv in H as (m & -> & Hsz & _).
    by exists m.
Qed.

Lemma response_colors_shape (n w : nat) (sh_np : ndarray) :
  shape sh_np = [n; w] -> length (data sh_np) = (n * w)%nat ->
  exists c, (c = 3%nat \/ c = 0%nat)
    /\ shape (response_colors sh_np) = [n; c]
    /\ length (data (response_colors sh_np)) = (n * c)%nat.
Proof.
  intros Hs Hd. unfold response_colors, sh_dc_to_rgb, response_sh_dc.
  replace (shape_at sh_np 1) with w by (unfold shape_at; by rewrite Hs).
  assert (Hself : sh_np = NDArray [n; w] (data sh_np))
    by (destruct sh_np; cbn in *; by subst).
  destruct (Nat.leb_spec 3 w) as [Hw|Hw].
  - rewrite Hself. destruct (slice_cols_shape 3 n w (data sh_np) Hd) as [-> Hl].
    exists (Nat.min 3 w). cbn [shape data]. rewrite length_map.
    split; [lia | done].
  - rewrite Hself. destruct (slice_cols_shape 1 n w (data sh_np) Hd) as [-> Hl].
    rewrite (tile3_eq _ n (Nat.min 1 w)) by done.
    exists (3 * Nat.min 1 w)%nat. cbn [shape data]. rewrite length_map.
    split; [lia|]. split; [done|].
    apply length_concat_chunks. intros j Hj. cbv zeta.
    rewrite !length_app, (length_row_at n) by done. lia.
Qed.

Lemma extract_gaussians_shapes (preds : predictions) (g : gaussians) :
  extract_gaussians preds = Ok g -> extracted_shapes g.
Proof.
  intros Hg.
  destruct (extract_gaussians_inv preds g Hg)
    as (pts & _ & Hp & Hn & Ho & Hs & Hq & Hh & Hc).
  apply reshape_cols_inv in Hp as (n & Hp & Hsz & _).
  rewrite Hp in Hn. cbn in Hn. subst n.
  destruct (sh_array_shape _ _ _ Hh) as (w & Hws & Hwd).
  split.
  - rewrite Hp. cbn [shape data]. done.
  - by apply (opacity_array_shape _ _ _ Ho).
  - by apply (scales_array_shape _ _ _ Hs).
  - by apply (quats_array_shape _ _ _ Hq).
  - by exists w.
  - rewrite Hc. by apply (response_colors_shape _ w).
Qed.

(** X13. Whatever the model returned, a set that step 4 accepts has one
    row per point in every array: positions and scales of 3 columns,
    rotations of 4, at most one opacity column, coefficients of some width,
    and colours of 3 components (of none when the coefficient rows are
    empty); each buffer has the size its shape announces. *)
Theorem extract_gaussians_rows_agree (preds : predictions) (g : gaussians) :
  extract_gaussians preds = Ok g -> extracted_shapes g.
Proof. apply extract_gaussians_shapes. Qed.

Lemma extract_gaussians_rows_agree_witness :
  exists g, extract_gaussians two_point_prediction = Ok g
            /\ extracted_shapes g.
Proof.
  eexists. split; [vm_compute; reflexivity|].
  apply (extract_gaussians_rows_agree two_point_prediction).
  vm_compute. reflexivity.
Defined.

(** X14. Extraction and encoding fit together: a set of at least one
    point that step 4 accepts, with a confidence and a coefficient array
    that are not empty, is a set the encoder accepts, and the file read
    back holds one record per point, with the fields of the point. *)
Theorem extracted_set_encodes (preds : predictions) (g : gaussians) :
  extract_gaussians preds = Ok g ->
  (0 < n_points g)%nat ->
  data (opacity_np g) <> [] ->
  data (sh_np g) <> [] ->
  gaussians_bits g ->
  exists bytes w,
    shape (sh_np g) = [n_points g; w]
    /\ write_gaussian_ply (pts3d_np g) (opacity_np g) (scales_np g)
         (quats_np g) (sh_np g) = Ok bytes
    /\ parse_ply bytes
       = Some (PlyFile (n_points g) (gaussian_properties (group_length w))
                 (map (record_fields (pts3d_np g) (opacity_np g)
                         (scales_np g) (quats_np g) (sh_np g) w)
                      (seq 0 (n_points g)))).
Proof.
  intros Hg Hn Ho Hh Hbits.
  destruct (extract_gaussians_shapes preds g Hg)
    as [Hp (c & Hc & Hos & Hod) Hs Hq (w & Hws & Hwd) _].
  assert (Hw : (0 < w)%nat).
  { destruct w; [|lia]. rewrite Nat.mul_0_r in Hwd.
    by apply nil_length_inv in Hwd. }
  assert (c = 1)%nat as ->.
  { destruct c as [|[|c]]; [|done|lia]. rewrite Nat.mul_0_r in Hod.
    by apply nil_length_inv in Hod. }
  assert (Hcan : canonical (n_points g) w (pts3d_np g) (opacity_np g)
                   (scales_np g) (quats_np g) (sh_np g)).
  { split; try done. lia. }
  destruct (write_then_parse _ _ _ _ _ _ _ Hcan Hn Hw)
    as (bytes & Hwrite & _ & Hparse).
  by exists bytes, w.
Qed.

Lemma extracted_set_encodes_witness :
  exists g bytes w,
    extract_gaussians two_point_prediction = Ok g
    /\ shape (sh_np g) = [n_points g; w]
    /\ write_gaussian_ply (pts3d_np g) (opacity_np g) (scales_np g)
         (quats_np g) (sh_np g) = Ok bytes
    /\ parse_ply bytes
       = Some (PlyFile (n_points g) (gaussian_properties (group_length w))
                 (map (record_fields (pts3d_np g) (opacity_np g)
                         (scales_np g) (quats_np g) (sh_np g) w)
                      (seq 0 (n_points g)))).
Proof.
  destruct (extract_gaussians two_point_prediction) as [g|] eqn:Hg;
    [|vm_compute in Hg; discriminate Hg].
  destruct (extracted_set_encodes two_point_prediction g Hg)
    as (bytes & w & H).
  - vm_compute in Hg. injection Hg as <-. vm_compute. lia.
  - vm_compute in Hg. injection Hg as <-. vm_compute. congruence.
  - vm_compute in Hg. injection Hg as <-. vm_compute. congruence.
  - vm_compute in Hg. injection Hg as <-. unfold gaussians_bits. cbn.
    repeat (apply List.Forall_cons;
            [unfold f32_wf, f32_0_8, f32_half; lia|]).
    apply List.Forall_nil.
  - exists g, bytes, w. split; [reflexivity|]. exact H.
Defined.

(* ===================================================================== *)
(** * The file the encoder leaves behind *)
(* ===================================================================== *)

Lemma write_chunks_record
    (means normals f_dc f_rest opacities scales quats : ndarray) (i : nat)
    (rest : list (res (list byte))) (written : list byte) :
  match ply_record means normals f_dc f_rest opacities scales quats i with
  | Ok b =>
      write_chunks
        (ply_record_chunks means normals f_dc f_rest opacities scales quats i
         ++ rest) written
      = write_chunks rest (written ++ b)
  | Raise e =>
      exists part,
        write_chunks
          (ply_record_chunks means normals f_dc f_rest opacities scales
             quats i ++ rest) written
        = (written ++ part, Raise e)
  end.
Proof.
  unfold ply_record, ply_record_chunks, mbind, res_bind.
  cbn [app write_chunks].
  destruct (unpack_row means i) as [m|];
    [|exists []; by rewrite app_nil_r].
  destruct (struct_pack 3 m) as [b1|];
    [|exists []; by rewrite app_nil_r].
  destruct (unpack_row normals i) as [nrm|]; [|by exists b1].
  destruct (struct_pack 3 nrm) as [b2|]; [|by exists b1].
  destruct (unpack_row f_dc i) as [dc|];
    [|exists (b1 ++ b2); by rewrite !app_assoc].
  destruct (struct_pack 3 dc) as [b3|];
    [|exists (b1 ++ b2); by rewrite !app_assoc].
  destruct (if (0 <? shape_at f_rest 1)%nat then _ else _) as [b4|];
    [|exists (b1 ++ b2 ++ b3); by rewrite !app_assoc].
  destruct (index2 opacities i 0) as [o|];
    [|exists (b1 ++ b2 ++ b3 ++ b4); by rewrite !app_assoc].
  destruct (unpack_row scales i) as [s|];
    [|exists (b1 ++ b2 ++ b3 ++ b4 ++ pack_f32 o); by rewrite !app_assoc].
  destruct (struct_pack 3 s) as [b6|];
    [|exists (b1 ++ b2 ++ b3 ++ b4 ++ pack_f32 o); by rewrite !app_assoc].
  destruct (unpack_row quats i) as [q|];
    [|exists (b1 ++ b2 ++ b3 ++ b4 ++ pack_f32 o ++ b6);
      by rewrite !app_assoc].
  destruct (struct_pack 4 q) as [b7|];
    [|exists (b1 ++ b2 ++ b3 ++ b4 ++ pack_f32 o ++ b6);
      by rewrite !app_assoc].
  by rewrite !app_assoc.
Qed.

Lemma write_chunks_records
    (means normals f_dc f_rest opacities scales quats : ndarray)
    (l : list nat) (written : list byte) :
  match for_each
          (ply_record means normals f_dc f_rest opacities scales quats) l
  with
  | Ok body =>
      write_chunks
        (concat (map (ply_record_chunks means normals f_dc f_rest opacities
                        scales quats) l)) written
      = (written ++ concat body, Ok tt)
  | Raise e =>
      exists part,
        write_chunks
          (concat (map (ply_record_chunks means normals f_dc f_rest
                          opacities scales quats) l)) written
        = (written ++ part, Raise e)
  end.
Proof.
  revert written. induction l as [|i l IH]; intros written.
  - cbn. by rewrite app_nil_r.
  - cbn [for_each map concat].
    pose proof (write_chunks_record means normals f_dc f_rest opacities
                  scales quats i
                  (concat (map (ply_record_chunks means normals f_dc f_rest
                                  opacities scales quats) l)) written) as Hi.
    destruct (ply_record _ _ _ _ _ _ _ i) as [b|e]; [|done].
    rewrite Hi. specialize (IH (written ++ b)).
    destruct (for_each _ l) as [body|e].
    + rewrite IH. cbn [concat]. by rewrite app_assoc.
    + destruct IH as [part ->]. exists (b ++ part). by rewrite app_assoc.
Qed.

Lemma write_gaussian_ply_file_spec (path : string)
    (means opacities scales quats sh : ndarray) (fs : filesystem) :
  match write_gaussian_ply means opacities scales quats sh with
  | Ok bytes =>
      write_gaussian_ply_file path means opacities scales quats sh fs
      = (<[path := bytes]> fs, Ok tt)
  | Raise e =>
      snd (write_gaussian_ply_file path means opacities scales quats sh fs)
      = Raise e
      /\ match ply_prepare means opacities sh with
         | Raise _ =>
             fst (write_gaussian_ply_file path means opacities scales quats
                    sh fs) = fs
         | Ok p =>
             exists part,
               fst (write_gaussian_ply_file path means opacities scales
                      quats sh fs)
               = <[path := list_byte_of_string (pp_header p) ++ part]> fs
         end
  end.
Proof.
  rewrite write_gaussian_ply_prepare. unfold write_gaussian_ply_file.
  destruct (ply_prepare means opacities sh) as [p|e]; [|done].
  unfold mbind, res_bind. cbn [write_chunks].
  pose proof (write_chunks_records means (pp_normals p) (pp_f_dc p)
                (pp_f_rest p) (pp_opacities p) scales quats (seq 0 (pp_n p))
                ([] ++ list_byte_of_string (pp_header p))) as Hrec.
  destruct (for_each _ (seq 0 (pp_n p))) as [body|e].
  - by rewrite Hrec.
  - destruct Hrec as [part ->]. split; [done|]. by exists part.
Qed.

(** X15. The file at [path] after [write_gaussian_ply]: when the call
    returns, exactly the bytes of the encoding; when it raises during the
    preparation, whatever was there before; when it raises in the loop, a
    truncated file, the complete header followed by what was written
    before the failing field. *)
Theorem write_gaussian_ply_file_contents (path : string)
    (means opacities scales quats sh : ndarray) (fs : filesystem) :
  match write_gaussian_ply means opacities scales quats sh with
  | Ok bytes =>
      write_gaussian_ply_file path means opacities scales quats sh fs
      = (<[path := bytes]> fs, Ok tt)
  | Raise e =>
      snd (write_gaussian_ply_file path means opacities scales quats sh fs)
      = Raise e
      /\ match ply_prepare means opacities sh with
         | Raise _ =>
             fst (write_gaussian_ply_file path means opacities scales quats
                    sh fs) = fs
         | Ok p =>
             exists part,
               fst (write_gaussian_ply_file path means opacities scales
                      quats sh fs)
               = <[path := list_byte_of_string (pp_header p) ++ part]> fs
         end
  end.
Proof. apply write_gaussian_ply_file_spec. Qed.

(* ===================================================================== *)
(** * Storing the file and serving it *)
(* ===================================================================== *)

Section PersistFacts.
Variable model_save_ply : option (string -> predictions -> io unit).
Variable commit : filesystem -> filesystem -> res filesystem.

Lemma export_ply_plain (ply_id : string) (preds : predictions) (g : gaussians)
    (fs : filesystem) :
  tries_builtin_export model_save_ply preds = false ->
  export_ply model_save_ply ply_id preds g fs
  = match write_gaussian_ply_file (local_ply_path ply_id)
            (pts3d_np g) (opacity_np g) (scales_np g) (quats_np g)
            (sh_np g) fs with
    | (fs', Ok a) => (fs', Ok a)
    | (fs', Raise exc) =>
        (fs', Raise (HTTPException 500 (Fmt "Failed to write PLY: " exc)))
    end.
Proof.
  intros Hno. unfold export_ply, or_error_response, builtin_export.
  by rewrite Hno.
Qed.

Lemma volume_path_under_mount (filename : string) :
  String.prefix PLY_VOLUME_PATH (volume_path filename) = true.
Proof. reflexivity. Qed.

(** X16. A request that answers with an asset key has stored the complete
    encoding under that key: the key is [gaussians_<id>.ply],
    [download_ply] of the key returns exactly the bytes of the encoder,
    and the temporary file in [/tmp] is gone. *)
Theorem persist_then_download (ply_id : string) (preds : predictions)
    (g : gaussians) (w w' : world) (key : string) :
  commit_persists commit ->
  tries_builtin_export model_save_ply preds = false ->
  persist_ply model_save_ply commit ply_id preds g w = (w', Ok (Some key)) ->
  key = ply_filename ply_id
  /\ local w' !! local_ply_path ply_id = None
  /\ exists bytes,
       write_gaussian_ply (pts3d_np g) (opacity_np g) (scales_np g)
         (quats_np g) (sh_np g) = Ok bytes
       /\ download_ply (volume w') key = FileResponse bytes key.
Proof.
  intros Hcommit Hno. unfold persist_ply.
  rewrite (export_ply_plain _ _ _ _ Hno).
  pose proof (write_gaussian_ply_file_spec (local_ply_path ply_id)
                (pts3d_np g) (opacity_np g) (scales_np g) (quats_np g)
                (sh_np g) (local w)) as Hfile.
  destruct (write_gaussian_ply _ _ _ _ _) as [bytes|e].
  - rewrite Hfile. unfold save_to_volume. cbn [local volume].
    rewrite lookup_insert_eq.
    destruct (commit _ (volume w)) as [v'|] eqn:Hc; [|done].
    intros [= <- <-]. cbn [local volume].
    split; [done|]. split; [apply lookup_delete_eq|].
    exists bytes. split; [done|]. unfold download_ply.
    rewrite (Hcommit _ _ _ _ bytes Hc (volume_path_under_mount _));
      [done | apply lookup_insert_eq].
  - destruct Hfile as [Hr _].
    destruct (write_gaussian_ply_file _ _ _ _ _ _ _) as [fs' r].
    cbn in Hr. by subst r.
Qed.

(** X17. Whenever steps 5 to 7 end without the 500 response, the
    temporary PLY file has been removed from [/tmp]; the asset key is
    either [gaussians_<id>.ply] or [None], and with [None] (the copy or
    the commit failed) the committed volume is what it was. *)
Theorem persist_cleans_up (ply_id : string) (preds : predictions)
    (g : gaussians) (w w' : world) (key : option string) :
  persist_ply model_save_ply commit ply_id preds g w = (w', Ok key) ->
  local w' !! local_ply_path ply_id = None
  /\ (key = None -> volume w' = volume w)
  /\ (forall k, key = Some k -> k = ply_filename ply_id).
Proof.
  unfold persist_ply.
  destruct (export_ply _ _ _ _ (local w)) as [fs [[]|e]]; [|done].
  unfold save_to_volume. cbn [local volume].
  destruct (fs !! local_ply_path ply_id) as [content|].
  - destruct (commit _ (volume w)) as [v'|];
      intros [= <- <-]; cbn [local volume];
      (split; [apply lookup_delete_eq|]); split; try done;
      by intros k [= <-].
  - intros [= <- <-]. cbn [local volume].
    split; [apply lookup_delete_eq|]. done.
Qed.

(** X18. When the encoder raises, steps 5 to 7 end in the 500 response
    that names the encoder's exception, with nothing committed to the
    volume, and without the clean-up of step 7: a file the encoder had
    already opened stays in [/tmp], truncated. *)
Theorem persist_encoder_failure (ply_id : string) (preds : predictions)
    (g : gaussians) (w : world) (e : exn) :
  tries_builtin_export model_save_ply preds = false ->
  write_gaussian_ply (pts3d_np g) (opacity_np g) (scales_np g) (quats_np g)
    (sh_np g) = Raise e ->
  let w' := fst (persist_ply model_save_ply commit ply_id preds g w) in
  snd (persist_ply model_save_ply commit ply_id preds g w)
  = Raise (HTTPException 500 (Fmt "Failed to write PLY: " e))
  /\ volume w' = volume w
  /\ match ply_prepare (pts3d_np g) (opacity_np g) (sh_np g) with
     | Ok p =>
         exists part,
           local w' !! local_ply_path ply_id
           = Some (list_byte_of_string (pp_header p) ++ part)
     | Raise _ => local w' = local w
     end.
Proof.
  intros Hno Hraise. cbv zeta. unfold persist_ply.
  rewrite (export_ply_plain _ _ _ _ Hno).
  pose proof (write_gaussian_ply_file_spec (local_ply_path ply_id)
                (pts3d_np g) (opacity_np g) (scales_np g) (quats_np g)
                (sh_np g) (local w)) as Hfile.
  rewrite Hraise in Hfile. destruct Hfile as [Hr Hfs].
  destruct (write_gaussian_ply_file _ _ _ _ _ _ _) as [fs' r].
  cbn in Hr. subst r. cbn [fst snd local volume].
  split; [done|]. split; [done|].
  destruct (ply_prepare _ _ _) as [p|]; [|done].
  destruct Hfs as [part Hpart]. exists part. cbn in Hpart. rewrite Hpart.
  apply lookup_insert_eq.
Qed.
End PersistFacts.

Lemma commit_mount_persists : commit_persists commit_mount.
Proof.
  intros files committed committed' p content [= <-] Hp Hfile.
  apply lookup_union_Some_l.
  by apply map_lookup_filter_Some.
Qed.

Lemma persist_then_download_witness :
  let w' := fst (persist_ply None commit_mount "id-1" two_point_prediction
                   two_point_set empty_world) in
  "gaussians_id-1.ply" = ply_filename "id-1"
  /\ local w' !! local_ply_path "id-1" = None
  /\ exists bytes,
       write_gaussian_ply (pts3d_np two_point_set) (opacity_np two_point_set)
         (scales_np two_point_set) (quats_np two_point_set)
         (sh_np two_point_set) = Ok bytes
       /\ download_ply (volume w') "gaussians_id-1.ply"
          = FileResponse bytes "gaussians_id-1.ply".
Proof.
  apply (persist_then_download None commit_mount "id-1" two_point_prediction
           two_point_set empty_world).
  - exact commit_mount_persists.
  - reflexivity.
  - vm_compute. reflexivity.
Defined.

Lemma persist_cleans_up_witness :
  let w' := fst (persist_ply None commit_fails "id-1" two_point_prediction
                   two_point_set empty_world) in
  local w' !! local_ply_path "id-1" = None
  /\ ((None : option string) = None -> volume w' = volume empty_world)
  /\ (forall k, (None : option string) = Some k -> k = ply_filename "id-1").
Proof.
  apply (persist_cleans_up None commit_fails "id-1" two_point_prediction
           two_point_set empty_world).
  vm_compute. reflexivity.
Defined.

Lemma persist_encoder_failure_witness :
  let w' := fst (persist_ply None commit_mount "id-1" two_point_prediction
                   short_scales_set empty_world) in
  snd (persist_ply None commit_mount "id-1" two_point_prediction
         short_scales_set empty_world)
  = Raise (HTTPException 500 (Fmt "Failed to write PLY: " IndexError))
  /\ volume w' = volume empty_world
  /\ match ply_prepare (pts3d_np short_scales_set)
             (opacity_np short_scales_set) (sh_np short_scales_set) with
     | Ok p =>
         exists part,
           local w' !! local_ply_path "id-1"
           = Some (list_byte_of_string (pp_header p) ++ part)
     | Raise _ => local w' = local empty_world
     end.
Proof.
  apply (persist_encoder_failure None commit_mount "id-1"
           two_point_prediction short_scales_set empty_world IndexError).
  - reflexivity.
  - vm_compute. reflexivity.
Defined.

(* ===================================================================== *)
(** * Alias lookup: nothing found *)
(* ===================================================================== *)

Lemma extract_tensor_origin (preds : predictions) (keys : list string) :
  _extract_tensor preds keys = PyNone
  \/ exists k, k ∈ keys /\ present preds k = Some (_extract_tensor preds keys).
Proof.
  induction keys as [|k keys IH]; [destruct preds; by left|].
  destruct (present preds k) as [v|] eqn:Hk.
  - right. exists k. split; [left|]. by rewrite (extract_tensor_hit _ _ _ v).
  - rewrite (extract_tensor_skip _ _ _ Hk).
    destruct IH as [IH | (k' & Hin & Hk')]; [by left|].
    right. exists k'. split; [by right | done].
Qed.

(** X19. The lookup invents nothing: what it returns is [None] or the
    value the result holds under one of the candidate names, and it is
    [None] whenever none of the names is a key or an attribute of the
    result, also for an empty candidate list. *)
Theorem extract_tensor_absent (preds : predictions) (keys : list string) :
  (Forall (fun k => present preds k = None) keys ->
   _extract_tensor preds keys = PyNone)
  /\ (_extract_tensor preds keys = PyNone
      \/ exists k, k ∈ keys
           /\ present preds k = Some (_extract_tensor preds keys)).
Proof.
  split; [|apply extract_tensor_origin].
  induction 1 as [|k keys Hk _ IH]; [by destruct preds|].
  by rewrite extract_tensor_skip.
Qed.

Lemma extract_tensor_absent_witness :
  _extract_tensor only_positions opacity_aliases = PyNone.
Proof.
  apply (proj1 (extract_tensor_absent only_positions opacity_aliases)).
  repeat constructor.
Defined.

(* ===================================================================== *)
(** * The body as it arrives: steps 1 and 2 *)
(* ===================================================================== *)

Lemma utf8_chars_cons (c : ascii) (s : string) : utf8_chars (String c s) <> [].
Proof.
  unfold utf8_chars. cbn [utf8_groups].
  destruct (utf8_groups s) as [cont chars].
  destruct (is_continuation c); [done|].
  destruct chars; done.
Qed.


Lemma py_len_truthy (v : json) (n : nat) :
  py_len v = Ok n -> py_truthy v = negb (n =? 0)%nat.
Proof.
  destruct v as [| | | |s|l|d]; cbn; intros [=]; subst.
  - destruct s as [|c s]; [done|].
    pose proof (utf8_chars_cons c s). by destruct (utf8_chars (String c s)).
  - by destruct l.
  - by destruct d.
Qed.




Lemma for_each_fmap {A B C : Type} (f : B -> res C) (g : A -> B) (l : list A) :
  for_each f (g <$> l) = for_each (fun a => f (g a)) l.
Proof.
  induction l as [|a l IH]; [done|].
  cbn [fmap list_fmap for_each]. fold (g <$> l). by rewrite IH.
Qed.

Lemma request_body_lookups (r : request) :
  request_body r !! "case_id" = JStr <$> req_case_id r
  /\ request_body r !! "video_base64" = JStr <$> req_video_base64 r
  /\ request_body r !! "scan_asset_keys"
     = (fun keys => JList (JStr <$> keys)) <$> req_scan_asset_keys r.
Proof.
  destruct r as [[c|] [v|] [k|]]; unfold request_body;
    cbn [req_case_id req_video_base64 req_scan_asset_keys fmap option_fmap
         option_map];
    repeat split; by simplify_map_eq.
Qed.

Section BodyFacts.
Context {frame image : Type}.
Variable b64decode : string -> res (list byte).
Variable writable : string -> bool.
Variable decode_video : list byte -> option (capture frame).
Variable to_pil : frame -> image.
Variable open_image : list byte -> res image.
Variable py_repr : json -> string.




(** X6. The temporary video file is named after the text of the case id
    and nothing else: two bodies that differ only in their case ids, both
    true and of the same text (the number 7 and the string "7", say), go
    through steps 1 and 2 alike, on one and the same file. *)
Theorem case_id_by_text (a b : json) (item : body) (fs : filesystem) :
  py_truthy a = true ->
  py_truthy b = true ->
  format_value py_repr a = format_value py_repr b ->
  parse_and_decode b64decode writable decode_video to_pil open_image py_repr
    (<["case_id" := a]> item) fs
  = parse_and_decode b64decode writable decode_video to_pil open_image py_repr
      (<["case_id" := b]> item) fs.
Proof.
  intros Ha Hb Hab. unfold parse_and_decode.
  rewrite !lookup_insert_eq, !lookup_insert_ne by done.
  cbn [default from_option id]. rewrite Ha, Hb. cbn [negb].
  destruct (no_source _ _) as [[|]|]; [done| |done].
  destruct (use_video_of _) as [[|]|]; [|done|done].
  unfold video_mode. by rewrite Hab.
Qed.

(** On a body of the documented shape the two embeddings of steps 1 and
    2 agree. *)
Lemma request_body_agrees (r : request) (fs : filesystem) :
  parse_and_decode b64decode writable decode_video to_pil open_image py_repr
    (request_body r) fs
  = reconstruct_input b64decode writable decode_video to_pil open_image r fs.
Proof.
  assert (Himg : forall keys : list string,
    image_path b64decode open_image (JList (JStr <$> keys)) fs
    = image_frames b64decode open_image keys fs).
  { intros keys. unfold image_path, image_frames, or_error_response, io_lift.
    cbn [py_iter]. unfold mbind at 1, res_bind. by rewrite for_each_fmap. }
  destruct (request_body_lookups r) as (Hc & Hv & Hk).
  unfold parse_and_decode, reconstruct_input. rewrite Hc, Hv, Hk.
  destruct r as [cid vid keys].
  cbn [req_case_id req_video_base64 req_scan_asset_keys].
  destruct cid as [[|c0 cid]|]; [done | | done].
  cbn [fmap option_fmap option_map default from_option id py_truthy
       str_truthy negb].
  assert (Himages : forall k ks,
    match py_len (JList (JStr <$> (k :: ks))) with
    | Ok _ =>
        pil_images ← image_path b64decode open_image
                       (JList (JStr <$> (k :: ks)));
        mret (M := io) (pil_images, false)
    | Raise e => io_raise e
    end fs
    = (pil_images ← image_frames b64decode open_image (k :: ks);
       mret (M := io) (pil_images, false)) fs).
  { intros k ks. cbn [py_len]. unfold mbind, io_bind.
    by rewrite (Himg (k :: ks)). }
  destruct vid as [[|c v]|];
    cbn [fmap option_fmap option_map default from_option id str_truthy
         negb andb].
  - destruct keys as [[|k keys]|]; [done | | done].
    cbn [fmap option_fmap option_map default from_option id list_truthy negb].
    exact (Himages k keys).
  - unfold no_source, use_video_of. cbn [py_truthy py_len].
    unfold mbind at 1, res_bind.
    pose proof (utf8_chars_cons c v) as Hne.
    destruct (utf8_chars (String c v)) as [|ch chs]; [done|]. done.
  - destruct keys as [[|k keys]|]; [done | | done].
    cbn [fmap option_fmap option_map default from_option id list_truthy negb].
    exact (Himages k keys).
Qed.
End BodyFacts.

Lemma case_id_by_text_witness :
  parse_and_decode b64_any tmp_writable opens_clip (fun i : nat => i)
    open_nonempty repr_none (<["case_id" := JInt 7]> video_only) ∅
  = parse_and_decode b64_any tmp_writable opens_clip (fun i : nat => i)
      open_nonempty repr_none (<["case_id" := JStr "7"]> video_only) ∅.
Proof.
  apply (case_id_by_text b64_any tmp_writable opens_clip (fun i : nat => i)
           open_nonempty repr_none (JInt 7) (JStr "7") video_only ∅).
  - reflexivity.
  - reflexivity.
  - vm_compute. reflexivity.
Defined.

(** A number where the video text belongs: the request ends in a
    [TypeError] of [len], outside every [try]. *)
Lemma numeric_video_unhandled :
  parse_and_decode b64_any tmp_writable opens_clip (fun i : nat => i)
    open_nonempty repr_none numeric_video ∅
  = (∅, Raise TypeError).
Proof. vm_compute. reflexivity. Qed.

(* ===================================================================== *)
(** * The whole request: missing fields and their defaults *)
(* ===================================================================== *)

Lemma opacity_array_column (n : nat) (conf : pyval) (o : ndarray) :
  (0 < n)%nat ->
  absent_or conf (fun t => exists m, (0 < m)%nat /\ size t = (n * m)%nat) ->
  opacity_array n conf = Ok o ->
  length (data o) = n.
Proof.
  intros Hn Hconf Ho.
  destruct (opacity_array_shape n conf o Ho) as (c & Hc & _ & Hlen).
  enough (c = 1%nat) by (subst c; lia).
  destruct Hconf as [-> | (t & -> & m & Hm & Hsz)].
  - cbn in Ho. injection Ho as <-. cbn [data] in Hlen.
    rewrite length_map, length_replicate in Hlen. nia.
  - unfold opacity_array in Ho. cbn [to_numpy] in Ho.
    unfold mbind, res_bind in Ho.
    destruct (reshape_rows n t) as [r|] eqn:Hr; [|done].
    apply reshape_rows_inv in Hr as (m' & -> & Hsz' & _).
    injection Ho as <-.
    destruct (slice_cols_shape 1 n m' (data t) Hsz') as [Heq Hl].
    rewrite Heq in Hlen. cbn [data] in Hlen. rewrite Hl in Hlen.
    unfold size in Hsz, Hsz'.
    assert (0 < m')%nat by nia. nia.
Qed.

Lemma sh_array_width (n : nat) (sh_coeffs : pyval) (h : ndarray) :
  (0 < n)%nat ->
  absent_or sh_coeffs
    (fun t => exists m, (0 < m)%nat /\ size t = (n * m)%nat) ->
  sh_array n sh_coeffs = Ok h ->
  exists w, (0 < w)%nat /\ shape h = [n; w]
            /\ length (data h) = (n * w)%nat.
Proof.
  intros Hn Hsh Hh.
  destruct (sh_array_shape n sh_coeffs h Hh) as (w & Hws & Hwd).
  exists w. split; [|done].
  destruct Hsh as [-> | (t & -> & m & Hm & Hsz)].
  - cbn in Hh. injection Hh as <-. cbn in Hws. injection Hws as <-. lia.
  - unfold sh_array in Hh. cbn [to_numpy] in Hh.
    unfold mbind, res_bind in Hh.
    apply reshape_rows_inv in Hh as (m' & -> & Hsz' & _).
    cbn in Hws. injection Hws as <-. unfold size in Hsz, Hsz'. nia.
Qed.

Section RequestFacts.
Context {frame image rng_state : Type}.
Variable b64decode : string -> res (list byte).
Variable writable : string -> bool.
Variable decode_video : list byte -> option (capture frame).
Variable to_pil : frame -> image.
Variable open_image : list byte -> res image.
Variable py_repr : json -> string.
Variable run_model : list image -> res predictions.
Variable model_save_ply : option (string -> predictions -> io unit).
Variable commit : filesystem -> filesystem -> res filesystem.
Variable default_rng : Z -> rng_state.
Variable choice : rng_state -> nat -> nat -> list nat * rng_state.
Variable column_min column_max column_mean : list f32 -> f32.

(** Step 5 returns as soon as the custom writer can encode the set, with
    or without the model's own export. *)
Lemma export_ply_ok (ply_id : string) (preds : predictions) (g : gaussians)
    (fs : filesystem) (bytes : list byte) :
  write_gaussian_ply (pts3d_np g) (opacity_np g) (scales_np g) (quats_np g)
    (sh_np g) = Ok bytes ->
  exists fs', export_ply model_save_ply ply_id preds g fs = (fs', Ok tt).
Proof.
  intros Hw. unfold export_ply, or_error_response.
  destruct (builtin_export _ _ _ fs) as [fs1 [|]]; [by eexists|].
  pose proof (write_gaussian_ply_file_spec (local_ply_path ply_id)
                (pts3d_np g) (opacity_np g) (scales_np g) (quats_np g)
                (sh_np g) fs1) as Hfile.
  rewrite Hw in Hfile. rewrite Hfile. by eexists.
Qed.

Lemma persist_ply_ok (ply_id : string) (preds : predictions) (g : gaussians)
    (w : world) (bytes : list byte) :
  write_gaussian_ply (pts3d_np g) (opacity_np g) (scales_np g) (quats_np g)
    (sh_np g) = Ok bytes ->
  exists w' key,
    persist_ply model_save_ply commit ply_id preds g w = (w', Ok key).
Proof.
  intros Hw. unfold persist_ply.
  destruct (export_ply_ok ply_id preds g (local w) bytes Hw) as [fs' ->].
  destruct (save_to_volume _ _ _) as [w1 key]. by eexists _, _.
Qed.

(** Step 8 answers for every set of at least one point. *)
Lemma build_response_ok (g : gaussians) (key : option string)
    (pil_images : list image) (use_video : bool) :
  choice_without_replacement choice ->
  extracted_shapes g ->
  (0 < n_points g)%nat ->
  exists resp,
    build_response default_rng choice column_min column_max column_mean
      g key pil_images use_video = Ok resp
    /\ gaussian_asset_key resp = key
    /\ point_count (processing_stats_of resp) = n_points g
    /\ input_images (processing_stats_of resp) = length pil_images
    /\ count (point_cloud_of resp)
       = Nat.min (n_points g) MAX_POINTS_IN_RESPONSE.
Proof.
  intros Hrng [[Hp _] _ _ _ _ (c & _ & Hc & _)] Hn.
  unfold build_response, reduce_rows.
  replace (shape_at (pts3d_np g) 0) with (n_points g)
    by (unfold shape_at; by rewrite Hp).
  destruct (Nat.eqb_spec (n_points g) 0) as [H0|_]; [lia|].
  unfold mbind, res_bind.
  destruct (response_point_cloud_ok default_rng choice (n_points g) c
              (pts3d_np g) (colors_rgb g) Hrng Hp Hc) as (pc & -> & Hcount).
  eexists. split; [reflexivity|]. by cbn.
Qed.

(** Without points there is no response, whichever way the file was
    exported: the bounding box has nothing to reduce. *)
Lemma reconstruct_result_needs_points (preds : predictions) (g : gaussians)
    (pil_images : list image) (use_video : bool) (ply_id : string)
    (w : world) :
  extract_gaussians preds = Ok g ->
  n_points g = 0%nat ->
  exists e,
    snd (reconstruct_result model_save_ply commit default_rng choice
           column_min column_max column_mean preds pil_images use_video
           ply_id w)
    = Raise e.
Proof.
  intros Hg Hn. unfold reconstruct_result. rewrite Hg.
  destruct (persist_ply _ _ _ _ _ w) as [w' [key|e]]; [|by eexists].
  cbn [snd]. unfold build_response, reduce_rows.
  destruct (extract_gaussians_shapes preds g Hg) as [[Hp _] _ _ _ _ _].
  replace (shape_at (pts3d_np g) 0) with (n_points g)
    by (unfold shape_at; by rewrite Hp).
  rewrite Hn. by eexists.
Qed.

(** C7, for at least one point.  When the model returns positions for
    [n >= 1] points and lacks any of the optional fields (those it has
    being of a size the adapter accepts, with at least one confidence
    value and one coefficient per point), the request succeeds: step 4
    fills each missing field with its default at every point (opacity 0.8,
    scale -5.0 on the three axes, rotation (1, 0, 0, 0), a zero coefficient
    vector of length 3), every array has [n] rows, the file is written
    and the response reports the [n] points. *)
Theorem missing_fields_get_defaults
    (item : body) (ply_id : string) (w : world) (fs1 : filesystem)
    (pil_images : list image) (use_video : bool)
    (preds : predictions) (pts : ndarray) (n : nat) :
  choice_without_replacement choice ->
  parse_and_decode b64decode writable decode_video to_pil open_image py_repr
    item (local w) = (fs1, Ok (pil_images, use_video)) ->
  run_model pil_images = Ok preds ->
  _extract_tensor preds position_aliases = PyTensor pts ->
  size pts = (n * 3)%nat ->
  (0 < n)%nat ->
  absent_or (_extract_tensor preds opacity_aliases)
    (fun t => exists m, (0 < m)%nat /\ size t = (n * m)%nat) ->
  absent_or (_extract_tensor preds scale_aliases)
    (fun t => size t = (n * 3)%nat) ->
  absent_or (_extract_tensor preds rotation_aliases)
    (fun t => size t = (n * 4)%nat) ->
  absent_or (_extract_tensor preds sh_aliases)
    (fun t => exists m, (0 < m)%nat /\ size t = (n * m)%nat) ->
  exists g resp w',
    reconstruct b64decode writable decode_video to_pil open_image py_repr
      run_model model_save_ply commit default_rng choice
      column_min column_max column_mean item ply_id w
    = (w', Ok resp)
    /\ point_count (processing_stats_of resp) = n
    /\ count (point_cloud_of resp) = Nat.min n MAX_POINTS_IN_RESPONSE
    /\ extract_gaussians preds = Ok g
    /\ n_points g = n
    /\ length (tolist (pts3d_np g)) = n
    /\ length (tolist (opacity_np g)) = n
    /\ length (tolist (scales_np g)) = n
    /\ length (tolist (quats_np g)) = n
    /\ length (tolist (sh_np g)) = n
    /\ length (tolist (colors_rgb g)) = n
    /\ (_extract_tensor preds opacity_aliases = PyNone ->
        tolist (opacity_np g) = replicate n [f32_0_8])
    /\ (_extract_tensor preds scale_aliases = PyNone ->
        tolist (scales_np g)
        = replicate n [f32_minus_5; f32_minus_5; f32_minus_5])
    /\ (_extract_tensor preds rotation_aliases = PyNone ->
        tolist (quats_np g)
        = replicate n [f32_one; f32_zero; f32_zero; f32_zero])
    /\ (_extract_tensor preds sh_aliases = PyNone ->
        tolist (sh_np g) = replicate n [f32_zero; f32_zero; f32_zero]).
Proof.
  intros Hrng Hin Hrun Hpts Hsz Hn Hconf Hscales Hquats Hsh.
  destruct (extract_gaussians_fills_defaults preds pts n Hpts Hsz)
    as (g & Hg & Hng & _ & Hlp & Hlo & Hls & Hlq & Hlh & Hlc
        & Hdo & Hds & Hdq & Hdh); try done.
  { destruct Hconf as [-> | (t & -> & m & Hm & Ht)]; [by left|].
    right. exists t. split; [done|]. split; [done|]. by exists m. }
  { destruct Hsh as [-> | (t & -> & m & Hm & Ht)]; [by left|].
    right. exists t. split; [done|]. split; [done|]. by exists m. }
  pose proof (extract_gaussians_shapes preds g Hg) as Hshapes.
  destruct (extract_gaussians_inv preds g Hg)
    as (pts' & _ & _ & _ & Ho & _ & _ & Hh & _).
  rewrite Hng in Ho, Hh.
  pose proof (opacity_array_column n _ _ Hn Hconf Ho) as Hod.
  destruct (sh_array_width n _ _ Hn Hsh Hh) as (wd & Hwd & Hhs & Hhd).
  destruct Hshapes as [[Hps Hpd] _ [Hss Hsd] [Hqs Hqd] _ _].
  rewrite Hng in Hps, Hpd, Hss, Hsd, Hqs, Hqd.
  pose proof (write_gaussian_ply_shaped n wd (pts3d_np g) (opacity_np g)
                (scales_np g) (quats_np g) (sh_np g)
                Hps Hpd Hod Hss Hsd Hqs Hqd Hhs Hhd Hn Hwd) as Hwrite.
  destruct (persist_ply_ok ply_id preds g (World fs1 (volume w)) _ Hwrite)
    as (w' & key & Hpersist).
  destruct (build_response_ok g key pil_images use_video Hrng
              (extract_gaussians_shapes preds g Hg))
    as (resp & Hresp & _ & Hcount & _ & Hpc); [lia|].
  exists g, resp, w'. split.
  { unfold reconstruct, on_local. rewrite Hin, Hrun.
    unfold reconstruct_result. rewrite Hg, Hpersist. by rewrite Hresp. }
  rewrite Hcount, Hpc, Hng. done.
Qed.
End RequestFacts.

(** C7 as stated, for every [n], fails at [n = 0]: positions for no point
    and nothing else pass step 4 with every default in place, and the
    request ends in the 500 response of step 5, the encoder refusing to
    reshape the opacities of an empty set. *)
Lemma request_without_points_fails :
  (exists g, extract_gaussians no_positions = Ok g /\ n_points g = 0%nat)
  /\ reconstruct b64_any tmp_writable opens_nothing (fun i : nat => i)
       open_nonempty repr_none returns_no_points None commit_mount
       (fun _ => tt) first_indices first_of first_of first_of
       three_images_body "id-1" empty_world
     = (empty_world,
        Raise (HTTPException 500 (Fmt "Failed to write PLY: " ValueError))).
Proof. split; [eexists; split|]; vm_compute; reflexivity. Qed.

Lemma missing_fields_get_defaults_witness :
  exists g resp w',
    reconstruct b64_any tmp_writable opens_nothing (fun i : nat => i)
      open_nonempty repr_none returns_two_points None commit_mount
      (fun _ => tt) first_indices first_of first_of first_of
      three_images_body "id-1" empty_world
    = (w', Ok resp)
    /\ point_count (processing_stats_of resp) = 2%nat
    /\ gaussian_asset_key resp = Some "gaussians_id-1.ply"
    /\ extract_gaussians only_positions = Ok g
    /\ tolist (opacity_np g) = [[f32_0_8]; [f32_0_8]]
    /\ tolist (quats_np g)
       = [[f32_one; f32_zero; f32_zero; f32_zero];
          [f32_one; f32_zero; f32_zero; f32_zero]].
Proof.
  destruct (missing_fields_get_defaults b64_any tmp_writable opens_nothing
              (fun i : nat => i) open_nonempty repr_none returns_two_points
              None commit_mount (fun _ => tt) first_indices
              first_of first_of first_of
              three_images_body "id-1" empty_world ∅ [2; 2; 2]%nat false
              only_positions (NDArray [2%nat; 3%nat] [1; 2; 3; 4; 5; 6]) 2)
    as (g & resp & w' & Hr & Hpc & _ & Hg & _ & _ & _ & _ & _ & _ & _
        & Ho & _ & Hq & _).
  - exact first_indices_contract.
  - vm_compute. reflexivity.
  - reflexivity.
  - vm_compute. reflexivity.
  - vm_compute. reflexivity.
  - lia.
  - left. vm_compute. reflexivity.
  - left. vm_compute. reflexivity.
  - left. vm_compute. reflexivity.
  - left. vm_compute. reflexivity.
  - exists g, resp, w'. split; [exact Hr|]. split; [exact Hpc|].
    split.
    { vm_compute in Hr. injection Hr as _ <-. reflexivity. }
    split; [exact Hg|].
    split; [apply Ho | apply Hq]; vm_compute; reflexivity.
Defined.

(* ===================================================================== *)
(** * Values at the edge of the types: examples *)
(* ===================================================================== *)

(** A signalling [nan] among the positions, 0x7F800001, is stored quiet,
    as 0x7FC00001; the other fields are stored as they are. *)
Lemma signalling_nan_stored_quiet :
  pack_f32 0x7F800001 = le_bytes 0x7FC00001
  /\ (ply_records <$>
       (match write_gaussian_ply
                (NDArray [1%nat; 3%nat] [0x7F800001; f32_one; f32_one])
                one_opacity one_scale one_quat
                (NDArray [1%nat; 3%nat] [f32_zero; f32_zero; f32_zero]) with
        | Ok bytes => parse_ply bytes
        | Raise _ => None
        end))
     = Some [[0x7FC00001; f32_one; f32_one; 0; 0; 0; 0; 0; 0; f32_0_8;
              f32_minus_5; f32_minus_5; f32_minus_5;
              f32_one; f32_zero; f32_zero; f32_zero]].
Proof. split; vm_compute; reflexivity. Qed.

(** A [nan] coefficient keeps its sign and payload in the colour. *)
Lemma shade_keeps_nan_payload :
  shade 0xFF800001 = 0xFFC00001 /\ shade 0x7FC00123 = 0x7FC00123.
Proof. split; vm_compute; reflexivity. Qed.

(** Positions of shape (1, 3, 1) are written like positions of shape
    (1, 3); of shape (1, 3, 2) they make [struct.pack] fail. *)
Lemma positions_of_three_dimensions :
  write_gaussian_ply (NDArray [1%nat; 3%nat; 1%nat] [1; 2; 3])
    one_opacity one_scale one_quat degree_one_sh
  = write_gaussian_ply (NDArray [1%nat; 3%nat] [1; 2; 3])
      one_opacity one_scale one_quat degree_one_sh
  /\ write_gaussian_ply (NDArray [1%nat; 3%nat; 2%nat] [1; 2; 3; 4; 5; 6])
       one_opacity one_scale one_quat degree_one_sh
     = Raise StructError.
Proof. split; vm_compute; reflexivity. Qed.

(** A case id that names a directory which is not there: the request ends
    in the 400 response and no file is left. *)
Lemma video_in_missing_directory :
  video_frames b64_any (fun path => negb (String.eqb path "/tmp/a/b_input.mp4"))
    opens_clip (fun i : nat => i) "a/b" "AAE=" ∅
  = (∅, Raise (HTTPException 400
                 (Fmt "Failed to process video input: " OSError))).
Proof. vm_compute. reflexivity. Qed.
